(** * Query layer of the MOBIO database (xbob/db/mobio/query.py)

    A shallow embedding of the [Database] class of [query.py] and the
    verification of its documented behaviour.  Python values that reach
    the query methods are modelled by small inductive types, the
    relational store by lists of rows, and the methods themselves by
    functions in an error monad that also counts the queries sent to the
    store. *)

From Stdlib Require Import List ZArith String Ascii Bool Lia Arith Sorted.
From Equations Require Import Equations.
Import ListNotations.
Open Scope string_scope.
Open Scope Z_scope.

(* ===================================================================== *)
(** ** Python values reaching the selectors *)
(* ===================================================================== *)

(** A selector argument ([protocol], [groups], [purposes], ...) is [None],
    a string, or a tuple or list of strings. *)
Inductive pyvalue : Type :=
| PyNone
| PyStr (s : string)
| PyTuple (l : list string)
| PyList (l : list string).

(** Python truth value: [None], [''], [()] and [[]] are false. *)
Definition py_truth (v : pyvalue) : bool :=
  match v with
  | PyNone => false
  | PyStr s => negb (String.eqb s "")
  | PyTuple l | PyList l => negb (Nat.eqb (List.length l) 0)
  end.

(** [isinstance(l, (tuple, list))]. *)
Definition is_tuple_or_list (v : pyvalue) : bool :=
  match v with
  | PyTuple _ | PyList _ => true
  | _ => false
  end.

(** [k in s] for two strings: substring test. *)
Fixpoint str_contains (k s : string) : bool :=
  String.prefix k s ||
  match s with
  | EmptyString => false
  | String _ s' => str_contains k s'
  end.

(** Iterating a value: the elements of a tuple or list, the characters
    of a string. *)
Definition py_items (v : pyvalue) : list string :=
  match v with
  | PyNone => []
  | PyStr s => map (fun c => String c EmptyString) (list_ascii_of_string s)
  | PyTuple l | PyList l => l
  end.

Definition str_in (k : string) (l : list string) : bool :=
  existsb (String.eqb k) l.

(** [k in v]. *)
Definition py_in (k : string) (v : pyvalue) : bool :=
  match v with
  | PyNone => false
  | PyStr s => str_contains k s
  | PyTuple l | PyList l => str_in k l
  end.

(** The double quote character, as a string. *)
Definition dquote : string := String (ascii_of_nat 34) EmptyString.

(** [repr()] of a Python 2 string, which is what [str()] of a tuple or
    list shows of each element.  The string is put between single quotes,
    or between double quotes when it holds a single quote and no double
    quote; the quote in use and the backslash are escaped with a
    backslash, tab, newline and carriage return are written [\t], [\n]
    and [\r], and any other character below the space or from 127 on is
    written [\xhh] with two lower-case hexadecimal digits. *)
Definition squote_char : ascii := ascii_of_nat 39.
Definition dquote_char : ascii := ascii_of_nat 34.
Definition backslash_char : ascii := ascii_of_nat 92.

Definition str_has (c : ascii) (s : string) : bool :=
  existsb (Ascii.eqb c) (list_ascii_of_string s).

Definition hex_digit (n : nat) : ascii :=
  nth n (list_ascii_of_string "0123456789abcdef") "0"%char.

Definition py_repr_char (quote c : ascii) : string :=
  let n := nat_of_ascii c in
  if Ascii.eqb c quote || Ascii.eqb c backslash_char
  then String backslash_char (String c EmptyString)
  else if Nat.eqb n 9 then String backslash_char "t"
  else if Nat.eqb n 10 then String backslash_char "n"
  else if Nat.eqb n 13 then String backslash_char "r"
  else if Nat.ltb n 32 || Nat.leb 127 n
       then String backslash_char
              (String "x"%char
                 (String (hex_digit (Nat.div n 16))
                    (String (hex_digit (Nat.modulo n 16)) EmptyString)))
       else String c EmptyString.

Fixpoint py_repr_chars (quote : ascii) (s : string) : string :=
  match s with
  | EmptyString => EmptyString
  | String c r => py_repr_char quote c ++ py_repr_chars quote r
  end.

Definition py_repr_quote (s : string) : ascii :=
  if str_has squote_char s && negb (str_has dquote_char s)
  then dquote_char else squote_char.

Definition py_repr_str (s : string) : string :=
  let quote := py_repr_quote s in
  String quote (py_repr_chars quote s ++ String quote EmptyString).

(** A word [repr()] shows as it is between single quotes: printable
    characters only, with no single quote and no backslash. *)
Definition plain_char (c : ascii) : bool :=
  let n := nat_of_ascii c in
  Nat.leb 32 n && Nat.ltb n 127
  && negb (Ascii.eqb c squote_char) && negb (Ascii.eqb c backslash_char).

Definition plain_word (s : string) : bool :=
  forallb plain_char (list_ascii_of_string s).

(** [str()] of a selector value, as the [%s] of a message shows it. *)
Definition py_str (v : pyvalue) : string :=
  match v with
  | PyNone => "None"
  | PyStr s => s
  | PyTuple [x] => "(" ++ py_repr_str x ++ ",)"
  | PyTuple l => "(" ++ String.concat ", " (map py_repr_str l) ++ ")"
  | PyList l => "[" ++ String.concat ", " (map py_repr_str l) ++ "]"
  end.

(* ===================================================================== *)
(** ** Exceptions and the query monad *)
(* ===================================================================== *)

(** The exceptions the module can raise.  Both the missing-store error and
    the invalid-argument error are [RuntimeError]s, told apart by their
    message. *)
Inductive exn : Type :=
| RuntimeError (msg : string)
| NameError (msg : string)
| AttributeError (msg : string)
| NoResultFound
| MultipleResultsFound.

(** A method either raises or returns, and may send queries to the store;
    the [nat] state counts the queries sent so far. *)
Definition M (A : Type) : Type := nat -> (exn + A) * nat.

Definition ret {A} (a : A) : M A := fun n => (inr a, n).
Definition raise {A} (e : exn) : M A := fun n => (inl e, n).
Definition bind {A B} (m : M A) (k : A -> M B) : M B :=
  fun n => match m n with
           | (inl e, n') => (inl e, n')
           | (inr a, n') => k a n'
           end.
Definition lift {A} (r : exn + A) : M A := fun n => (r, n).

Declare Scope monad_scope.
Delimit Scope monad_scope with monad.
Notation "x <- m ;; k" := (bind m (fun x => k))
  (at level 61, m at next level, right associativity) : monad_scope.
Notation "m ;;; k" := (bind m (fun _ => k))
  (at level 61, right associativity) : monad_scope.
Open Scope monad_scope.

(** Outcome of a method started with no query sent yet. *)
Definition outcome {A} (m : M A) : exn + A := fst (m 0%nat).

(* ===================================================================== *)
(** ** Input validation: [Database.__check_validity__] *)
(* ===================================================================== *)

Definition invalid_msg (obj k : string) (valid : pyvalue) : string :=
  "Invalid " ++ obj ++ " " ++ dquote ++ k ++ dquote ++
  ". Valid values are " ++ py_str valid ++ ", or lists/tuples of those".

(** The [for k in l] loop: the first element outside [valid] raises. *)
Fixpoint check_each (ks : list string) (obj : string) (valid : pyvalue)
  : option exn :=
  match ks with
  | [] => None
  | k :: r =>
      if negb (py_in k valid) then Some (RuntimeError (invalid_msg obj k valid))
      else check_each r obj valid
  end.

(** Distance of a value from a tuple or list: a scalar is wrapped once. *)
Definition wrap_rank (v : pyvalue) : nat :=
  if is_tuple_or_list v then 0%nat else 1%nat.

Equations check_validity (l : pyvalue) (obj : string) (valid default : pyvalue)
  : exn + pyvalue by wf (wrap_rank l) lt :=
check_validity l obj valid default with py_truth l := {
  | false => inr default
  | true with l := {
    | PyStr s => check_validity (PyTuple [s]) obj valid default
    | PyNone => inr default (* not reached: [None] is false *)
    | l' =>
        match check_each (py_items l') obj valid with
        | Some e => inl e
        | None => inr l'
        end } }.

(* ===================================================================== *)
(** ** The relational store *)
(* ===================================================================== *)

(** Modelled from the spec: the schema (models.py) is not part of the
    sources at hand.  Each entity of the data model is a row type holding
    the columns the queries use; the many-to-many relationships
    ([Client.subworld], [File.subworld], [File.protocol_purposes],
    [File.tmodels]) are association tables of key pairs. *)

Module Client.
Record t : Type := mk { id : Z; gender : string; sgroup : string }.
End Client.

Module Subworld.
Record t : Type := mk { id : Z; name : string }.
End Subworld.

Module Protocol.
Record t : Type := mk { id : Z; name : string }.
End Protocol.

Module ProtocolPurpose.
Record t : Type :=
  mk { id : Z; protocol_id : Z; sgroup : string; purpose : string }.
(** Modelled from the spec: the class constants of models.py, with the
    values the data model and the docstrings of query.py give. *)
Definition group_choices : pyvalue := PyTuple ["dev"; "eval"; "world"].
Definition purpose_choices : pyvalue := PyTuple ["enrol"; "probe"].
End ProtocolPurpose.

Module File.
Record t : Type :=
  mk { id : Z; client_id : Z; path : string; session_id : Z;
       speech_type : string; shot_id : Z; device : string }.
End File.

Module TModel.
Record t : Type := mk { id : string; client_id : Z }.
End TModel.

(** Modelled from the spec: [Client.gender_choices] of models.py. *)
Definition gender_choices : pyvalue := PyTuple ["male"; "female"].

Record Store : Type := mkStore {
  t_client : list Client.t;
  t_subworld : list Subworld.t;
  t_protocol : list Protocol.t;
  t_protocolPurpose : list ProtocolPurpose.t;
  t_file : list File.t;
  t_tmodel : list TModel.t;
  (** (subworld id, client id) *)
  subworld_client_association : list (Z * Z);
  (** (subworld id, file id) *)
  subworld_file_association : list (Z * Z);
  (** (protocol purpose id, file id) *)
  protocolPurpose_file_association : list (Z * Z);
  (** (tmodel id, file id) *)
  tmodel_file_association : list (string * Z)
}.

(** The [Database] object: its [session] is [None] when the SQLite file
    was not found by [connect].  The module constants [INFO.name()] and
    [SQLITE_FILE], which come from the driver, travel with the object. *)
Record Database : Type := mkDatabase {
  INFO_name : string;
  SQLITE_FILE : string;
  session : option Store
}.

(* ===================================================================== *)
(** ** Relational operators *)
(* ===================================================================== *)

(** Inner join of the rows of a query with the entities related to
    each row. *)
Definition join {A B} (rows : list A) (related : A -> list B)
  : list (A * B) :=
  flat_map (fun a => map (pair a) (related a)) rows.

(** Join through a relationship followed by a filter on the joined
    entity, for a query whose later clauses use the columns of the
    row only: one copy of the row per related entity that passes. *)
Definition join_where {A B} (rows : list A) (related : A -> list B)
  (p : B -> bool) : list A :=
  flat_map (fun a => map (fun _ => a) (filter p (related a))) rows.

(** [column.in_(values)]. *)
Definition in_ (x : string) (values : pyvalue) : bool :=
  str_in x (py_items values).

Definition in_ids (x : Z) (values : list Z) : bool :=
  existsb (Z.eqb x) values.

(** [ORDER BY]: insertion sort on a total preorder. *)
Fixpoint insert_by {A} (leb : A -> A -> bool) (x : A) (l : list A) : list A :=
  match l with
  | [] => [x]
  | y :: r => if leb x y then x :: l else y :: insert_by leb x r
  end.

Fixpoint order_by {A} (leb : A -> A -> bool) (l : list A) : list A :=
  match l with
  | [] => []
  | x :: r => insert_by leb x (order_by leb r)
  end.

(** A query for one mapped entity yields each object once: the session
    keeps one object per primary key, and rows that load an object
    already seen are dropped. *)
Fixpoint unique_from {A K} (keq : K -> K -> bool) (key : A -> K)
  (seen : list K) (l : list A) : list A :=
  match l with
  | [] => []
  | x :: r =>
      if existsb (keq (key x)) seen then unique_from keq key seen r
      else x :: unique_from keq key (key x :: seen) r
  end.

Definition unique_list {A K} (keq : K -> K -> bool) (key : A -> K)
  (l : list A) : list A :=
  unique_from keq key [] l.

(** The navigations through the association tables. *)
Definition Client_subworld (st : Store) (c : Client.t) : list Subworld.t :=
  flat_map (fun a : Z * Z =>
              if snd a =? Client.id c
              then filter (fun s => Subworld.id s =? fst a) (t_subworld st)
              else [])
           (subworld_client_association st).

Definition File_subworld (st : Store) (f : File.t) : list Subworld.t :=
  flat_map (fun a : Z * Z =>
              if snd a =? File.id f
              then filter (fun s => Subworld.id s =? fst a) (t_subworld st)
              else [])
           (subworld_file_association st).

Definition File_protocol_purposes (st : Store) (f : File.t)
  : list ProtocolPurpose.t :=
  flat_map (fun a : Z * Z =>
              if snd a =? File.id f
              then filter (fun p => ProtocolPurpose.id p =? fst a)
                          (t_protocolPurpose st)
              else [])
           (protocolPurpose_file_association st).

Definition File_client (st : Store) (f : File.t) : list Client.t :=
  filter (fun c => Client.id c =? File.client_id f) (t_client st).

Definition TModel_client (st : Store) (m : TModel.t) : list Client.t :=
  filter (fun c => Client.id c =? TModel.client_id m) (t_client st).

Definition ProtocolPurpose_protocol (st : Store) (p : ProtocolPurpose.t)
  : list Protocol.t :=
  filter (fun q => Protocol.id q =? ProtocolPurpose.protocol_id p)
         (t_protocol st).

Definition File_tmodels (st : Store) (f : File.t) : list TModel.t :=
  flat_map (fun a : string * Z =>
              if snd a =? File.id f
              then filter (fun m => String.eqb (TModel.id m) (fst a))
                          (t_tmodel st)
              else [])
           (tmodel_file_association st).

(** Lexicographic order of
    [File.client_id, File.session_id, File.speech_type, File.shot_id,
     File.device]. *)
Definition lex (c : comparison) (rest : comparison) : comparison :=
  match c with Eq => rest | _ => c end.

Definition File_compare (a b : File.t) : comparison :=
  lex (File.client_id a ?= File.client_id b)
  (lex (File.session_id a ?= File.session_id b)
  (lex (String.compare (File.speech_type a) (File.speech_type b))
  (lex (File.shot_id a ?= File.shot_id b)
       (String.compare (File.device a) (File.device b))))).

Definition File_leb (a b : File.t) : bool :=
  match File_compare a b with Gt => false | _ => true end.

Definition Client_leb (a b : Client.t) : bool := Client.id a <=? Client.id b.

Definition TModel_leb (a b : TModel.t) : bool :=
  String.leb (TModel.id a) (TModel.id b).

(** Modelled from the spec: [File.make_path] of models.py joins the
    directory, the stored stem and the extension the way [os.path.join]
    does on a POSIX system. *)
Definition os_path_join (a b : string) : string :=
  if String.prefix "/" b then b
  else if String.eqb a "" then b
  else if String.eqb (String.substring (String.length a - 1) 1 a) "/"
       then a ++ b
       else a ++ "/" ++ b.

Definition make_path (k : File.t) (directory extension : string) : string :=
  os_path_join directory (File.path k ++ extension).

(* ===================================================================== *)
(** ** The methods of [Database] *)
(* ===================================================================== *)

(** [self.session], used as a session: [None] has no [query]. *)
Definition the_session (self : Database) : M Store :=
  match session self with
  | Some st => ret st
  | None => raise (AttributeError "'NoneType' object has no attribute 'query'")
  end.

(** Running a query ([list(q)], iteration, [count()], [one()]) sends it to
    the store. *)
Definition fetch {A} (rows : list A) : M (list A) :=
  fun n => (inr rows, S n).

Definition one {A} (rows : list A) : M A :=
  l <- fetch rows ;;
  match l with
  | [x] => ret x
  | [] => raise NoResultFound
  | _ => raise MultipleResultsFound
  end.

Fixpoint for_each {A S} (l : list A) (body : A -> S -> M S) (s : S) : M S :=
  match l with
  | [] => ret s
  | x :: r => s' <- body x s ;; for_each r body s'
  end.

(** Reading a local name: a name no statement has bound yet raises. *)
Definition load_name {A} (name : string) (v : option A) : M A :=
  match v with
  | Some a => ret a
  | None => raise (NameError ("global name '" ++ name ++ "' is not defined"))
  end.

Definition is_valid (self : Database) : bool :=
  match session self with Some _ => true | None => false end.

Definition unavailable_msg (self : Database) : string :=
  "Database '" ++ INFO_name self ++
  "' cannot be found at expected location '" ++ SQLITE_FILE self ++
  "'. Create it and then try re-connecting using Database.connect()".

Definition assert_validity (self : Database) : M unit :=
  if negb (is_valid self) then raise (RuntimeError (unavailable_msg self))
  else ret tt.

Definition groups (self : Database) : pyvalue :=
  ProtocolPurpose.group_choices.

Definition genders (self : Database) : pyvalue := gender_choices.

Definition purposes (self : Database) : pyvalue :=
  ProtocolPurpose.purpose_choices.

Definition subworlds (self : Database) : M (list Subworld.t) :=
  assert_validity self ;;;
  st <- the_session self ;;
  fetch (t_subworld st).

Definition subworld_names (self : Database) : M pyvalue :=
  assert_validity self ;;;
  l <- subworlds self ;;
  let retval := map Subworld.name l in
  ret (PyList retval).

Definition has_subworld (self : Database) (name : string) : M bool :=
  assert_validity self ;;;
  st <- the_session self ;;
  l <- fetch (filter (fun s => String.eqb (Subworld.name s) name)
                     (t_subworld st)) ;;
  ret (negb (Nat.eqb (List.length l) 0)).

Definition protocols (self : Database) : M (list Protocol.t) :=
  assert_validity self ;;;
  st <- the_session self ;;
  fetch (t_protocol st).

Definition protocol_names (self : Database) : M pyvalue :=
  assert_validity self ;;;
  l <- protocols self ;;
  let retval := map Protocol.name l in
  ret (PyList retval).

Definition has_protocol (self : Database) (name : string) : M bool :=
  assert_validity self ;;;
  st <- the_session self ;;
  l <- fetch (filter (fun p => String.eqb (Protocol.name p) name)
                     (t_protocol st)) ;;
  ret (negb (Nat.eqb (List.length l) 0)).

Definition protocol (self : Database) (name : string) : M Protocol.t :=
  assert_validity self ;;;
  st <- the_session self ;;
  one (filter (fun p => String.eqb (Protocol.name p) name) (t_protocol st)).

Definition protocol_purposes (self : Database) : M (list ProtocolPurpose.t) :=
  assert_validity self ;;;
  st <- the_session self ;;
  fetch (t_protocolPurpose st).

(** The query of [clients], below its comment "List of the clients". *)
Definition clients_query (st : Store) (protocol groups subworld gender : pyvalue)
  : list Client.t :=
  let q := t_client st in
  let q := if py_truth protocol
           then filter (fun c => in_ (Client.gender c) protocol) q else q in
  let q := if py_truth groups
           then filter (fun c => in_ (Client.sgroup c) groups) q else q in
  let q := if py_truth subworld
           then join_where q (Client_subworld st)
                           (fun s => in_ (Subworld.name s) subworld)
           else q in
  let q := if py_truth gender
           then filter (fun c => in_ (Client.gender c) gender) q else q in
  let q := order_by Client_leb q in
  unique_list Z.eqb Client.id q.

(** The argument [groups] hides the method of that name, so the allowed
    groups are taken from the method before the arguments are bound. *)
Definition clients (self : Database) :=
  let VALID_GROUPS := groups self in
  fun (protocol groups subworld gender : pyvalue) =>
  assert_validity self ;;;
  VALID_PROTOCOLS <- protocol_names self ;;
  VALID_SUBWORLDS <- subworld_names self ;;
  let VALID_GENDERS := genders self in
  protocol <- lift (check_validity protocol "protocol" VALID_PROTOCOLS (PyStr "")) ;;
  groups <- lift (check_validity groups "group" VALID_GROUPS (PyStr "")) ;;
  subworld <- lift (check_validity subworld "subworld" VALID_SUBWORLDS (PyStr "")) ;;
  gender <- lift (check_validity gender "gender" VALID_GENDERS (PyStr "")) ;;
  st <- the_session self ;;
  fetch (clients_query st protocol groups subworld gender).

Definition has_client_id (self : Database) (id : Z) : M bool :=
  assert_validity self ;;;
  st <- the_session self ;;
  l <- fetch (filter (fun c => Client.id c =? id) (t_client st)) ;;
  ret (negb (Nat.eqb (List.length l) 0)).

Definition client (self : Database) (id : Z) : M Client.t :=
  assert_validity self ;;;
  st <- the_session self ;;
  one (filter (fun c => Client.id c =? id) (t_client st)).

Definition tclients (self : Database)
  (protocol groups subworld gender : pyvalue) : M (list Client.t) :=
  VALID_PROTOCOLS <- protocol_names self ;;
  let VALID_GROUPS := PyTuple ["dev"; "eval"] in
  VALID_SUBWORLDS <- subworld_names self ;;
  let VALID_GENDERS := genders self in
  protocol <- lift (check_validity protocol "protocol" VALID_PROTOCOLS (PyStr "")) ;;
  groups <- lift (check_validity groups "group" VALID_GROUPS (PyStr "")) ;;
  subworld <- lift (check_validity subworld "subworld" VALID_SUBWORLDS (PyStr "")) ;;
  gender <- lift (check_validity gender "gender" VALID_GENDERS (PyStr "")) ;;
  clients self protocol (PyStr "world") subworld gender.

Definition zclients (self : Database)
  (protocol groups subworld gender : pyvalue) : M (list Client.t) :=
  assert_validity self ;;;
  let VALID_GROUPS := PyTuple ["dev"; "eval"] in
  groups <- lift (check_validity groups "group" VALID_GROUPS (PyStr "")) ;;
  clients self protocol (PyStr "world") subworld gender.

Definition models (self : Database)
  (protocol groups subworld gender : pyvalue) : M (list Client.t) :=
  clients self protocol groups subworld gender.

(** The query of [tmodels]. *)
Definition tmodels_query (st : Store) (subworld gender : pyvalue)
  : list TModel.t :=
  let q := join (t_tmodel st) (TModel_client st) in
  let q := if py_truth subworld
           then join_where q (fun r => Client_subworld st (snd r))
                           (fun s => in_ (Subworld.name s) subworld)
           else q in
  let q := if py_truth gender
           then filter (fun r => in_ (Client.gender (snd r)) gender) q else q in
  let q := order_by (fun a b => TModel_leb (fst a) (fst b)) q in
  unique_list String.eqb TModel.id (map fst q).

(** [tmodels] returns the list of its query; the call of [tclients] that
    follows the return statement in the source is never reached. *)
Definition tmodels (self : Database)
  (protocol groups subworld gender : pyvalue) : M (list TModel.t) :=
  assert_validity self ;;;
  VALID_PROTOCOLS <- protocol_names self ;;
  let VALID_GROUPS := PyTuple ["dev"; "eval"] in
  VALID_SUBWORLDS <- subworld_names self ;;
  let VALID_GENDERS := genders self in
  protocol <- lift (check_validity protocol "protocol" VALID_PROTOCOLS (PyStr "")) ;;
  groups <- lift (check_validity groups "group" VALID_GROUPS (PyStr "")) ;;
  subworld <- lift (check_validity subworld "subworld" VALID_SUBWORLDS (PyStr "")) ;;
  gender <- lift (check_validity gender "gender" VALID_GENDERS (PyStr "")) ;;
  st <- the_session self ;;
  fetch (tmodels_query st subworld gender).

Definition get_client_id_from_model_id (self : Database) (model_id : Z) : Z :=
  model_id.

(** The [model_ids] argument of [objects]: [None], one id that is not
    iterable, or an iterable of ids. *)
Inductive model_ids_value : Type :=
| NoModelIds
| ModelId (m : Z)
| ModelIds (l : list Z).

(** [list(set(retval))]: one entry per File object.  The session holds one
    object per primary key, so objects are told apart by [File.id]; the
    order in which a Python set yields its elements is not specified, and
    nothing below depends on the order chosen here (first occurrence). *)
Definition list_set (retval : list File.t) : list File.t :=
  unique_list Z.eqb File.id retval.

(** The row of the join File, Client, ProtocolPurpose, Protocol. *)
Definition trial_row : Type :=
  (((File.t * Client.t) * ProtocolPurpose.t) * Protocol.t)%type.

Definition row_File (r : trial_row) : File.t := fst (fst (fst r)).
Definition row_Client (r : trial_row) : Client.t := snd (fst (fst r)).
Definition row_ProtocolPurpose (r : trial_row) : ProtocolPurpose.t :=
  snd (fst r).
Definition row_Protocol (r : trial_row) : Protocol.t := snd r.

(** [query(File).join(Client).join(ProtocolPurpose, File.protocol_purposes)
     .join(Protocol).filter(and_(Protocol.name.in_(protocol),
     ProtocolPurpose.sgroup.in_(groups), ProtocolPurpose.purpose == purpose))],
    the query the three dev/eval branches start from. *)
Definition trial_query (st : Store) (protocol groups : pyvalue)
  (purpose : string) : list trial_row :=
  let q := join (t_file st) (File_client st) in
  let q := join q (fun r => File_protocol_purposes st (fst r)) in
  let q := join q (fun r => ProtocolPurpose_protocol st (snd r)) in
  filter (fun r => in_ (Protocol.name (row_Protocol r)) protocol
                   && in_ (ProtocolPurpose.sgroup (row_ProtocolPurpose r)) groups
                   && String.eqb (ProtocolPurpose.purpose (row_ProtocolPurpose r))
                                 purpose) q.

(** The four queries of [objects], each as the list of File objects it
    yields: the world branch, the enrol branch, and the client and
    impostor branches of probe. *)
Definition objects_world (st : Store) (subworld gender : pyvalue)
  (model_ids : list Z) : list File.t :=
  let q := join (t_file st) (File_client st) in
  let q := filter (fun r => String.eqb (Client.sgroup (snd r)) "world") q in
  let q := if py_truth subworld
           then join_where q (fun r => File_subworld st (fst r))
                           (fun s => in_ (Subworld.name s) subworld)
           else q in
  let q := if py_truth gender
           then filter (fun r => in_ (Client.gender (snd r)) gender) q
           else q in
  let q := if negb (Nat.eqb (List.length model_ids) 0)
           then filter (fun r => in_ids (File.client_id (fst r)) model_ids) q
           else q in
  let q := order_by (fun a b => File_leb (fst a) (fst b)) q in
  unique_list Z.eqb File.id (map fst q).

Definition objects_enrol (st : Store) (protocol groups gender : pyvalue)
  (model_ids : list Z) : list File.t :=
  let q := trial_query st protocol groups "enrol" in
  let q := if py_truth gender
           then filter (fun r => in_ (Client.gender (row_Client r)) gender) q
           else q in
  let q := if negb (Nat.eqb (List.length model_ids) 0)
           then filter (fun r => in_ids (Client.id (row_Client r)) model_ids) q
           else q in
  let q := order_by (fun a b => File_leb (row_File a) (row_File b)) q in
  unique_list Z.eqb File.id (map row_File q).

Definition objects_probe_client (st : Store) (protocol groups gender : pyvalue)
  (model_ids : list Z) : list File.t :=
  let q := trial_query st protocol groups "probe" in
  let q := if py_truth gender
           then filter (fun r => in_ (Client.gender (row_Client r)) gender) q
           else q in
  let q := if negb (Nat.eqb (List.length model_ids) 0)
           then filter (fun r => in_ids (Client.id (row_Client r)) model_ids) q
           else q in
  let q := order_by (fun a b => File_leb (row_File a) (row_File b)) q in
  unique_list Z.eqb File.id (map row_File q).

Definition objects_probe_impostor (st : Store)
  (protocol groups gender : pyvalue) (model_ids : list Z) : list File.t :=
  let q := trial_query st protocol groups "probe" in
  let q := if py_truth gender
           then filter (fun r => in_ (Client.gender (row_Client r)) gender) q
           else q in
  let q := if Nat.eqb (List.length model_ids) 1
           then filter (fun r => negb (in_ids (File.client_id (row_File r))
                                              model_ids)) q
           else q in
  let q := order_by (fun a b => File_leb (row_File a) (row_File b)) q in
  unique_list Z.eqb File.id (map row_File q).

(** The part of [objects] below its comment "Now query the database". *)
Definition objects_query (st : Store) (protocol purposes : pyvalue)
  (model_ids : list Z) (groups classes subworld gender : pyvalue)
  : M (list File.t) :=
  let retval : list File.t := [] in
  retval <-
    (if py_in "world" groups then
       l <- fetch (objects_world st subworld gender model_ids) ;;
       ret (retval ++ l)%list
     else ret retval) ;;
  retval <-
    (if py_in "dev" groups || py_in "eval" groups then
       retval <-
         (if py_in "enrol" purposes then
            l <- fetch (objects_enrol st protocol groups gender model_ids) ;;
            ret (retval ++ l)%list
          else ret retval) ;;
       (if py_in "probe" purposes then
          retval <-
            (if py_in "client" classes then
               l <- fetch (objects_probe_client st protocol groups gender
                                                model_ids) ;;
               ret (retval ++ l)%list
             else ret retval) ;;
          (if py_in "impostor" classes then
             l <- fetch (objects_probe_impostor st protocol groups gender
                                                model_ids) ;;
             ret (retval ++ l)%list
           else ret retval)
        else ret retval)
     else ret retval) ;;
  ret (list_set retval).

Definition objects (self : Database) :=
  let VALID_PURPOSES := purposes self in
  let VALID_GROUPS := groups self in
  fun (protocol purposes : pyvalue) (model_ids : model_ids_value)
      (groups classes subworld gender : pyvalue) =>
  assert_validity self ;;;
  VALID_PROTOCOLS <- protocol_names self ;;
  let VALID_CLASSES := PyTuple ["client"; "impostor"] in
  VALID_SUBWORLDS <- subworld_names self ;;
  let VALID_GENDERS := genders self in
  protocol <- lift (check_validity protocol "protocol" VALID_PROTOCOLS VALID_PROTOCOLS) ;;
  purposes <- lift (check_validity purposes "purpose" VALID_PURPOSES VALID_PURPOSES) ;;
  groups <- lift (check_validity groups "group" VALID_GROUPS VALID_GROUPS) ;;
  classes <- lift (check_validity classes "class" VALID_CLASSES VALID_CLASSES) ;;
  subworld <- lift (check_validity subworld "subworld" VALID_SUBWORLDS (PyStr "")) ;;
  gender <- lift (check_validity gender "gender" VALID_GENDERS (PyStr "")) ;;
  let model_ids :=
    match model_ids with
    | NoModelIds => []
    | ModelId m => [m]
    | ModelIds l => l
    end in
  st <- the_session self ;;
  objects_query st protocol purposes model_ids groups classes subworld gender.

Definition tobjects (self : Database)
  (protocol model_ids groups subworld gender : pyvalue) : M (list File.t) :=
  assert_validity self ;;;
  VALID_PROTOCOLS <- protocol_names self ;;
  let VALID_GROUPS := PyTuple ["dev"; "eval"] in
  VALID_SUBWORLDS <- subworld_names self ;;
  let VALID_GENDERS := genders self in
  protocol <- lift (check_validity protocol "protocol" VALID_PROTOCOLS VALID_PROTOCOLS) ;;
  groups <- lift (check_validity groups "group" VALID_GROUPS (PyStr "")) ;;
  subworld <- lift (check_validity subworld "subworld" VALID_SUBWORLDS (PyStr "")) ;;
  gender <- lift (check_validity gender "gender" VALID_GENDERS (PyStr "")) ;;
  let model_ids :=
    match model_ids with
    | PyNone => PyTuple []
    | PyStr s => PyTuple [s]
    | _ => model_ids
    end in
  st <- the_session self ;;
  let retval : list File.t := [] in
  let q := t_file st in
  let q := if py_truth subworld
           then join_where q (File_subworld st)
                           (fun s => in_ (Subworld.name s) subworld)
           else q in
  let q := join q (File_tmodels st) in
  let q := if py_truth model_ids
           then filter (fun r => in_ (TModel.id (snd r)) model_ids) q else q in
  (* [q.join(Client)] names no relationship: it joins from the entity
     joined last, the TModel, through [TModel.client_id]. *)
  let q := if py_truth gender
           then join_where q (fun r => TModel_client st (snd r))
                           (fun c => in_ (Client.gender c) gender)
           else q in
  let q := order_by (fun a b => File_leb (fst a) (fst b)) q in
  l <- fetch (unique_list Z.eqb File.id (map fst q)) ;;
  let retval := (retval ++ l)%list in
  ret retval.

Definition zobjects (self : Database) (protocol : pyvalue)
  (model_ids : model_ids_value) (groups subworld gender : pyvalue)
  : M (list File.t) :=
  assert_validity self ;;;
  let VALID_GROUPS := PyTuple ["dev"; "eval"] in
  groups <- lift (check_validity groups "group" VALID_GROUPS (PyStr "")) ;;
  objects self protocol PyNone model_ids (PyStr "world") PyNone subworld gender.

Definition paths (self : Database) (ids : list Z) (prefix suffix : string)
  : M (list string) :=
  assert_validity self ;;;
  st <- the_session self ;;
  let fobj := filter (fun k => in_ids (File.id k) ids) (t_file st) in
  let retval : list string := [] in
  retval <-
    for_each ids
      (fun p retval =>
         rows <- fetch (unique_list Z.eqb File.id fobj) ;;
         ret (retval ++ map (fun k => make_path k prefix suffix)
                            (filter (fun k => File.id k =? p) rows))%list)
      retval ;;
  ret retval.

(** In [reverse] no statement binds [retval] before the loop reads it. *)
Definition reverse (self : Database) (paths : list string) : M (list Z) :=
  assert_validity self ;;;
  st <- the_session self ;;
  let fobj := filter (fun k => str_in (File.path k) paths) (t_file st) in
  let retval : option (list Z) := None in
  retval <-
    for_each paths
      (fun p retval =>
         r <- load_name "retval" retval ;;
         rows <- fetch (unique_list Z.eqb File.id fobj) ;;
         ret (Some (r ++ map File.id
                      (filter (fun k => String.eqb (File.path k) p) rows))%list))
      retval ;;
  load_name "retval" retval.

(* ===================================================================== *)
(** ** A small store, used by the examples *)
(* ===================================================================== *)

Module Example.

Definition c1 := Client.mk 1 "male" "world".
Definition c2 := Client.mk 2 "female" "world".
Definition c3 := Client.mk 3 "male" "dev".
Definition c4 := Client.mk 4 "male" "dev".
Definition c5 := Client.mk 5 "female" "eval".

Definition f1 := File.mk 1 1 "but/m001/01_mobile" 1 "p" 1 "mobile".
Definition f2 := File.mk 2 2 "but/f002/01_mobile" 1 "p" 1 "mobile".
Definition f3 := File.mk 3 3 "idiap/m003/01_mobile" 1 "p" 1 "mobile".
Definition f4 := File.mk 4 3 "idiap/m003/02_mobile" 2 "p" 1 "mobile".
Definition f5 := File.mk 5 4 "idiap/m004/02_mobile" 2 "p" 1 "mobile".
Definition f6 := File.mk 6 5 "lia/f005/02_mobile" 2 "p" 1 "mobile".

Definition store : Store :=
  {| t_client := [c1; c2; c3; c4; c5];
     t_subworld := [Subworld.mk 1 "onethird"; Subworld.mk 2 "twothirds";
                    Subworld.mk 3 "twothirds-subsampled"];
     t_protocol := [Protocol.mk 1 "male"; Protocol.mk 2 "female"];
     t_protocolPurpose :=
       [ProtocolPurpose.mk 1 1 "dev" "enrol"; ProtocolPurpose.mk 2 1 "dev" "probe";
        ProtocolPurpose.mk 3 1 "eval" "enrol"; ProtocolPurpose.mk 4 1 "eval" "probe";
        ProtocolPurpose.mk 5 2 "dev" "enrol"; ProtocolPurpose.mk 6 2 "dev" "probe";
        ProtocolPurpose.mk 7 2 "eval" "enrol"; ProtocolPurpose.mk 8 2 "eval" "probe"];
     t_file := [f1; f2; f3; f4; f5; f6];
     t_tmodel := [TModel.mk "t001" 1];
     subworld_client_association := [(1, 1); (2, 1); (2, 2)];
     subworld_file_association := [(1, 1); (2, 1); (2, 2)];
     protocolPurpose_file_association := [(1, 3); (2, 4); (2, 5); (8, 6)];
     tmodel_file_association := [("t001", 1)] |}.

(** A connected database and one whose SQLite file was not found. *)
Definition db : Database :=
  {| INFO_name := "mobio"; SQLITE_FILE := "/data/mobio/db.sql3";
     session := Some store |}.

Definition db_missing : Database :=
  {| INFO_name := "mobio"; SQLITE_FILE := "/data/mobio/db.sql3";
     session := None |}.

(** The same store with a second T-norm model, of the female client 2,
    that File 1 of the male client 1 is also attached to. *)
Definition tnorm_store : Store :=
  {| t_client := t_client store;
     t_subworld := t_subworld store;
     t_protocol := t_protocol store;
     t_protocolPurpose := t_protocolPurpose store;
     t_file := t_file store;
     t_tmodel := [TModel.mk "t001" 1; TModel.mk "t002" 2];
     subworld_client_association := subworld_client_association store;
     subworld_file_association := subworld_file_association store;
     protocolPurpose_file_association := protocolPurpose_file_association store;
     tmodel_file_association := [("t001", 1); ("t002", 1)] |}.

Definition tnorm_db : Database :=
  {| INFO_name := "mobio"; SQLITE_FILE := "/data/mobio/db.sql3";
     session := Some tnorm_store |}.

End Example.

(* ===================================================================== *)
(** ** Vocabulary of the statements *)
(* ===================================================================== *)

(** The elements [__check_validity__] inspects: a scalar stands for the
    one-element tuple made of it. *)
Definition checked_items (l : pyvalue) : list string :=
  match l with
  | PyStr s => [s]
  | _ => py_items l
  end.

(** A scalar becomes a one-element tuple; a tuple or list stays itself. *)
Definition as_sequence (l : pyvalue) : pyvalue :=
  match l with
  | PyStr s => PyTuple [s]
  | _ => l
  end.

(** [l] passes validation against [valid]. *)
Definition py_valid (l valid : pyvalue) : bool :=
  negb (py_truth l) || forallb (fun k => py_in k valid) (checked_items l).

(** A message names a piece of text when the text occurs in it. *)
Definition names (msg part : string) : Prop :=
  exists pre suf, msg = pre ++ part ++ suf.

(** The File objects of a store have distinct primary keys. *)
Definition File_primary_key (st : Store) : Prop :=
  NoDup (map File.id (t_file st)).

(** The File object of a given id, if the store has one. *)
Definition File_by_id (st : Store) (p : Z) : option File.t :=
  find (fun k => File.id k =? p) (t_file st).

(** The ids [objects] works with once [model_ids] is normalised. *)
Definition model_ids_list (model_ids : model_ids_value) : list Z :=
  match model_ids with
  | NoModelIds => []
  | ModelId m => [m]
  | ModelIds l => l
  end.

(** The value of [retval] when [objects] reaches its return statement,
    read off the branches: what each branch that is taken appends. *)
Definition objects_retval (st : Store) (protocol purposes : pyvalue)
  (model_ids : list Z) (groups classes subworld gender : pyvalue)
  : list File.t :=
  ((if py_in "world" groups
    then objects_world st subworld gender model_ids else []) ++
   (if py_in "dev" groups || py_in "eval" groups then
      (if py_in "enrol" purposes
       then objects_enrol st protocol groups gender model_ids else []) ++
      (if py_in "probe" purposes then
         (if py_in "client" classes
          then objects_probe_client st protocol groups gender model_ids
          else []) ++
         (if py_in "impostor" classes
          then objects_probe_impostor st protocol groups gender model_ids
          else [])
       else [])
    else []))%list.

(** The number of queries [objects] sends after validation. *)
Definition objects_queries (purposes groups classes : pyvalue) : nat :=
  ((if py_in "world" groups then 1 else 0) +
   (if py_in "dev" groups || py_in "eval" groups then
      (if py_in "enrol" purposes then 1 else 0) +
      (if py_in "probe" purposes then
         (if py_in "client" classes then 1 else 0) +
         (if py_in "impostor" classes then 1 else 0)
       else 0)
    else 0))%nat.

(** The names of the protocols and subworlds registered in a store, as
    [protocol_names] and [subworld_names] return them. *)
Definition protocol_names_of (st : Store) : pyvalue :=
  PyList (map Protocol.name (t_protocol st)).

Definition subworld_names_of (st : Store) : pyvalue :=
  PyList (map Subworld.name (t_subworld st)).

(** The value a selector has after validation: the sequence given, or the
    default when nothing was given. *)
Definition validated (l default : pyvalue) : pyvalue :=
  if py_truth l then as_sequence l else default.

(** A selector of [clients] lets a column value through: it is absent, or
    the value is among the ones given. *)
Definition lets_through (l : pyvalue) (x : string) : Prop :=
  py_truth l = false \/ In x (checked_items l).

(** The Client and Protocol tables have their keys. *)
Definition Client_primary_key (st : Store) : Prop :=
  NoDup (map Client.id (t_client st)).

Definition Protocol_name_unique (st : Store) : Prop :=
  NoDup (map Protocol.name (t_protocol st)).

(** [c] is the row of the Client table that File [f] refers to. *)
Definition File_client_row (st : Store) (f : File.t) (c : Client.t) : Prop :=
  In f (t_file st) /\ In c (t_client st) /\ Client.id c = File.client_id f.

(** File [f] is attached to a protocol purpose of the given purpose, whose
    group is among [groups] and whose protocol is among [protocol]. *)
Definition File_in_purpose (st : Store) (f : File.t)
  (protocol groups : pyvalue) (purpose : string) : Prop :=
  exists pp p,
    In pp (File_protocol_purposes st f) /\
    In p (ProtocolPurpose_protocol st pp) /\
    in_ (Protocol.name p) protocol = true /\
    in_ (ProtocolPurpose.sgroup pp) groups = true /\
    ProtocolPurpose.purpose pp = purpose.

(** File [f] is attached to the T-norm model [m]. *)
Definition File_of_tmodel (st : Store) (f : File.t) (m : TModel.t) : Prop :=
  In f (t_file st) /\ In m (File_tmodels st f).

(** The first value of a selector that is not allowed, if the selector is
    given and has one. *)
Definition first_bad_value (l valid : pyvalue) : option string :=
  if py_truth l
  then find (fun k => negb (py_in k valid)) (checked_items l)
  else None.

(** Selectors in the order a method validates them, each with the name of
    its axis and its allowed values; and the exception their validation
    ends on: the one for the first bad value of the first selector that
    has one. *)
Definition selector : Type := (pyvalue * string * pyvalue)%type.

Fixpoint first_rejection (selectors : list selector) : option exn :=
  match selectors with
  | [] => None
  | (l, obj, valid) :: rest =>
      match first_bad_value l valid with
      | Some k => Some (RuntimeError (invalid_msg obj k valid))
      | None => first_rejection rest
      end
  end.

Definition all_valid (selectors : list selector) : bool :=
  forallb (fun s : selector => py_valid (fst (fst s)) (snd s)) selectors.

(** The selectors of [clients], of [tmodels] and [tobjects], and of
    [objects], in the order of their validation. *)
Definition clients_selectors (st : Store)
  (protocol groups subworld gender : pyvalue) : list selector :=
  [(protocol, "protocol", protocol_names_of st);
   (groups, "group", ProtocolPurpose.group_choices);
   (subworld, "subworld", subworld_names_of st);
   (gender, "gender", gender_choices)].

Definition tnorm_selectors (st : Store)
  (protocol groups subworld gender : pyvalue) : list selector :=
  [(protocol, "protocol", protocol_names_of st);
   (groups, "group", PyTuple ["dev"; "eval"]);
   (subworld, "subworld", subworld_names_of st);
   (gender, "gender", gender_choices)].

Definition objects_selectors (st : Store)
  (protocol purposes groups classes subworld gender : pyvalue)
  : list selector :=
  [(protocol, "protocol", protocol_names_of st);
   (purposes, "purpose", ProtocolPurpose.purpose_choices);
   (groups, "group", ProtocolPurpose.group_choices);
   (classes, "class", PyTuple ["client"; "impostor"]);
   (subworld, "subworld", subworld_names_of st);
   (gender, "gender", gender_choices)].

(** The impostor branch of [objects] is taken. *)
Definition impostor_branch_runs (purposes groups classes : pyvalue) : bool :=
  (py_in "dev" groups || py_in "eval" groups)
  && py_in "probe" purposes && py_in "impostor" classes.

(** The model ids [tobjects] works with: nothing for [None], the
    one-element tuple for a string. *)
Definition tobjects_model_ids (model_ids : pyvalue) : pyvalue :=
  match model_ids with
  | PyNone => PyTuple []
  | PyStr s => PyTuple [s]
  | _ => model_ids
  end.

(** The File objects the query of [tobjects] yields, read off the method,
    for validated selectors and normalised model ids. *)
Definition tobjects_rows (st : Store) (model_ids subworld gender : pyvalue)
  : list File.t :=
  let q := t_file st in
  let q := if py_truth subworld
           then join_where q (File_subworld st)
                           (fun s => in_ (Subworld.name s) subworld)
           else q in
  let q := join q (File_tmodels st) in
  let q := if py_truth model_ids
           then filter (fun r => in_ (TModel.id (snd r)) model_ids) q else q in
  let q := if py_truth gender
           then join_where q (fun r => TModel_client st (snd r))
                           (fun c => in_ (Client.gender c) gender)
           else q in
  let q := order_by (fun a b => File_leb (fst a) (fst b)) q in
  unique_list Z.eqb File.id (map fst q).

(** What the world branch of [objects] looks for: a File of a client of
    the group world, within the subworlds, genders and model ids given. *)
Definition world_file (st : Store) (subworld gender : pyvalue)
  (model_ids : list Z) (f : File.t) : Prop :=
  exists c,
    File_client_row st f c /\
    Client.sgroup c = "world" /\
    (py_truth subworld = true ->
     exists s, In s (File_subworld st f) /\
               in_ (Subworld.name s) subworld = true) /\
    (py_truth gender = true -> in_ (Client.gender c) gender = true) /\
    (model_ids <> [] -> In (File.client_id f) model_ids).

(** What the enrol branch and the client branch of probe look for: a File
    attached to a matching protocol purpose, of a client within the
    genders given and among the model ids given. *)
Definition claimed_file (st : Store) (protocol groups gender : pyvalue)
  (purpose : string) (model_ids : list Z) (f : File.t) : Prop :=
  exists c,
    File_client_row st f c /\
    File_in_purpose st f protocol groups purpose /\
    (py_truth gender = true -> in_ (Client.gender c) gender = true) /\
    (model_ids <> [] -> In (File.client_id f) model_ids).

(** What the impostor branch looks for: a probe File of a client within
    the genders given, and not of the model id when exactly one is given. *)
Definition impostor_file (st : Store) (protocol groups gender : pyvalue)
  (model_ids : list Z) (f : File.t) : Prop :=
  exists c,
    File_client_row st f c /\
    File_in_purpose st f protocol groups "probe" /\
    (py_truth gender = true -> in_ (Client.gender c) gender = true) /\
    (List.length model_ids = 1%nat -> ~ In (File.client_id f) model_ids).

(** The Files [objects] is to return for validated selectors: those one
    of the branches it takes looks for. *)
Definition selected_by_objects (st : Store) (protocol purposes : pyvalue)
  (model_ids : list Z) (groups classes subworld gender : pyvalue)
  (f : File.t) : Prop :=
  (py_in "world" groups = true /\
   world_file st subworld gender model_ids f) \/
  (py_in "dev" groups || py_in "eval" groups = true /\
   ((py_in "enrol" purposes = true /\
     claimed_file st protocol groups gender "enrol" model_ids f) \/
    (py_in "probe" purposes = true /\ py_in "client" classes = true /\
     claimed_file st protocol groups gender "probe" model_ids f) \/
    (py_in "probe" purposes = true /\ py_in "impostor" classes = true /\
     impostor_file st protocol groups gender model_ids f))).

(* ===================================================================== *)
(** ** Lists: ordering and uniqueness *)
(* ===================================================================== *)

Section ListFacts.
Context {A K : Type}.
Variable keq : K -> K -> bool.
Variable key : A -> K.
Hypothesis keq_spec : forall a b, keq a b = true <-> a = b.

Lemma existsb_keq (k : K) (seen : list K) :
  existsb (keq k) seen = true <-> In k seen.
Proof.
  rewrite existsb_exists. split.
  - intros [x [Hx Hk]]. apply keq_spec in Hk. now subst.
  - intros H. exists k. split; [assumption | now apply keq_spec].
Qed.

Lemma unique_from_In (seen : list K) (l : list A) (x : A) :
  In x (unique_from keq key seen l) -> In x l /\ ~ In (key x) seen.
Proof.
  revert seen. induction l as [|y r IH]; intros seen; simpl; [tauto|].
  destruct (existsb (keq (key y)) seen) eqn:E.
  - intros H. apply IH in H. tauto.
  - simpl. intros [->|H].
    + split; [now left|]. intros Hin. apply existsb_keq in Hin. congruence.
    + apply IH in H. destruct H as [H1 H2]. split; [now right|].
      intros Hin. apply H2. now right.
Qed.

Lemma unique_from_NoDup (seen : list K) (l : list A) :
  NoDup (map key (unique_from keq key seen l)).
Proof.
  revert seen. induction l as [|y r IH]; intros seen; simpl; [constructor|].
  destruct (existsb (keq (key y)) seen) eqn:E; [apply IH|].
  simpl. constructor; [|apply IH].
  intros Hin. apply in_map_iff in Hin. destruct Hin as [z [Hz Hin]].
  apply unique_from_In in Hin. destruct Hin as [_ Hn]. apply Hn.
  rewrite Hz. now left.
Qed.

Lemma unique_from_app_l (seen : list K) (l1 l2 : list A) (x : A) :
  In x (unique_from keq key seen l1) ->
  In x (unique_from keq key seen (l1 ++ l2)).
Proof.
  revert seen. induction l1 as [|y r IH]; intros seen; simpl; [tauto|].
  destruct (existsb (keq (key y)) seen); [apply IH|].
  simpl. intros [H|H]; [now left | right; now apply IH].
Qed.

Lemma unique_from_id (seen : list K) (l : list A) :
  NoDup (map key l) ->
  (forall x, In x l -> ~ In (key x) seen) ->
  unique_from keq key seen l = l.
Proof.
  revert seen. induction l as [|y r IH]; intros seen Hnd Hseen; simpl;
    [reflexivity|].
  simpl in Hnd. inversion Hnd as [|k ks Hk Hks]; subst.
  destruct (existsb (keq (key y)) seen) eqn:E.
  - apply existsb_keq in E. exfalso. apply (Hseen y); [now left | assumption].
  - f_equal. apply IH; [assumption|].
    intros x Hx [Heq|Hin].
    + apply Hk. rewrite Heq. now apply in_map.
    + apply (Hseen x); [now right | assumption].
Qed.

Lemma unique_list_In (l : list A) (x : A) :
  In x (unique_list keq key l) -> In x l.
Proof. intros H. now apply unique_from_In in H. Qed.

Lemma unique_list_NoDup (l : list A) :
  NoDup (map key (unique_list keq key l)).
Proof. apply unique_from_NoDup. Qed.

Lemma unique_list_id (l : list A) :
  NoDup (map key l) -> unique_list keq key l = l.
Proof. intros H. apply unique_from_id; [assumption | intros x _ []]. Qed.

Lemma unique_list_app_l (l1 l2 : list A) (x : A) :
  In x (unique_list keq key l1) -> In x (unique_list keq key (l1 ++ l2)).
Proof. apply unique_from_app_l. Qed.

End ListFacts.

Lemma insert_by_In {A} (leb : A -> A -> bool) (x y : A) (l : list A) :
  In y (insert_by leb x l) <-> y = x \/ In y l.
Proof.
  induction l as [|z r IH]; simpl.
  - intuition congruence.
  - destruct (leb x z); simpl; [intuition congruence|].
    rewrite IH. intuition congruence.
Qed.

Lemma order_by_In {A} (leb : A -> A -> bool) (y : A) (l : list A) :
  In y (order_by leb l) <-> In y l.
Proof.
  induction l as [|z r IH]; simpl; [tauto|].
  rewrite insert_by_In, IH. intuition congruence.
Qed.

Lemma join_where_In {A B} (rows : list A) (related : A -> list B)
  (p : B -> bool) (x : A) :
  In x (join_where rows related p) -> In x rows.
Proof.
  unfold join_where. rewrite in_flat_map. intros [a [Ha Hx]].
  apply in_map_iff in Hx. destruct Hx as [b [Hb _]]. now subst.
Qed.

Lemma str_in_In (k : string) (l : list string) :
  str_in k l = true <-> In k l.
Proof. apply existsb_keq. apply String.eqb_eq. Qed.

Lemma in_ids_In (x : Z) (l : list Z) : in_ids x l = true <-> In x l.
Proof. apply existsb_keq. apply Z.eqb_eq. Qed.

(* ===================================================================== *)
(** ** Validation *)
(* ===================================================================== *)

Lemma str_append_assoc (a b c : string) : (a ++ b) ++ c = a ++ b ++ c.
Proof. induction a as [|x a IH]; simpl; [reflexivity | now rewrite IH]. Qed.

Lemma names_here (pre part suf : string) : names (pre ++ part ++ suf) part.
Proof. now exists pre, suf. Qed.

Lemma names_after (pre msg part : string) :
  names msg part -> names (pre ++ msg) part.
Proof.
  intros [p [q ->]]. exists (pre ++ p), q. now rewrite str_append_assoc.
Qed.

(** [__check_validity__] in closed form. *)
Lemma check_validity_spec (l : pyvalue) (obj : string) (valid default : pyvalue) :
  check_validity l obj valid default =
  if py_truth l then
    match check_each (checked_items l) obj valid with
    | Some e => inl e
    | None => inr (as_sequence l)
    end
  else inr default.
Proof.
  destruct l as [|s|ks|ks]; simp check_validity; simpl.
  - reflexivity.
  - destruct (negb (s =? "")%string); simpl; [|reflexivity].
    simp check_validity. reflexivity.
  - destruct (negb (List.length ks =? 0)%nat); reflexivity.
  - destruct (negb (List.length ks =? 0)%nat); reflexivity.
Qed.

Lemma check_each_None (ks : list string) (obj : string) (valid : pyvalue) :
  check_each ks obj valid = None <->
  forallb (fun k => py_in k valid) ks = true.
Proof.
  induction ks as [|k r IH]; simpl; [tauto|].
  destruct (py_in k valid); simpl; [exact IH|].
  split; discriminate.
Qed.

(** The loop stops at the first element outside the allowed values. *)
Lemma check_each_Some (ks : list string) (obj : string) (valid : pyvalue)
  (e : exn) :
  check_each ks obj valid = Some e ->
  exists pre k post,
    ks = (pre ++ k :: post)%list /\
    forallb (fun k => py_in k valid) pre = true /\
    py_in k valid = false /\
    e = RuntimeError (invalid_msg obj k valid).
Proof.
  induction ks as [|k r IH]; simpl; [discriminate|].
  destruct (py_in k valid) eqn:E; simpl.
  - intros H. destruct (IH H) as [pre [k' [post [-> [Hpre [Hk He]]]]]].
    exists (k :: pre), k', post. simpl. rewrite E, Hpre. auto.
  - intros H. injection H as <-. exists [], k, r. auto.
Qed.

Lemma check_validity_valid (l : pyvalue) (obj : string)
  (valid default : pyvalue) :
  py_valid l valid = true ->
  check_validity l obj valid default =
  inr (if py_truth l then as_sequence l else default).
Proof.
  unfold py_valid. rewrite check_validity_spec.
  destruct (py_truth l); simpl; [|reflexivity].
  intros H. apply (check_each_None _ obj) in H. now rewrite H.
Qed.

Lemma check_validity_invalid (l : pyvalue) (obj : string)
  (valid default : pyvalue) :
  py_valid l valid = false ->
  exists e, check_validity l obj valid default = inl e.
Proof.
  unfold py_valid. rewrite check_validity_spec.
  destruct (py_truth l); simpl; [|discriminate].
  intros H. destruct (check_each (checked_items l) obj valid) eqn:E.
  - now exists e.
  - apply check_each_None in E. congruence.
Qed.

(** What validation returns is false or a tuple or list, provided the
    default is: the shape the queries rely on. *)
Lemma check_validity_returns (l : pyvalue) (obj : string)
  (valid default v : pyvalue) :
  check_validity l obj valid default = inr v ->
  (py_truth l = false /\ v = default) \/
  (py_truth l = true /\ v = as_sequence l /\
   forallb (fun k => py_in k valid) (checked_items l) = true).
Proof.
  rewrite check_validity_spec. destruct (py_truth l); [|left; split; congruence].
  destruct (check_each (checked_items l) obj valid) eqn:E; [discriminate|].
  intros H. right. apply check_each_None in E. repeat split; congruence.
Qed.

Lemma py_truth_as_sequence (l : pyvalue) :
  py_truth l = true -> py_truth (as_sequence l) = true.
Proof. destruct l; simpl; auto. Qed.

Lemma checked_items_as_sequence (l : pyvalue) :
  checked_items (as_sequence l) = checked_items l.
Proof. destruct l; reflexivity. Qed.

Lemma as_sequence_idem (l : pyvalue) : as_sequence (as_sequence l) = as_sequence l.
Proof. destruct l; reflexivity. Qed.

(** Validating a validated value against the same values changes nothing. *)
Lemma check_validity_idem (l : pyvalue) (obj obj' : string)
  (valid v : pyvalue) :
  check_validity l obj valid (PyStr "") = inr v ->
  check_validity v obj' valid (PyStr "") = inr v.
Proof.
  intros H. apply check_validity_returns in H.
  destruct H as [[_ ->] | [Ht [-> Hall]]].
  - now rewrite check_validity_spec.
  - rewrite check_validity_valid.
    + now rewrite (py_truth_as_sequence _ Ht), as_sequence_idem.
    + unfold py_valid. rewrite checked_items_as_sequence, Hall.
      apply orb_true_r.
Qed.

Lemma names_refl (s : string) : names s s.
Proof.
  exists "", "". simpl. induction s as [|c s IH]; [reflexivity|].
  simpl. now rewrite <- IH.
Qed.

Lemma names_trans (a b c : string) : names a b -> names b c -> names a c.
Proof.
  intros [p [q ->]] [p' [q' ->]]. exists (p ++ p'), (q' ++ q).
  now rewrite !str_append_assoc.
Qed.

(** A joined string shows each of the strings joined. *)
Lemma names_concat (sep x : string) (l : list string) :
  In x l -> names (String.concat sep l) x.
Proof.
  induction l as [|y r IH]; intros H; [contradiction|].
  destruct r as [|z r'].
  - destruct H as [->|[]]. apply names_refl.
  - change (String.concat sep (y :: z :: r'))
      with (y ++ sep ++ String.concat sep (z :: r')).
    destruct H as [->|H].
    + exists "", (sep ++ String.concat sep (z :: r')). reflexivity.
    + do 2 apply names_after. now apply IH.
Qed.

(** [str()] of a tuple or list shows the [repr()] of each element. *)
Lemma py_str_names_repr (valid : pyvalue) (v : string) :
  is_tuple_or_list valid = true ->
  In v (py_items valid) ->
  names (py_str valid) (py_repr_str v).
Proof.
  intros Hseq Hv.
  assert (Hc : forall l, In v l ->
            names (String.concat ", " (map py_repr_str l)) (py_repr_str v)).
  { intros l Hl. apply names_concat. now apply in_map. }
  destruct valid as [| |l|l]; try discriminate; simpl in Hv.
  - destruct l as [|x [|y r]]; [contradiction| |].
    + destruct Hv as [->|[]]. unfold py_str. apply names_here.
    + unfold py_str. apply names_after.
      destruct (Hc _ Hv) as [p [q E]]. rewrite E.
      exists p, (q ++ ")"). now rewrite !str_append_assoc.
  - unfold py_str. apply names_after.
    destruct (Hc _ Hv) as [p [q E]]. rewrite E.
    exists p, (q ++ "]"). now rewrite !str_append_assoc.
Qed.

Lemma plain_char_repr (c : ascii) :
  plain_char c = true ->
  py_repr_char squote_char c = String c EmptyString.
Proof.
  unfold plain_char, py_repr_char. cbv zeta. intros H.
  apply andb_true_iff in H. destruct H as [H Hb].
  apply andb_true_iff in H. destruct H as [H Hq].
  apply andb_true_iff in H. destruct H as [Hlo Hhi].
  apply negb_true_iff in Hb, Hq. rewrite Hq, Hb.
  apply Nat.leb_le in Hlo. apply Nat.ltb_lt in Hhi.
  assert (E9: Nat.eqb (nat_of_ascii c) 9 = false) by (apply Nat.eqb_neq; lia).
  assert (E10 : Nat.eqb (nat_of_ascii c) 10 = false)
    by (apply Nat.eqb_neq; lia).
  assert (E13 : Nat.eqb (nat_of_ascii c) 13 = false)
    by (apply Nat.eqb_neq; lia).
  assert (El : Nat.ltb (nat_of_ascii c) 32 = false)
    by (apply Nat.ltb_ge; lia).
  assert (Eh : Nat.leb 127 (nat_of_ascii c) = false)
    by (apply Nat.leb_gt; lia).
  rewrite E9, E10, E13, El, Eh. reflexivity.
Qed.

Lemma py_repr_chars_plain (s : string) :
  plain_word s = true -> py_repr_chars squote_char s = s.
Proof.
  unfold plain_word. induction s as [|c s IH]; intros H; [reflexivity|].
  cbn [list_ascii_of_string forallb py_repr_chars] in H |- *.
  apply andb_true_iff in H. destruct H as [Hc H].
  rewrite (plain_char_repr c Hc), (IH H). reflexivity.
Qed.

(** A plain word is shown as it is, between single quotes. *)
Lemma py_repr_plain (s : string) :
  plain_word s = true -> py_repr_str s = "'" ++ s ++ "'".
Proof.
  intros H. unfold py_repr_str, py_repr_quote, str_has.
  assert (Hq : existsb (Ascii.eqb squote_char) (list_ascii_of_string s) = false).
  { destruct (existsb (Ascii.eqb squote_char) (list_ascii_of_string s)) eqn:E;
      [|reflexivity].
    apply existsb_exists in E. destruct E as [c [Hin Heq]].
    apply Ascii.eqb_eq in Heq. subst c.
    unfold plain_word in H. rewrite forallb_forall in H.
    specialize (H _ Hin). discriminate H. }
  rewrite Hq. cbn [andb]. cbv zeta.
  rewrite (py_repr_chars_plain s H). reflexivity.
Qed.

(** C6.  [__check_validity__] returns the default unchanged for an absent
    or empty value; treats a scalar as the one-element tuple made of it;
    returns a tuple or list unchanged when all its elements are allowed;
    and otherwise raises a [RuntimeError] for the first element that is
    not allowed, whose message names that element, the axis and the
    allowed values: it shows the [repr()] of every allowed value, which
    for a plain word is the word between single quotes. *)
Theorem check_validity_contract (l : pyvalue) (obj : string)
  (valid default : pyvalue) :
  (py_truth l = false -> check_validity l obj valid default = inr default) /\
  (forall s, l = PyStr s -> s <> "" ->
     check_validity l obj valid default =
     check_validity (PyTuple [s]) obj valid default /\
     (py_in s valid = true ->
      check_validity l obj valid default = inr (PyTuple [s]))) /\
  (is_tuple_or_list l = true -> py_truth l = true ->
   (forall k, In k (py_items l) -> py_in k valid = true) ->
   check_validity l obj valid default = inr l) /\
  (py_truth l = true ->
   forall k, In k (checked_items l) -> py_in k valid = false ->
   exists pre bad post,
     checked_items l = (pre ++ bad :: post)%list /\
     (forall k', In k' pre -> py_in k' valid = true) /\
     py_in bad valid = false /\
     check_validity l obj valid default =
       inl (RuntimeError (invalid_msg obj bad valid)) /\
     names (invalid_msg obj bad valid) bad /\
     names (invalid_msg obj bad valid) obj /\
     names (invalid_msg obj bad valid) (py_str valid) /\
     (is_tuple_or_list valid = true ->
      forall v, In v (py_items valid) ->
        names (invalid_msg obj bad valid) (py_repr_str v) /\
        (plain_word v = true ->
         names (invalid_msg obj bad valid) ("'" ++ v ++ "'")))).
Proof.
  split; [|split; [|split]].
  - intros H. now rewrite check_validity_spec, H.
  - intros s -> Hne. split.
    + rewrite !check_validity_spec. simpl.
      destruct (String.eqb_spec s ""); [contradiction | reflexivity].
    + intros Hin. rewrite check_validity_spec. simpl.
      destruct (String.eqb_spec s ""); [contradiction|]. simpl.
      now rewrite Hin.
  - intros Hseq Ht Hall. rewrite check_validity_spec, Ht.
    assert (E : check_each (checked_items l) obj valid = None).
    { apply check_each_None. apply forallb_forall. intros k Hk. apply Hall.
      destruct l; simpl in *; try discriminate; assumption. }
    rewrite E. destruct l; simpl in *; try discriminate; reflexivity.
  - intros Ht k Hk Hbad. rewrite check_validity_spec, Ht.
    destruct (check_each (checked_items l) obj valid) eqn:E.
    + destruct (check_each_Some _ _ _ _ E)
        as [pre [bad [post [Heq [Hpre [Hb ->]]]]]].
      assert (Hset : names (invalid_msg obj bad valid) (py_str valid)).
      { unfold invalid_msg. do 6 apply names_after. apply names_here. }
      exists pre, bad, post.
      split; [assumption|]. split.
      { intros k' Hk'. rewrite forallb_forall in Hpre. now apply Hpre. }
      split; [assumption|]. split; [reflexivity|]. split.
      { unfold invalid_msg. do 3 apply names_after. apply names_here. }
      split.
      { unfold invalid_msg. apply names_here. }
      split; [exact Hset|].
      intros Hseq v Hv.
      assert (Hr : names (invalid_msg obj bad valid) (py_repr_str v)).
      { apply names_trans with (py_str valid); [exact Hset|].
        now apply py_str_names_repr. }
      split; [exact Hr|]. intros Hplain.
      now rewrite <- (py_repr_plain v Hplain).
    + apply check_each_None in E. rewrite forallb_forall in E.
      specialize (E k Hk). congruence.
Qed.

(** The message for the gender [bogus], character by character. *)
Lemma check_validity_contract_witness :
  check_validity PyNone "gender" gender_choices (PyStr "") = inr (PyStr "") /\
  check_validity (PyStr "male") "gender" gender_choices (PyStr "")
    = inr (PyTuple ["male"]) /\
  check_validity (PyList ["male"; "female"]) "gender" gender_choices (PyStr "")
    = inr (PyList ["male"; "female"]) /\
  check_validity (PyStr "bogus") "gender" gender_choices (PyStr "")
    = inl (RuntimeError (invalid_msg "gender" "bogus" gender_choices)) /\
  invalid_msg "gender" "bogus" gender_choices
    = "Invalid gender " ++ dquote ++ "bogus" ++ dquote ++
      ". Valid values are ('male', 'female'), or lists/tuples of those" /\
  names (invalid_msg "gender" "bogus" gender_choices) "bogus" /\
  names (invalid_msg "gender" "bogus" gender_choices) "'male'" /\
  names (invalid_msg "gender" "bogus" gender_choices) "'female'" /\
  names (invalid_msg "protocol" "x" (PyList ["it's"]))
        (dquote ++ "it's" ++ dquote).
Proof.
  assert (Hfirst : forall (bad k : string) (pre post : list string),
            [k] = (pre ++ bad :: post)%list -> bad = k).
  { intros bad k pre post Heq. destruct pre as [|x pre]; simpl in Heq.
    - now injection Heq.
    - injection Heq as _ Heq. destruct pre; discriminate. }
  pose proof (check_validity_contract (PyStr "x") "protocol" (PyList ["it's"])
                (PyStr "")) as [_ [_ [_ Hquoted]]].
  pose proof (check_validity_contract PyNone "gender" gender_choices (PyStr ""))
    as [HNone _].
  pose proof (check_validity_contract (PyStr "male") "gender" gender_choices
                (PyStr "")) as [_ [Hmale _]].
  pose proof (check_validity_contract (PyList ["male"; "female"]) "gender"
                gender_choices (PyStr "")) as [_ [_ [Hseq _]]].
  pose proof (check_validity_contract (PyStr "bogus") "gender" gender_choices
                (PyStr "")) as [_ [_ [_ Hbogus]]].
  split; [apply HNone; reflexivity|].
  split; [apply (Hmale "male"); [reflexivity | discriminate | reflexivity]|].
  split.
  { apply Hseq; [reflexivity | reflexivity |].
    intros k [<-|[<-|[]]]; reflexivity. }
  destruct (Hbogus eq_refl "bogus" (or_introl eq_refl) eq_refl)
    as [pre [bad [post [Heq [_ [_ [Hraise [Hnames [_ [_ Hset]]]]]]]]]].
  assert (bad = "bogus") as -> by (apply (Hfirst _ _ pre post); exact Heq).
  split; [assumption|]. split; [reflexivity|]. split; [assumption|].
  split; [apply (Hset eq_refl "male"); [now left | reflexivity]|].
  split; [apply (Hset eq_refl "female"); [right; now left | reflexivity]|].
  destruct (Hquoted eq_refl "x" (or_introl eq_refl) eq_refl)
    as [pre' [bad' [post' [Heq' [_ [_ [_ [_ [_ [_ Hset']]]]]]]]]].
  assert (bad' = "x") as -> by (apply (Hfirst _ _ pre' post'); exact Heq').
  apply (Hset' eq_refl "it's"). now left.
Defined.

(** Names that are not plain words are shown the way [repr()] shows them. *)
Example py_str_of_quoted_names :
  py_str (PyList ["it's"; "a"]) = "[" ++ dquote ++ "it's" ++ dquote ++ ", 'a']" /\
  py_str (PyTuple ["dev"]) = "('dev',)" /\
  py_str (PyTuple [String backslash_char "n"; String (ascii_of_nat 10) ""])
    = "('" ++ String backslash_char (String backslash_char "n") ++ "', '"
      ++ String backslash_char "n" ++ "')".
Proof. repeat split; reflexivity. Qed.

(* ===================================================================== *)
(** ** Running the methods *)
(* ===================================================================== *)

Lemma bind_raise {A B} (m : M A) (k : A -> M B) (e : exn) (n n' : nat) :
  m n = (inl e, n') -> bind m k n = (inl e, n').
Proof. intros H. unfold bind. now rewrite H. Qed.

Lemma bind_value {A B} (m : M A) (k : A -> M B) (a : A) (n n' : nat) :
  m n = (inr a, n') -> bind m k n = k a n'.
Proof. intros H. unfold bind. now rewrite H. Qed.

Lemma assert_validity_missing (self : Database) (n : nat) :
  session self = None ->
  assert_validity self n = (inl (RuntimeError (unavailable_msg self)), n).
Proof. intros H. unfold assert_validity, is_valid. now rewrite H. Qed.

Section Connected.
Variable self : Database.
Variable st : Store.
Hypothesis connected : session self = Some st.

Lemma assert_validity_connected (n : nat) : assert_validity self n = (inr tt, n).
Proof. unfold assert_validity, is_valid. now rewrite connected. Qed.

Lemma the_session_connected (n : nat) : the_session self n = (inr st, n).
Proof. unfold the_session. now rewrite connected. Qed.

Lemma protocol_names_connected (n : nat) :
  protocol_names self n = (inr (protocol_names_of st), S n).
Proof.
  unfold protocol_names, protocols.
  rewrite (bind_value _ _ _ _ _ (assert_validity_connected n)).
  unfold bind at 1.
  rewrite (bind_value _ _ _ _ _ (assert_validity_connected n)).
  rewrite (bind_value _ _ _ _ _ (the_session_connected n)).
  reflexivity.
Qed.

Lemma subworld_names_connected (n : nat) :
  subworld_names self n = (inr (subworld_names_of st), S n).
Proof.
  unfold subworld_names, subworlds.
  rewrite (bind_value _ _ _ _ _ (assert_validity_connected n)).
  unfold bind at 1.
  rewrite (bind_value _ _ _ _ _ (assert_validity_connected n)).
  rewrite (bind_value _ _ _ _ _ (the_session_connected n)).
  reflexivity.
Qed.

End Connected.

(** A method that starts by checking the connection raises at once. *)
Ltac raises_unavailable H :=
  intros;
  repeat first
    [ apply (assert_validity_missing _ _ H)
    | apply bind_raise
    | progress (cbv beta zeta delta
        [clients tclients zclients models tmodels objects tobjects zobjects
         paths reverse subworld_names subworlds has_subworld protocol_names
         protocols has_protocol protocol protocol_purposes has_client_id
         client]) ].

(** C7.  With no valid session, every method that queries the store raises
    the [RuntimeError] of [assert_validity] and sends no query: the query
    count is unchanged.  The message gives the expected location of the
    database file and tells to create it and re-connect. *)
Theorem unavailable_store_raised (self : Database) :
  session self = None ->
  let unavailable {A} (m : M A) :=
    forall n, m n = (inl (RuntimeError (unavailable_msg self)), n) in
  (forall protocol groups subworld gender,
     unavailable (clients self protocol groups subworld gender) /\
     unavailable (tclients self protocol groups subworld gender) /\
     unavailable (zclients self protocol groups subworld gender) /\
     unavailable (models self protocol groups subworld gender) /\
     unavailable (tmodels self protocol groups subworld gender)) /\
  (forall protocol purposes model_ids groups classes subworld gender,
     unavailable (objects self protocol purposes model_ids groups classes
                          subworld gender)) /\
  (forall protocol model_ids groups subworld gender,
     unavailable (tobjects self protocol model_ids groups subworld gender)) /\
  (forall protocol model_ids groups subworld gender,
     unavailable (zobjects self protocol model_ids groups subworld gender)) /\
  (forall ids prefix suffix, unavailable (paths self ids prefix suffix)) /\
  (forall stems, unavailable (reverse self stems)) /\
  unavailable (subworld_names self) /\
  unavailable (subworlds self) /\
  (forall name, unavailable (has_subworld self name)) /\
  (forall id, unavailable (has_client_id self id)) /\
  (forall id, unavailable (client self id)) /\
  unavailable (protocol_names self) /\
  unavailable (protocols self) /\
  (forall name, unavailable (has_protocol self name)) /\
  (forall name, unavailable (protocol self name)) /\
  unavailable (protocol_purposes self) /\
  names (unavailable_msg self) (SQLITE_FILE self) /\
  names (unavailable_msg self)
        "Create it and then try re-connecting using Database.connect()".
Proof.
  intros H unavailable. unfold unavailable.
  repeat match goal with
         | |- _ /\ _ => split
         | |- forall _, _ => intro
         end;
    try solve [raises_unavailable H].
  - unfold unavailable_msg. do 2 apply names_after. apply names_here.
  - unfold unavailable_msg. do 4 apply names_after.
    exists "'. ", "". reflexivity.
Qed.

Lemma unavailable_store_raised_witness :
  session Example.db_missing = None /\
  tclients Example.db_missing PyNone (PyStr "dev") (PyStr "onethird") PyNone 0%nat
    = (inl (RuntimeError (unavailable_msg Example.db_missing)), 0%nat) /\
  reverse Example.db_missing ["but/m001/01_mobile"] 0%nat
    = (inl (RuntimeError (unavailable_msg Example.db_missing)), 0%nat) /\
  names (unavailable_msg Example.db_missing) "/data/mobio/db.sql3".
Proof.
  split; [reflexivity|].
  pose proof (unavailable_store_raised Example.db_missing eq_refl) as H.
  cbv zeta in H.
  destruct H as [Hc [_ [_ [_ [_ [Hr H]]]]]].
  split; [apply (Hc PyNone (PyStr "dev") (PyStr "onethird") PyNone)|].
  split; [apply Hr|].
  apply H.
Defined.

(* ===================================================================== *)
(** ** Path resolution *)
(* ===================================================================== *)

(** Selecting rows of a table keeps its primary key a key. *)
Lemma primary_key_filter (files : list File.t) (keep : File.t -> bool) :
  NoDup (map File.id files) -> NoDup (map File.id (filter keep files)).
Proof.
  induction files as [|k r IH]; simpl; intros Hkey; [constructor|].
  apply NoDup_cons_iff in Hkey. destruct Hkey as [Hfresh Hrest].
  destruct (keep k); simpl; [|now apply IH].
  apply NoDup_cons_iff. split; [|now apply IH].
  intros Hin. apply Hfresh. apply in_map_iff in Hin.
  destruct Hin as [k' [Hid Hin]]. apply filter_In in Hin.
  rewrite <- Hid. apply in_map. tauto.
Qed.

Lemma filter_key_find {A} (key : A -> Z) (p : Z) (l : list A) :
  NoDup (map key l) ->
  filter (fun k => key k =? p) l =
  match find (fun k => key k =? p) l with
  | Some k => [k]
  | None => []
  end.
Proof.
  induction l as [|x r IH]; simpl; intros H; [reflexivity|].
  inversion H as [|k ks Hk Hks]; subst.
  destruct (Z.eqb_spec (key x) p) as [E|E]; [|now apply IH].
  f_equal. destruct (filter (fun k => key k =? p) r) as [|y t] eqn:F;
    [reflexivity|].
  exfalso. apply Hk.
  assert (Hy : In y (filter (fun k => key k =? p) r)) by (rewrite F; now left).
  apply filter_In in Hy. destruct Hy as [Hy Hp]. apply Z.eqb_eq in Hp.
  rewrite E, <- Hp. now apply in_map.
Qed.

Lemma filter_filter_key {A} (key : A -> Z) (p : Z) (ids : list Z) (l : list A) :
  In p ids ->
  filter (fun k => key k =? p) (filter (fun k => in_ids (key k) ids) l) =
  filter (fun k => key k =? p) l.
Proof.
  intros Hp. induction l as [|x r IH]; simpl; [reflexivity|].
  destruct (in_ids (key x) ids) eqn:E; simpl.
  - now rewrite IH.
  - destruct (Z.eqb_spec (key x) p) as [Ex|Ex]; [|exact IH].
    apply in_ids_In in Hp. congruence.
Qed.

(** The loop of [paths], started with [retval] holding [acc], over a part
    [todo] of the ids the query was built from. *)
Lemma paths_loop (st : Store) (ids todo : list Z) (prefix suffix : string)
  (acc : list string) (n : nat) :
  File_primary_key st ->
  incl todo ids ->
  for_each todo
    (fun p retval =>
       rows <- fetch (unique_list Z.eqb File.id
                        (filter (fun k => in_ids (File.id k) ids) (t_file st))) ;;
       ret (retval ++ map (fun k => make_path k prefix suffix)
                          (filter (fun k => File.id k =? p) rows))%list)
    acc n =
  (inr (acc ++ flat_map (fun p => match File_by_id st p with
                                  | Some k => [make_path k prefix suffix]
                                  | None => []
                                  end) todo)%list,
   (n + List.length todo)%nat).
Proof.
  intros Hpk. revert acc n.
  induction todo as [|p r IH]; intros acc n Hincl; simpl.
  - unfold ret. now rewrite app_nil_r, Nat.add_0_r.
  - unfold bind at 1. unfold bind at 1. unfold fetch at 1. unfold ret at 1.
    rewrite IH by (intros x Hx; apply Hincl; now right).
    rewrite unique_list_id
      by (apply Z.eqb_eq || apply primary_key_filter; exact Hpk).
    rewrite filter_filter_key by (apply Hincl; now left).
    rewrite (filter_key_find File.id p (t_file st) Hpk).
    unfold File_by_id. rewrite <- app_assoc.
    replace (S n + List.length r)%nat with (n + S (List.length r))%nat by lia.
    destruct (find (fun k => File.id k =? p) (t_file st)); reflexivity.
Qed.

(** C5.  On a connected store whose File ids are a primary key, [paths]
    returns, for each requested id in input order, the path made from the
    File of that id, and nothing for an id without File; it sends one
    query per requested id.  So [paths [5; 99; 5]], when no File has id
    99, is the path of File 5 twice. *)
Theorem paths_in_input_order (self : Database) (st : Store) (ids : list Z)
  (prefix suffix : string) :
  session self = Some st ->
  File_primary_key st ->
  (forall n,
     paths self ids prefix suffix n =
     (inr (flat_map (fun p => match File_by_id st p with
                              | Some k => [make_path k prefix suffix]
                              | None => []
                              end) ids),
      (n + List.length ids)%nat)) /\
  (forall k5, In k5 (t_file st) -> File.id k5 = 5 ->
     (forall k, In k (t_file st) -> File.id k <> 99) ->
     outcome (paths self [5; 99; 5] prefix suffix) =
     inr [make_path k5 prefix suffix; make_path k5 prefix suffix]).
Proof.
  intros Hs Hpk.
  assert (Hrun : forall ids n,
     paths self ids prefix suffix n =
     (inr (flat_map (fun p => match File_by_id st p with
                              | Some k => [make_path k prefix suffix]
                              | None => []
                              end) ids),
      (n + List.length ids)%nat)).
  { intros ids' n. unfold paths.
    rewrite (bind_value _ _ _ _ _ (assert_validity_connected self st Hs n)).
    rewrite (bind_value _ _ _ _ _ (the_session_connected self st Hs n)).
    cbv zeta.
    rewrite (bind_value _ _ _ _ _
               (paths_loop st ids' ids' prefix suffix [] n Hpk (incl_refl _))).
    reflexivity. }
  split; [apply Hrun|].
  intros k5 Hin H5 H99. unfold outcome. rewrite Hrun. simpl.
  assert (F5 : File_by_id st 5 = Some k5).
  { unfold File_by_id.
    pose proof (filter_key_find File.id 5 (t_file st) Hpk) as F.
    assert (Hk : In k5 (filter (fun k => File.id k =? 5) (t_file st))).
    { apply filter_In. split; [assumption | now apply Z.eqb_eq]. }
    rewrite F in Hk.
    destruct (find (fun k => File.id k =? 5) (t_file st)) as [k|];
      [|contradiction].
    destruct Hk as [->|[]]. reflexivity. }
  assert (F99 : File_by_id st 99 = None).
  { unfold File_by_id.
    destruct (find (fun k => File.id k =? 99) (t_file st)) as [k|] eqn:F;
      [|reflexivity].
    apply find_some in F. destruct F as [Hk Hid]. apply Z.eqb_eq in Hid.
    exfalso. now apply (H99 k). }
  rewrite F5, F99. reflexivity.
Qed.

Lemma paths_in_input_order_witness :
  session Example.db = Some Example.store /\
  File_primary_key Example.store /\
  paths Example.db [5; 99; 5] "/data" ".wav" 0%nat =
    (inr ["/data/idiap/m004/02_mobile.wav"; "/data/idiap/m004/02_mobile.wav"],
     3%nat).
Proof.
  assert (Hpk : File_primary_key Example.store).
  { unfold File_primary_key. simpl.
    repeat (constructor; [simpl; intuition discriminate|]). constructor. }
  split; [reflexivity|]. split; [exact Hpk|].
  destruct (paths_in_input_order Example.db Example.store [5; 99; 5]
              "/data" ".wav" eq_refl Hpk) as [H _].
  rewrite H. reflexivity.
Defined.

(* ===================================================================== *)
(** ** Reverse lookup *)
(* ===================================================================== *)

(** C3.  On a connected store [reverse] never returns: whatever stems are
    asked for, also none, reading [retval] raises a [NameError], and no
    query has been sent by then. *)
Theorem reverse_raises_NameError (self : Database) (st : Store)
  (stems : list string) (n : nat) :
  session self = Some st ->
  reverse self stems n =
  (inl (NameError "global name 'retval' is not defined"), n).
Proof.
  intros Hs. unfold reverse.
  rewrite (bind_value _ _ _ _ _ (assert_validity_connected self st Hs n)).
  rewrite (bind_value _ _ _ _ _ (the_session_connected self st Hs n)).
  destruct stems as [|p r]; reflexivity.
Qed.

Lemma reverse_raises_NameError_witness :
  session Example.db = Some Example.store /\
  reverse Example.db [] 0%nat =
    (inl (NameError "global name 'retval' is not defined"), 0%nat) /\
  reverse Example.db ["idiap/m003/01_mobile"] 0%nat =
    (inl (NameError "global name 'retval' is not defined"), 0%nat).
Proof.
  split; [reflexivity|].
  split; apply (reverse_raises_NameError Example.db Example.store); reflexivity.
Defined.

(* ===================================================================== *)
(** ** File selection: [objects] *)
(* ===================================================================== *)

(** After validation [objects] sends one query per branch taken and
    returns the set of what the branches gave. *)
Lemma objects_query_run (st : Store) (protocol purposes : pyvalue)
  (model_ids : list Z) (groups classes subworld gender : pyvalue) (n : nat) :
  objects_query st protocol purposes model_ids groups classes subworld gender n
  = (inr (list_set (objects_retval st protocol purposes model_ids groups
                                   classes subworld gender)),
     (n + objects_queries purposes groups classes)%nat).
Proof.
  unfold objects_query, objects_retval, objects_queries, bind, fetch, ret.
  destruct (py_in "world" groups), (py_in "dev" groups || py_in "eval" groups),
    (py_in "enrol" purposes), (py_in "probe" purposes),
    (py_in "client" classes), (py_in "impostor" classes);
    simpl; rewrite ?app_nil_r, ?app_assoc; repeat f_equal; lia.
Qed.

(** On a connected store [objects] validates its six selectors in turn,
    after the two queries for the registered names, and then queries. *)
Lemma objects_connected (self : Database) (st : Store)
  (protocol purposes : pyvalue) (model_ids : model_ids_value)
  (groups classes subworld gender : pyvalue) (n : nat) :
  session self = Some st ->
  objects self protocol purposes model_ids groups classes subworld gender n =
  (protocol <- lift (check_validity protocol "protocol" (protocol_names_of st)
                                    (protocol_names_of st)) ;;
   purposes <- lift (check_validity purposes "purpose"
                       ProtocolPurpose.purpose_choices
                       ProtocolPurpose.purpose_choices) ;;
   groups <- lift (check_validity groups "group" ProtocolPurpose.group_choices
                                  ProtocolPurpose.group_choices) ;;
   classes <- lift (check_validity classes "class"
                      (PyTuple ["client"; "impostor"])
                      (PyTuple ["client"; "impostor"])) ;;
   subworld <- lift (check_validity subworld "subworld" (subworld_names_of st)
                                    (PyStr "")) ;;
   gender <- lift (check_validity gender "gender" gender_choices (PyStr "")) ;;
   objects_query st protocol purposes (model_ids_list model_ids) groups classes
                 subworld gender) (S (S n)).
Proof.
  intros Hs. unfold objects. cbv zeta.
  rewrite (bind_value _ _ _ _ _ (assert_validity_connected self st Hs n)).
  rewrite (bind_value _ _ _ _ _ (protocol_names_connected self st Hs n)).
  rewrite (bind_value _ _ _ _ _ (subworld_names_connected self st Hs (S n))).
  unfold bind, lift, the_session.
  rewrite Hs. reflexivity.
Qed.

(** The outcome of [objects] on a connected store: the first selector that
    fails validation raises, and otherwise the set of [objects_retval] on
    the validated selectors is returned. *)
Lemma objects_returns (self : Database) (st : Store)
  (protocol purposes : pyvalue) (model_ids : model_ids_value)
  (groups classes subworld gender : pyvalue) (n n' : nat) (l : list File.t) :
  session self = Some st ->
  objects self protocol purposes model_ids groups classes subworld gender n
    = (inr l, n') ->
  exists protocol' purposes' groups' classes' subworld' gender',
    check_validity protocol "protocol" (protocol_names_of st)
                   (protocol_names_of st) = inr protocol' /\
    check_validity purposes "purpose" ProtocolPurpose.purpose_choices
                   ProtocolPurpose.purpose_choices = inr purposes' /\
    check_validity groups "group" ProtocolPurpose.group_choices
                   ProtocolPurpose.group_choices = inr groups' /\
    check_validity classes "class" (PyTuple ["client"; "impostor"])
                   (PyTuple ["client"; "impostor"]) = inr classes' /\
    check_validity subworld "subworld" (subworld_names_of st) (PyStr "")
      = inr subworld' /\
    check_validity gender "gender" gender_choices (PyStr "") = inr gender' /\
    l = list_set (objects_retval st protocol' purposes'
                    (model_ids_list model_ids) groups' classes' subworld'
                    gender').
Proof.
  intros Hs. rewrite (objects_connected _ st) by assumption.
  unfold bind, lift.
  destruct (check_validity protocol _ _ _) as [|protocol']; [discriminate|].
  destruct (check_validity purposes _ _ _) as [|purposes']; [discriminate|].
  destruct (check_validity groups _ _ _) as [|groups']; [discriminate|].
  destruct (check_validity classes _ _ _) as [|classes']; [discriminate|].
  destruct (check_validity subworld _ _ _) as [|subworld']; [discriminate|].
  destruct (check_validity gender _ _ _) as [|gender']; [discriminate|].
  rewrite objects_query_run. intros H. injection H as <- _.
  exists protocol', purposes', groups', classes', subworld', gender'.
  repeat split; reflexivity.
Qed.

(** Selectors that pass validation make [objects] return. *)
Lemma objects_total (self : Database) (st : Store)
  (protocol purposes : pyvalue) (model_ids : model_ids_value)
  (groups classes subworld gender : pyvalue) (n : nat) :
  session self = Some st ->
  py_valid protocol (protocol_names_of st) = true ->
  py_valid purposes ProtocolPurpose.purpose_choices = true ->
  py_valid groups ProtocolPurpose.group_choices = true ->
  py_valid classes (PyTuple ["client"; "impostor"]) = true ->
  py_valid subworld (subworld_names_of st) = true ->
  py_valid gender gender_choices = true ->
  exists l n',
    objects self protocol purposes model_ids groups classes subworld gender n
    = (inr l, n').
Proof.
  intros Hs H1 H2 H3 H4 H5 H6. rewrite (objects_connected _ st) by assumption.
  unfold bind, lift.
  rewrite (check_validity_valid _ _ _ _ H1), (check_validity_valid _ _ _ _ H2),
    (check_validity_valid _ _ _ _ H3), (check_validity_valid _ _ _ _ H4),
    (check_validity_valid _ _ _ _ H5), (check_validity_valid _ _ _ _ H6).
  rewrite objects_query_run. eauto.
Qed.

(** C4.  On a connected store the list [objects] returns holds each File
    identity, that is each [File.id], at most once, whatever branches
    produced it; and selectors that pass validation do make it return. *)
Theorem objects_no_duplicates (self : Database) (st : Store)
  (protocol purposes : pyvalue) (model_ids : model_ids_value)
  (groups classes subworld gender : pyvalue) (n : nat) :
  session self = Some st ->
  (forall l n',
     objects self protocol purposes model_ids groups classes subworld gender n
       = (inr l, n') ->
     NoDup (map File.id l) /\ NoDup l) /\
  (py_valid protocol (protocol_names_of st) = true ->
   py_valid purposes ProtocolPurpose.purpose_choices = true ->
   py_valid groups ProtocolPurpose.group_choices = true ->
   py_valid classes (PyTuple ["client"; "impostor"]) = true ->
   py_valid subworld (subworld_names_of st) = true ->
   py_valid gender gender_choices = true ->
   exists l n',
     objects self protocol purposes model_ids groups classes subworld gender n
       = (inr l, n') /\
     NoDup (map File.id l)).
Proof.
  intros Hs.
  assert (Hnd : forall l n',
     objects self protocol purposes model_ids groups classes subworld gender n
       = (inr l, n') -> NoDup (map File.id l)).
  { intros l n' H. apply (objects_returns _ st) in H; [|assumption].
    destruct H as [p' [pu' [g' [c' [s' [ge' [_ [_ [_ [_ [_ [_ ->]]]]]]]]]]]].
    apply unique_list_NoDup. apply Z.eqb_eq. }
  split.
  - intros l n' H. split; [now apply (Hnd l n')|].
    apply (NoDup_map_inv File.id). now apply (Hnd l n').
  - intros H1 H2 H3 H4 H5 H6.
    destruct (objects_total self st protocol purposes model_ids groups classes
                subworld gender n Hs H1 H2 H3 H4 H5 H6) as [l [n' H]].
    exists l, n'. split; [assumption | now apply (Hnd l n')].
Qed.

(** Files 4 and 5 are found by the client branch and again by the impostor
    branch; the result holds each once. *)
Lemma objects_no_duplicates_witness :
  session Example.db = Some Example.store /\
  objects_retval Example.store (protocol_names_of Example.store)
    (PyTuple ["probe"]) [3; 4] (PyTuple ["dev"]) (PyTuple ["client"; "impostor"])
    (PyStr "") (PyStr "")
    = [Example.f4; Example.f5; Example.f4; Example.f5] /\
  exists l n',
    objects Example.db PyNone (PyStr "probe") (ModelIds [3; 4]) (PyStr "dev")
            PyNone PyNone PyNone 0%nat = (inr l, n') /\
    l = [Example.f4; Example.f5] /\
    NoDup (map File.id l).
Proof.
  split; [reflexivity|]. split; [reflexivity|].
  destruct (objects_no_duplicates Example.db Example.store PyNone
              (PyStr "probe") (ModelIds [3; 4]) (PyStr "dev") PyNone PyNone
              PyNone 0%nat eq_refl) as [_ H].
  destruct (H eq_refl eq_refl eq_refl eq_refl eq_refl eq_refl)
    as [l [n' [Hrun Hnd]]].
  exists l, n'. split; [assumption|]. split; [|assumption].
  assert (E : objects Example.db PyNone (PyStr "probe") (ModelIds [3; 4])
                (PyStr "dev") PyNone PyNone PyNone 0%nat
              = (inr [Example.f4; Example.f5], 4%nat)) by reflexivity.
  rewrite E in Hrun. now injection Hrun as <- _.
Defined.

Lemma world_only_py_in (groups : pyvalue) :
  checked_items groups = ["world"] ->
  py_truth groups = true /\
  py_in "world" (as_sequence groups) = true /\
  py_in "dev" (as_sequence groups) = false /\
  py_in "eval" (as_sequence groups) = false /\
  py_valid groups ProtocolPurpose.group_choices = true.
Proof.
  unfold py_valid. intros H. destruct groups as [|s|l|l]; simpl in H.
  - discriminate.
  - injection H as ->. repeat split; reflexivity.
  - subst l. repeat split; reflexivity.
  - subst l. repeat split; reflexivity.
Qed.

(** C8.  With the other arguments fixed, every File that [objects] returns
    for the groups selector narrowed to world alone is also returned when
    no groups selector is given. *)
Theorem objects_world_subset (self : Database) (st : Store)
  (protocol purposes : pyvalue) (model_ids : model_ids_value)
  (groups classes subworld gender : pyvalue) (n n' : nat) (l : list File.t) :
  session self = Some st ->
  checked_items groups = ["world"] ->
  objects self protocol purposes model_ids groups classes subworld gender n
    = (inr l, n') ->
  exists l0 n0,
    objects self protocol purposes model_ids PyNone classes subworld gender n
      = (inr l0, n0) /\
    incl l l0.
Proof.
  intros Hs Hw H. apply (objects_returns _ st) in H; [|assumption].
  destruct H as [p' [pu' [g' [c' [s' [ge' [E1 [E2 [E3 [E4 [E5 [E6 ->]]]]]]]]]]]].
  destruct (world_only_py_in groups Hw) as [Ht [Hin [Hd [He Hv]]]].
  rewrite (check_validity_valid _ _ _ _ Hv), Ht in E3. injection E3 as <-.
  rewrite (objects_connected _ st) by assumption.
  unfold bind, lift. rewrite E1, E2, E4, E5, E6.
  rewrite check_validity_spec. simpl py_truth. cbv iota.
  rewrite objects_query_run.
  eexists. eexists. split; [reflexivity|].
  unfold objects_retval. rewrite Hin, Hd, He. simpl orb. cbv iota.
  rewrite app_nil_r. simpl (py_in "world" _). cbv iota.
  intros f Hf. unfold list_set. apply unique_list_app_l. exact Hf.
Qed.

Lemma objects_world_subset_witness :
  session Example.db = Some Example.store /\
  checked_items (PyStr "world") = ["world"] /\
  objects Example.db PyNone PyNone NoModelIds (PyStr "world") PyNone PyNone
          PyNone 0%nat = (inr [Example.f1; Example.f2], 3%nat) /\
  exists l0 n0,
    objects Example.db PyNone PyNone NoModelIds PyNone PyNone PyNone PyNone
            0%nat = (inr l0, n0) /\
    incl [Example.f1; Example.f2] l0.
Proof.
  split; [reflexivity|]. split; [reflexivity|]. split; [reflexivity|].
  apply (objects_world_subset Example.db Example.store PyNone PyNone NoModelIds
           (PyStr "world") PyNone PyNone PyNone 0%nat 3%nat
           [Example.f1; Example.f2]); reflexivity.
Defined.

(* ===================================================================== *)
(** ** The impostor branch and the model ids *)
(* ===================================================================== *)

(** With one model id, the impostor query drops the Files of that client. *)
Lemma objects_probe_impostor_excludes (st : Store)
  (protocol groups gender : pyvalue) (m : Z) (f : File.t) :
  In f (objects_probe_impostor st protocol groups gender [m]) ->
  File.client_id f <> m.
Proof.
  unfold objects_probe_impostor. cbv zeta. intros H.
  apply (unique_list_In Z.eqb File.id Z.eqb_eq) in H. apply in_map_iff in H.
  destruct H as [r [<- H]]. apply order_by_In in H.
  simpl (List.length [m] =? 1)%nat in H. cbv iota in H.
  apply filter_In in H. destruct H as [_ H].
  apply negb_true_iff in H. intros E. rewrite E in H. simpl in H.
  now rewrite Z.eqb_refl in H.
Qed.

(** With no model id, or with two or more, it keeps the Files of every
    client: the query is the one made for no model id at all. *)
Lemma objects_probe_impostor_unfiltered (st : Store)
  (protocol groups gender : pyvalue) (model_ids : list Z) :
  List.length model_ids <> 1%nat ->
  objects_probe_impostor st protocol groups gender model_ids =
  objects_probe_impostor st protocol groups gender [].
Proof.
  intros H. unfold objects_probe_impostor. cbv zeta.
  destruct (Nat.eqb_spec (List.length model_ids) 1); [contradiction|].
  reflexivity.
Qed.

Lemma probe_only_py_in (purposes : pyvalue) :
  checked_items purposes = ["probe"] ->
  py_truth purposes = true /\
  py_in "enrol" (as_sequence purposes) = false /\
  py_in "probe" (as_sequence purposes) = true.
Proof.
  intros H. destruct purposes as [|s|l|l]; simpl in H.
  - discriminate.
  - injection H as ->. repeat split; reflexivity.
  - subst l. repeat split; reflexivity.
  - subst l. repeat split; reflexivity.
Qed.

Lemma impostor_only_py_in (classes : pyvalue) :
  checked_items classes = ["impostor"] ->
  py_truth classes = true /\
  py_in "client" (as_sequence classes) = false /\
  py_in "impostor" (as_sequence classes) = true.
Proof.
  intros H. destruct classes as [|s|l|l]; simpl in H.
  - discriminate.
  - injection H as ->. repeat split; reflexivity.
  - subst l. repeat split; reflexivity.
  - subst l. repeat split; reflexivity.
Qed.

Lemma str_in_dev_eval (k : string) (l : list string) :
  Forall (fun x => x = "dev" \/ x = "eval") l ->
  str_in k l = true -> k = "dev" \/ k = "eval".
Proof.
  intros Hall H. apply str_in_In in H. rewrite Forall_forall in Hall.
  now apply Hall.
Qed.

Lemma dev_eval_only_py_in (groups : pyvalue) :
  py_truth groups = true ->
  Forall (fun k => k = "dev" \/ k = "eval") (checked_items groups) ->
  py_in "world" (as_sequence groups) = false /\
  py_in "dev" (as_sequence groups) || py_in "eval" (as_sequence groups) = true.
Proof.
  intros Ht Hall.
  assert (Hseq : forall l, l <> [] ->
            Forall (fun k => k = "dev" \/ k = "eval") l ->
            str_in "world" l = false /\
            str_in "dev" l || str_in "eval" l = true).
  { intros l Hne Hl. split.
    - destruct (str_in "world" l) eqn:E; [|reflexivity].
      destruct (str_in_dev_eval _ _ Hl E); discriminate.
    - destruct l as [|x r]; [contradiction|].
      inversion Hl as [|? ? [->| ->] _]; subst; simpl; auto using orb_true_r. }
  destruct groups as [|s|l|l];
    cbn [as_sequence py_in checked_items py_items py_truth] in *.
  - discriminate.
  - apply Hseq; [discriminate | assumption].
  - apply Hseq; [|assumption]. intros ->. discriminate.
  - apply Hseq; [|assumption]. intros ->. discriminate.
Qed.

(** A call for impostor probes only, in dev or eval: the result is the set
    of what the impostor query gives. *)
Lemma objects_impostor_only (st : Store)
  (protocol purposes groups classes subworld gender : pyvalue)
  (protocol' purposes' groups' classes' subworld' gender' : pyvalue)
  (model_ids : list Z) :
  checked_items purposes = ["probe"] ->
  checked_items classes = ["impostor"] ->
  py_truth groups = true ->
  Forall (fun k => k = "dev" \/ k = "eval") (checked_items groups) ->
  check_validity purposes "purpose" ProtocolPurpose.purpose_choices
                 ProtocolPurpose.purpose_choices = inr purposes' ->
  check_validity groups "group" ProtocolPurpose.group_choices
                 ProtocolPurpose.group_choices = inr groups' ->
  check_validity classes "class" (PyTuple ["client"; "impostor"])
                 (PyTuple ["client"; "impostor"]) = inr classes' ->
  objects_retval st protocol' purposes' model_ids groups' classes' subworld'
                 gender'
  = objects_probe_impostor st protocol' groups' gender' model_ids.
Proof.
  intros Hp Hc Hgt Hg E2 E3 E4.
  destruct (probe_only_py_in purposes Hp) as [Hpt [Hpe Hpp]].
  destruct (impostor_only_py_in classes Hc) as [Hct [Hcc Hci]].
  destruct (dev_eval_only_py_in groups Hgt Hg) as [Hgw Hgd].
  apply check_validity_returns in E2, E3, E4.
  destruct E2 as [[E2 _]|[_ [-> _]]]; [congruence|].
  destruct E3 as [[E3 _]|[_ [-> _]]]; [congruence|].
  destruct E4 as [[E4 _]|[_ [-> _]]]; [congruence|].
  unfold objects_retval. rewrite Hpe, Hpp, Hcc, Hci, Hgw, Hgd. reflexivity.
Qed.

(** The same call with one model id [m], given alone or in a list. *)
Lemma objects_impostor_only_excludes (self : Database) (st : Store)
  (protocol purposes : pyvalue) (model_ids : model_ids_value) (m : Z)
  (groups classes subworld gender : pyvalue) (n n' : nat) (l : list File.t) :
  session self = Some st ->
  model_ids_list model_ids = [m] ->
  checked_items purposes = ["probe"] ->
  checked_items classes = ["impostor"] ->
  py_truth groups = true ->
  Forall (fun k => k = "dev" \/ k = "eval") (checked_items groups) ->
  objects self protocol purposes model_ids groups classes subworld gender n
    = (inr l, n') ->
  forall f, In f l -> File.client_id f <> m.
Proof.
  intros Hs Hm Hp Hc Hgt Hg H f Hf.
  apply (objects_returns _ st) in H; [|assumption].
  destruct H as [p' [pu' [g' [c' [s' [ge' [E1 [E2 [E3 [E4 [E5 [E6 ->]]]]]]]]]]]].
  rewrite (objects_impostor_only st p' purposes groups classes s' ge'
             p' pu' g' c' s' ge' _ Hp Hc Hgt Hg E2 E3 E4), Hm in Hf.
  apply (unique_list_In Z.eqb File.id Z.eqb_eq) in Hf.
  now apply objects_probe_impostor_excludes in Hf.
Qed.

(** C1, as the code has it.  In a call for impostor probes only (purposes
    probe alone, classes impostor alone) with groups among dev and eval,
    one model id [m] keeps every File of client [m] out of the result;
    no model id, or two or more, leave the result what it is without any
    model id.  In every call the impostor query itself drops the Files of
    the single model id and is not filtered by model ids otherwise. *)
Theorem objects_impostor_exclusion (self : Database) (st : Store)
  (protocol purposes groups classes subworld gender : pyvalue) :
  session self = Some st ->
  checked_items purposes = ["probe"] ->
  checked_items classes = ["impostor"] ->
  py_truth groups = true ->
  Forall (fun k => k = "dev" \/ k = "eval") (checked_items groups) ->
  (forall m n n' l,
     objects self protocol purposes (ModelIds [m]) groups classes subworld
             gender n = (inr l, n') ->
     forall f, In f l -> File.client_id f <> m) /\
  (forall ids n,
     List.length ids <> 1%nat ->
     objects self protocol purposes (ModelIds ids) groups classes subworld
             gender n =
     objects self protocol purposes NoModelIds groups classes subworld
             gender n) /\
  (forall protocol' groups' gender' m f,
     In f (objects_probe_impostor st protocol' groups' gender' [m]) ->
     File.client_id f <> m) /\
  (forall protocol' groups' gender' ids,
     List.length ids <> 1%nat ->
     objects_probe_impostor st protocol' groups' gender' ids =
     objects_probe_impostor st protocol' groups' gender' []).
Proof.
  intros Hs Hp Hc Hgt Hg. repeat split.
  - intros m n n' l H.
    now apply (objects_impostor_only_excludes self st protocol purposes
                 (ModelIds [m]) m groups classes subworld gender n n' l).
  - intros ids n Hlen. rewrite !(objects_connected _ st) by assumption.
    unfold bind, lift.
    destruct (check_validity protocol _ _ _) as [|p']; [reflexivity|].
    destruct (check_validity purposes _ _ _) as [|pu'] eqn:E2; [reflexivity|].
    destruct (check_validity groups _ _ _) as [|g'] eqn:E3; [reflexivity|].
    destruct (check_validity classes _ _ _) as [|c'] eqn:E4; [reflexivity|].
    destruct (check_validity subworld _ _ _) as [|s']; [reflexivity|].
    destruct (check_validity gender _ _ _) as [|ge']; [reflexivity|].
    rewrite !objects_query_run.
    rewrite !(objects_impostor_only st p' purposes groups classes s' ge'
                p' pu' g' c' s' ge' _ Hp Hc Hgt Hg E2 E3 E4).
    simpl model_ids_list.
    now rewrite (objects_probe_impostor_unfiltered st p' g' ge' ids Hlen).
  - intros. eapply objects_probe_impostor_excludes. eassumption.
  - intros. now apply objects_probe_impostor_unfiltered.
Qed.

Lemma objects_impostor_exclusion_witness :
  session Example.db = Some Example.store /\
  objects Example.db PyNone (PyStr "probe") (ModelIds [3]) (PyStr "dev")
          (PyStr "impostor") PyNone PyNone 0%nat
    = (inr [Example.f5], 3%nat) /\
  (forall f, In f [Example.f5] -> File.client_id f <> 3) /\
  objects Example.db PyNone (PyStr "probe") (ModelIds [3; 4]) (PyStr "dev")
          (PyStr "impostor") PyNone PyNone 0%nat
    = (inr [Example.f4; Example.f5], 3%nat).
Proof.
  destruct (objects_impostor_exclusion Example.db Example.store PyNone
              (PyStr "probe") (PyStr "dev") (PyStr "impostor") PyNone PyNone
              eq_refl eq_refl eq_refl eq_refl
              (Forall_cons _ (or_introl eq_refl) (Forall_nil _)))
    as [Hone [Hmany _]].
  split; [reflexivity|]. split; [reflexivity|].
  split.
  - apply (Hone 3 0%nat 3%nat). reflexivity.
  - rewrite (Hmany [3; 4] 0%nat) by (simpl; lia). reflexivity.
Defined.

(** The other branches select by [client id IN model_ids]: the enrol
    branch returns File 3 of client 3, and the world branch File 1 of
    client 1, next to what the impostor branch gives. *)
Example objects_enrol_branch_keeps_model_files :
  objects Example.db PyNone (PyTuple ["enrol"; "probe"]) (ModelIds [3])
          (PyStr "dev") (PyStr "impostor") PyNone PyNone 0%nat
  = (inr [Example.f3; Example.f5], 4%nat).
Proof. reflexivity. Qed.

Example objects_world_branch_keeps_model_files :
  objects Example.db PyNone (PyStr "probe") (ModelIds [1]) PyNone
          (PyStr "impostor") PyNone PyNone 0%nat
  = (inr [Example.f1; Example.f4; Example.f5; Example.f6], 4%nat).
Proof. reflexivity. Qed.

(** C1 as stated fails: with classes holding both client and impostor,
    purposes probe and groups dev, the single model id 3 does not keep
    File 4 of client 3 out of the result: the client branch returns it. *)
Lemma objects_impostor_exclusion_counterexample :
  ~ (forall (self : Database) (st : Store)
            (protocol purposes groups classes subworld gender : pyvalue)
            (m : Z) (n n' : nat) (l : list File.t),
       session self = Some st ->
       py_in "probe" purposes = true ->
       py_in "impostor" classes = true ->
       py_in "dev" groups = true \/ py_in "eval" groups = true ->
       objects self protocol purposes (ModelIds [m]) groups classes subworld
               gender n = (inr l, n') ->
       forall f, In f l -> File.client_id f <> m).
Proof.
  intros H.
  apply (H Example.db Example.store PyNone (PyTuple ["probe"])
           (PyTuple ["dev"]) (PyTuple ["client"; "impostor"]) PyNone PyNone
           3 0%nat 4%nat [Example.f4; Example.f5]
           eq_refl eq_refl eq_refl (or_introl eq_refl) eq_refl
           Example.f4 (or_introl eq_refl)).
  reflexivity.
Qed.

(** C9.  A model id given alone is handled as the list holding it: the two
    calls are the same computation, and in a call for impostor probes only
    the lone id keeps the Files of that client out of the result. *)
Theorem objects_scalar_model_id (self : Database) (st : Store)
  (protocol purposes groups classes subworld gender : pyvalue) (m : Z) :
  (forall n,
     objects self protocol purposes (ModelId m) groups classes subworld
             gender n =
     objects self protocol purposes (ModelIds [m]) groups classes subworld
             gender n) /\
  (session self = Some st ->
   checked_items purposes = ["probe"] ->
   checked_items classes = ["impostor"] ->
   py_truth groups = true ->
   Forall (fun k => k = "dev" \/ k = "eval") (checked_items groups) ->
   forall n n' l,
     objects self protocol purposes (ModelId m) groups classes subworld
             gender n = (inr l, n') ->
     forall f, In f l -> File.client_id f <> m).
Proof.
  split.
  - intros n. reflexivity.
  - intros Hs Hp Hc Hgt Hg n n' l H.
    now apply (objects_impostor_only_excludes self st protocol purposes
                 (ModelId m) m groups classes subworld gender n n' l).
Qed.

Lemma objects_scalar_model_id_witness :
  objects Example.db PyNone (PyStr "probe") (ModelId 3) (PyStr "dev")
          (PyStr "impostor") PyNone PyNone 0%nat
    = objects Example.db PyNone (PyStr "probe") (ModelIds [3]) (PyStr "dev")
              (PyStr "impostor") PyNone PyNone 0%nat /\
  objects Example.db PyNone (PyStr "probe") (ModelId 3) (PyStr "dev")
          (PyStr "impostor") PyNone PyNone 0%nat
    = (inr [Example.f5], 3%nat) /\
  (forall f, In f [Example.f5] -> File.client_id f <> 3).
Proof.
  destruct (objects_scalar_model_id Example.db Example.store PyNone
              (PyStr "probe") (PyStr "dev") (PyStr "impostor") PyNone PyNone 3)
    as [Heq Hex].
  split; [apply Heq|]. split; [reflexivity|].
  apply (Hex eq_refl eq_refl eq_refl eq_refl
           (Forall_cons _ (or_introl eq_refl) (Forall_nil _)) 0%nat 3%nat).
  reflexivity.
Defined.

(* ===================================================================== *)
(** ** Client selection *)
(* ===================================================================== *)

Lemma clients_connected (self : Database) (st : Store)
  (protocol groups subworld gender : pyvalue) (n : nat) :
  session self = Some st ->
  clients self protocol groups subworld gender n =
  (protocol <- lift (check_validity protocol "protocol" (protocol_names_of st)
                                    (PyStr "")) ;;
   groups <- lift (check_validity groups "group" ProtocolPurpose.group_choices
                                  (PyStr "")) ;;
   subworld <- lift (check_validity subworld "subworld" (subworld_names_of st)
                                    (PyStr "")) ;;
   gender <- lift (check_validity gender "gender" gender_choices (PyStr "")) ;;
   fetch (clients_query st protocol groups subworld gender)) (S (S n)).
Proof.
  intros Hs. unfold clients. cbv zeta.
  rewrite (bind_value _ _ _ _ _ (assert_validity_connected self st Hs n)).
  rewrite (bind_value _ _ _ _ _ (protocol_names_connected self st Hs n)).
  rewrite (bind_value _ _ _ _ _ (subworld_names_connected self st Hs (S n))).
  unfold bind, lift, the_session.
  rewrite Hs. reflexivity.
Qed.

(** The clients selected for the group world are clients of that group. *)
Lemma clients_query_world (st : Store) (protocol subworld gender : pyvalue)
  (c : Client.t) :
  In c (clients_query st protocol (PyTuple ["world"]) subworld gender) ->
  Client.sgroup c = "world".
Proof.
  unfold clients_query. cbv zeta. intros H.
  apply (unique_list_In Z.eqb Client.id Z.eqb_eq) in H.
  apply order_by_In in H.
  assert (Hg : In c (filter (fun c => in_ (Client.sgroup c) (PyTuple ["world"]))
                       (if py_truth protocol
                        then filter (fun c => in_ (Client.gender c) protocol)
                                    (t_client st)
                        else t_client st))).
  { simpl (py_truth (PyTuple ["world"])) in H. cbv iota in H.
    destruct (py_truth gender); [apply filter_In in H; destruct H as [H _]|];
      (destruct (py_truth subworld); [apply join_where_In in H|]); exact H. }
  apply filter_In in Hg. destruct Hg as [_ Hg].
  unfold in_ in Hg. simpl in Hg. rewrite orb_false_r in Hg.
  now apply String.eqb_eq in Hg.
Qed.

Lemma clients_world_returns (self : Database) (st : Store)
  (protocol subworld gender : pyvalue) (n n' : nat) (l : list Client.t) :
  session self = Some st ->
  clients self protocol (PyStr "world") subworld gender n = (inr l, n') ->
  Forall (fun c => Client.sgroup c = "world") l.
Proof.
  intros Hs. rewrite (clients_connected _ st) by assumption.
  unfold bind, lift.
  destruct (check_validity protocol _ _ _) as [|p']; [discriminate|].
  rewrite (check_validity_spec (PyStr "world")). simpl.
  destruct (check_validity subworld _ _ _) as [|s']; [discriminate|].
  destruct (check_validity gender _ _ _) as [|ge']; [discriminate|].
  unfold fetch. intros H. injection H as <- _.
  apply Forall_forall. intros c Hc. now apply clients_query_world in Hc.
Qed.

Lemma tclients_connected (self : Database) (st : Store)
  (protocol groups subworld gender : pyvalue) (n : nat) :
  session self = Some st ->
  tclients self protocol groups subworld gender n =
  (protocol <- lift (check_validity protocol "protocol" (protocol_names_of st)
                                    (PyStr "")) ;;
   groups <- lift (check_validity groups "group" (PyTuple ["dev"; "eval"])
                                  (PyStr "")) ;;
   subworld <- lift (check_validity subworld "subworld" (subworld_names_of st)
                                    (PyStr "")) ;;
   gender <- lift (check_validity gender "gender" gender_choices (PyStr "")) ;;
   clients self protocol (PyStr "world") subworld gender) (S (S n)).
Proof.
  intros Hs. unfold tclients.
  rewrite (bind_value _ _ _ _ _ (protocol_names_connected self st Hs n)).
  rewrite (bind_value _ _ _ _ _ (subworld_names_connected self st Hs (S n))).
  reflexivity.
Qed.

Lemma zclients_connected (self : Database) (st : Store)
  (protocol groups subworld gender : pyvalue) (n : nat) :
  session self = Some st ->
  zclients self protocol groups subworld gender n =
  (groups <- lift (check_validity groups "group" (PyTuple ["dev"; "eval"])
                                  (PyStr "")) ;;
   clients self protocol (PyStr "world") subworld gender) n.
Proof.
  intros Hs. unfold zclients.
  rewrite (bind_value _ _ _ _ _ (assert_validity_connected self st Hs n)).
  reflexivity.
Qed.

(** Selectors that pass validation make [tclients] and [zclients] return,
    after five and three queries. *)
Lemma norm_clients_total (self : Database) (st : Store)
  (protocol groups subworld gender : pyvalue) (n : nat) :
  session self = Some st ->
  py_valid protocol (protocol_names_of st) = true ->
  py_valid groups (PyTuple ["dev"; "eval"]) = true ->
  py_valid subworld (subworld_names_of st) = true ->
  py_valid gender gender_choices = true ->
  (exists l, tclients self protocol groups subworld gender n
             = (inr l, (n + 5)%nat)) /\
  (exists l, zclients self protocol groups subworld gender n
             = (inr l, (n + 3)%nat)).
Proof.
  intros Hs H1 H2 H3 H4.
  pose proof (check_validity_valid _ "protocol" _ (PyStr "") H1) as E1.
  pose proof (check_validity_valid _ "group" _ (PyStr "") H2) as E2.
  pose proof (check_validity_valid _ "subworld" _ (PyStr "") H3) as E3.
  pose proof (check_validity_valid _ "gender" _ (PyStr "") H4) as E4.
  split.
  - rewrite (tclients_connected _ st) by assumption. unfold bind, lift.
    rewrite E1, E2, E3, E4.
    rewrite (clients_connected _ st) by assumption. unfold bind, lift.
    rewrite (check_validity_idem _ _ "protocol" _ _ E1),
      (check_validity_idem _ _ "subworld" _ _ E3),
      (check_validity_idem _ _ "gender" _ _ E4).
    rewrite (check_validity_spec (PyStr "world")). simpl.
    unfold fetch. replace (n + 5)%nat with (S (S (S (S (S n))))) by lia. eauto.
  - rewrite (zclients_connected _ st) by assumption. unfold bind, lift.
    rewrite E2.
    rewrite (clients_connected _ st) by assumption. unfold bind, lift.
    rewrite E1, E3, E4.
    rewrite (check_validity_spec (PyStr "world")). simpl.
    unfold fetch. replace (n + 3)%nat with (S (S (S n))) by lia. eauto.
Qed.

(** C2.  On a connected store every client that [tclients] or [zclients]
    returns belongs to the group world, and selectors that pass validation
    make both return.  The groups argument is checked
    against dev and eval: a value outside makes the call raise, and any
    two values that pass give the same outcome. *)
Theorem norm_clients_from_world (self : Database) (st : Store)
  (protocol groups subworld gender : pyvalue) (n : nat) :
  session self = Some st ->
  (forall l n',
     tclients self protocol groups subworld gender n = (inr l, n') ->
     Forall (fun c => Client.sgroup c = "world") l) /\
  (forall l n',
     zclients self protocol groups subworld gender n = (inr l, n') ->
     Forall (fun c => Client.sgroup c = "world") l) /\
  (py_valid groups (PyTuple ["dev"; "eval"]) = false ->
   (exists e n', tclients self protocol groups subworld gender n = (inl e, n')) /\
   (exists e, zclients self protocol groups subworld gender n = (inl e, n))) /\
  (py_valid groups (PyTuple ["dev"; "eval"]) = true ->
   (forall groups',
      py_valid groups' (PyTuple ["dev"; "eval"]) = true ->
      tclients self protocol groups subworld gender n =
      tclients self protocol groups' subworld gender n /\
      zclients self protocol groups subworld gender n =
      zclients self protocol groups' subworld gender n) /\
   zclients self protocol groups subworld gender n =
   clients self protocol (PyStr "world") subworld gender n) /\
  (py_valid protocol (protocol_names_of st) = true ->
   py_valid groups (PyTuple ["dev"; "eval"]) = true ->
   py_valid subworld (subworld_names_of st) = true ->
   py_valid gender gender_choices = true ->
   (exists l, tclients self protocol groups subworld gender n
              = (inr l, (n + 5)%nat)) /\
   (exists l, zclients self protocol groups subworld gender n
              = (inr l, (n + 3)%nat))).
Proof.
  intros Hs. repeat split;
    try solve [intros; now apply (norm_clients_total self st)].
  - intros l n'. rewrite (tclients_connected _ st) by assumption.
    unfold bind, lift.
    destruct (check_validity protocol _ _ _) as [|p']; [discriminate|].
    destruct (check_validity groups _ _ _) as [|g']; [discriminate|].
    destruct (check_validity subworld _ _ _) as [|s']; [discriminate|].
    destruct (check_validity gender _ _ _) as [|ge']; [discriminate|].
    now apply clients_world_returns with (st := st).
  - intros l n'. rewrite (zclients_connected _ st) by assumption.
    unfold bind, lift.
    destruct (check_validity groups _ _ _) as [|g']; [discriminate|].
    now apply clients_world_returns with (st := st).
  - rewrite (tclients_connected _ st) by assumption. unfold bind, lift.
    destruct (check_validity_invalid groups "group" _ (PyStr "") H) as [e He].
    destruct (check_validity protocol _ _ _) as [e'|p']; [eauto|].
    rewrite He. eauto.
  - rewrite (zclients_connected _ st) by assumption. unfold bind, lift.
    destruct (check_validity_invalid groups "group" _ (PyStr "") H) as [e He].
    rewrite He. eauto.
  - rewrite !(tclients_connected _ st) by assumption. unfold bind, lift.
    rewrite (check_validity_valid _ "group" _ (PyStr "") H),
      (check_validity_valid _ "group" _ (PyStr "") H0).
    reflexivity.
  - rewrite !(zclients_connected _ st) by assumption. unfold bind, lift.
    rewrite (check_validity_valid _ "group" _ (PyStr "") H),
      (check_validity_valid _ "group" _ (PyStr "") H0).
    reflexivity.
  - rewrite (zclients_connected _ st) by assumption. unfold bind, lift.
    rewrite (check_validity_valid _ "group" _ (PyStr "") H).
    reflexivity.
Qed.

Lemma norm_clients_from_world_witness :
  session Example.db = Some Example.store /\
  tclients Example.db PyNone (PyStr "dev") (PyStr "twothirds") PyNone 0%nat
    = (inr [Example.c1; Example.c2], 5%nat) /\
  tclients Example.db PyNone (PyStr "dev") (PyStr "twothirds") PyNone 0%nat
    = tclients Example.db PyNone (PyStr "eval") (PyStr "twothirds") PyNone 0%nat /\
  Forall (fun c => Client.sgroup c = "world") [Example.c1; Example.c2] /\
  (exists e n',
     tclients Example.db PyNone (PyStr "world") (PyStr "twothirds") PyNone 0%nat
       = (inl e, n')).
Proof.
  destruct (norm_clients_from_world Example.db Example.store PyNone
              (PyStr "dev") (PyStr "twothirds") PyNone 0%nat eq_refl)
    as [Ht [_ [_ [Hsame _]]]].
  destruct (norm_clients_from_world Example.db Example.store PyNone
              (PyStr "world") (PyStr "twothirds") PyNone 0%nat eq_refl)
    as [_ [_ [Hbad _]]].
  split; [reflexivity|]. split; [reflexivity|].
  split; [apply (Hsame eq_refl); reflexivity|].
  split; [apply (Ht _ 5%nat); reflexivity|].
  apply Hbad. reflexivity.
Defined.

(* ===================================================================== *)
(** ** T-norm models *)
(* ===================================================================== *)

Lemma tmodels_connected (self : Database) (st : Store)
  (protocol groups subworld gender : pyvalue) (n : nat) :
  session self = Some st ->
  tmodels self protocol groups subworld gender n =
  (protocol <- lift (check_validity protocol "protocol" (protocol_names_of st)
                                    (PyStr "")) ;;
   groups <- lift (check_validity groups "group" (PyTuple ["dev"; "eval"])
                                  (PyStr "")) ;;
   subworld <- lift (check_validity subworld "subworld" (subworld_names_of st)
                                    (PyStr "")) ;;
   gender <- lift (check_validity gender "gender" gender_choices (PyStr "")) ;;
   fetch (tmodels_query st subworld gender)) (S (S n)).
Proof.
  intros Hs. unfold tmodels.
  rewrite (bind_value _ _ _ _ _ (assert_validity_connected self st Hs n)).
  rewrite (bind_value _ _ _ _ _ (protocol_names_connected self st Hs n)).
  rewrite (bind_value _ _ _ _ _ (subworld_names_connected self st Hs (S n))).
  unfold bind, lift, the_session.
  rewrite Hs. reflexivity.
Qed.

(** C10.  On a connected store, once the protocol and groups selectors pass
    validation they play no part in [tmodels]: the outcome is that of the
    query on the validated subworld and gender, so any two protocols and
    any two groups values that pass give the same outcome. *)
Theorem tmodels_ignores_protocol_and_groups (self : Database) (st : Store)
  (protocol protocol' groups groups' subworld gender : pyvalue) (n : nat) :
  session self = Some st ->
  py_valid protocol (protocol_names_of st) = true ->
  py_valid protocol' (protocol_names_of st) = true ->
  py_valid groups (PyTuple ["dev"; "eval"]) = true ->
  py_valid groups' (PyTuple ["dev"; "eval"]) = true ->
  tmodels self protocol groups subworld gender n =
  tmodels self protocol' groups' subworld gender n /\
  tmodels self protocol groups subworld gender n =
  (subworld <- lift (check_validity subworld "subworld" (subworld_names_of st)
                                    (PyStr "")) ;;
   gender <- lift (check_validity gender "gender" gender_choices (PyStr "")) ;;
   fetch (tmodels_query st subworld gender)) (S (S n)).
Proof.
  intros Hs H1 H1' H2 H2'.
  rewrite !(tmodels_connected _ st) by assumption. unfold bind, lift.
  rewrite (check_validity_valid _ "protocol" _ (PyStr "") H1),
    (check_validity_valid _ "protocol" _ (PyStr "") H1'),
    (check_validity_valid _ "group" _ (PyStr "") H2),
    (check_validity_valid _ "group" _ (PyStr "") H2').
  split; reflexivity.
Qed.

Lemma tmodels_ignores_protocol_and_groups_witness :
  session Example.db = Some Example.store /\
  tmodels Example.db (PyStr "male") (PyStr "dev") (PyStr "onethird") PyNone 0%nat
    = tmodels Example.db (PyList ["female"]) PyNone (PyStr "onethird") PyNone
              0%nat /\
  tmodels Example.db (PyStr "male") (PyStr "dev") (PyStr "onethird") PyNone 0%nat
    = (inr [TModel.mk "t001" 1], 3%nat).
Proof.
  destruct (tmodels_ignores_protocol_and_groups Example.db Example.store
              (PyStr "male") (PyList ["female"]) (PyStr "dev") PyNone
              (PyStr "onethird") PyNone 0%nat
              eq_refl eq_refl eq_refl eq_refl eq_refl) as [Hsame Hrun].
  split; [reflexivity|]. split; [exact Hsame|].
  rewrite Hrun. reflexivity.
Defined.

(* ===================================================================== *)
(** ** More on ordering and uniqueness *)
(* ===================================================================== *)

Section UniqueFacts.
Context {A K : Type}.
Variable keq : K -> K -> bool.
Variable key : A -> K.
Hypothesis keq_spec : forall a b, keq a b = true <-> a = b.

(** Every key of the rows is the key of a row that is kept. *)
Lemma unique_from_keys (seen : list K) (l : list A) (x : A) :
  In x l -> ~ In (key x) seen ->
  exists y, In y (unique_from keq key seen l) /\ key y = key x.
Proof.
  revert seen. induction l as [|z r IH]; intros seen Hx Hseen; [contradiction|].
  simpl. destruct (existsb (keq (key z)) seen) eqn:E.
  - destruct Hx as [->|Hx]; [|now apply IH].
    apply (existsb_keq keq keq_spec) in E. contradiction.
  - destruct Hx as [->|Hx]; [exists x; split; [now left | reflexivity]|].
    destruct (keq (key z) (key x)) eqn:Ek.
    + apply keq_spec in Ek. exists z. split; [now left | assumption].
    + destruct (IH (key z :: seen) Hx) as [y [Hy Hk]].
      * intros [Hz|Hin]; [|contradiction].
        rewrite <- Hz in Ek.
        assert (keq (key z) (key z) = true) by now apply keq_spec.
        congruence.
      * exists y. split; [now right | assumption].
Qed.

(** When rows of equal key are equal, no row is lost. *)
Lemma unique_list_complete (l : list A) (x : A) :
  (forall a b, In a l -> In b l -> key a = key b -> a = b) ->
  In x l -> In x (unique_list keq key l).
Proof.
  intros Hinj Hx.
  destruct (unique_from_keys [] l x Hx (fun H => H)) as [y [Hy Hk]].
  assert (Hyl : In y l) by now apply (unique_from_In keq key keq_spec) in Hy.
  now rewrite <- (Hinj y x Hyl Hx Hk).
Qed.

Lemma unique_from_sorted (R : A -> A -> Prop) (seen : list K) (l : list A) :
  StronglySorted R l -> StronglySorted R (unique_from keq key seen l).
Proof.
  revert seen. induction l as [|z r IH]; intros seen Hs; simpl; [constructor|].
  apply StronglySorted_inv in Hs. destruct Hs as [Hr Hz].
  destruct (existsb (keq (key z)) seen); [now apply IH|].
  constructor; [now apply IH|].
  rewrite Forall_forall in *. intros y Hy. apply Hz.
  now apply (unique_from_In keq key keq_spec) in Hy.
Qed.

End UniqueFacts.

Section OrderFacts.
Context {A : Type}.
Variable leb : A -> A -> bool.
Variable R : A -> A -> Prop.
Hypothesis leb_R : forall a b, leb a b = true -> R a b.
Hypothesis leb_total : forall a b, leb a b = false -> R b a.
Hypothesis R_trans : forall a b c, R a b -> R b c -> R a c.

Lemma insert_by_sorted (x : A) (l : list A) :
  StronglySorted R l -> StronglySorted R (insert_by leb x l).
Proof.
  induction l as [|y r IH]; intros Hs; simpl.
  - repeat constructor.
  - apply StronglySorted_inv in Hs. destruct Hs as [Hr Hy].
    destruct (leb x y) eqn:E.
    + constructor; [now constructor|].
      constructor; [now apply leb_R|].
      rewrite Forall_forall in *. intros z Hz.
      apply R_trans with y; [now apply leb_R | now apply Hy].
    + constructor; [now apply IH|].
      rewrite Forall_forall in *. intros z Hz.
      apply insert_by_In in Hz. destruct Hz as [->|Hz];
        [now apply leb_total | now apply Hy].
Qed.

Lemma order_by_sorted (l : list A) : StronglySorted R (order_by leb l).
Proof.
  induction l as [|x r IH]; simpl; [constructor | now apply insert_by_sorted].
Qed.

End OrderFacts.

Lemma sorted_keys_strict {A} (key : A -> Z) (l : list A) :
  StronglySorted (fun a b => key a <= key b) l ->
  NoDup (map key l) ->
  StronglySorted (fun a b => key a < key b) l.
Proof.
  induction l as [|x r IH]; intros Hs Hnd; [constructor|].
  apply StronglySorted_inv in Hs. destruct Hs as [Hr Hx].
  simpl in Hnd. apply NoDup_cons_iff in Hnd. destruct Hnd as [Hfresh Hnd].
  constructor; [now apply IH|].
  rewrite Forall_forall in *. intros y Hy.
  assert (key x <> key y).
  { intros E. apply Hfresh. rewrite E. now apply in_map. }
  specialize (Hx y Hy). lia.
Qed.

Lemma join_In {A B} (rows : list A) (related : A -> list B) (a : A) (b : B) :
  In (a, b) (join rows related) <-> In a rows /\ In b (related a).
Proof.
  unfold join. rewrite in_flat_map. split.
  - intros [x [Hx H]]. apply in_map_iff in H. destruct H as [y [E Hy]].
    injection E as -> ->. tauto.
  - intros [Ha Hb]. exists a. split; [assumption | now apply in_map].
Qed.

Lemma join_where_In_iff {A B} (rows : list A) (related : A -> list B)
  (p : B -> bool) (x : A) :
  In x (join_where rows related p) <->
  In x rows /\ exists b, In b (related x) /\ p b = true.
Proof.
  unfold join_where. rewrite in_flat_map. split.
  - intros [a [Ha H]]. apply in_map_iff in H. destruct H as [b [-> Hb]].
    apply filter_In in Hb. split; [assumption | now exists b].
  - intros [Hx [b [Hb Hp]]]. exists x. split; [assumption|].
    apply in_map_iff. exists b. split; [reflexivity | now apply filter_In].
Qed.

Lemma py_items_as_sequence (l : pyvalue) :
  py_items (as_sequence l) = checked_items l.
Proof. destruct l; reflexivity. Qed.

(** What a filter of [clients] on a validated selector lets through. *)
Lemma in_validated (l : pyvalue) (x : string) :
  py_truth (validated l (PyStr "")) = false \/ in_ x (validated l (PyStr "")) = true
  <-> lets_through l x.
Proof.
  unfold validated, lets_through, in_.
  destruct (py_truth l) eqn:E.
  - rewrite (py_truth_as_sequence l E), py_items_as_sequence, str_in_In.
    intuition discriminate.
  - simpl. tauto.
Qed.

Lemma py_truth_validated (l : pyvalue) :
  py_truth (validated l (PyStr "")) = py_truth l.
Proof.
  unfold validated. destruct (py_truth l) eqn:E; [|reflexivity].
  now apply py_truth_as_sequence.
Qed.

Lemma check_validity_validated (l : pyvalue) (obj : string)
  (valid default v : pyvalue) :
  check_validity l obj valid default = inr v -> v = validated l default.
Proof.
  intros H. apply check_validity_returns in H. unfold validated.
  destruct H as [[-> ->]|[-> [-> _]]]; reflexivity.
Qed.

(* ===================================================================== *)
(** ** What [clients] selects *)
(* ===================================================================== *)

Lemma clients_returns (self : Database) (st : Store)
  (protocol groups subworld gender : pyvalue) (n n' : nat) (l : list Client.t) :
  session self = Some st ->
  clients self protocol groups subworld gender n = (inr l, n') ->
  l = clients_query st (validated protocol (PyStr ""))
        (validated groups (PyStr "")) (validated subworld (PyStr ""))
        (validated gender (PyStr "")) /\
  n' = (n + 3)%nat.
Proof.
  intros Hs. rewrite (clients_connected _ st) by assumption. unfold bind, lift.
  destruct (check_validity protocol _ _ _) as [|p'] eqn:E1; [discriminate|].
  destruct (check_validity groups _ _ _) as [|g'] eqn:E2; [discriminate|].
  destruct (check_validity subworld _ _ _) as [|s'] eqn:E3; [discriminate|].
  destruct (check_validity gender _ _ _) as [|ge'] eqn:E4; [discriminate|].
  apply check_validity_validated in E1, E2, E3, E4. subst.
  unfold fetch. intros H. injection H as <- <-. split; [reflexivity | lia].
Qed.

(** X1.  The list [clients] returns, and so the list [models] returns, is
    in strictly increasing order of [Client.id]: sorted, and without two
    entries of the same id. *)
Theorem clients_sorted_by_id (self : Database) (st : Store)
  (protocol groups subworld gender : pyvalue) (n n' : nat) (l : list Client.t) :
  session self = Some st ->
  clients self protocol groups subworld gender n = (inr l, n') \/
  models self protocol groups subworld gender n = (inr l, n') ->
  StronglySorted (fun a b => Client.id a < Client.id b) l.
Proof.
  intros Hs H.
  assert (Hc : clients self protocol groups subworld gender n = (inr l, n'))
    by (destruct H as [H|H]; exact H).
  apply (clients_returns _ st) in Hc; [|assumption]. destruct Hc as [-> _].
  unfold clients_query. cbv zeta.
  apply sorted_keys_strict; [|apply unique_list_NoDup; apply Z.eqb_eq].
  apply (unique_from_sorted Z.eqb Client.id Z.eqb_eq).
  apply (order_by_sorted Client_leb (fun a b => Client.id a <= Client.id b)).
  - intros a b E. unfold Client_leb in E. lia.
  - intros a b E. unfold Client_leb in E. lia.
  - intros a b c. lia.
Qed.

Lemma clients_sorted_by_id_witness :
  session Example.db = Some Example.store /\
  clients Example.db PyNone (PyTuple ["eval"; "dev"]) PyNone PyNone 0%nat
    = (inr [Example.c3; Example.c4; Example.c5], 3%nat) /\
  StronglySorted (fun a b => Client.id a < Client.id b)
    [Example.c3; Example.c4; Example.c5].
Proof.
  split; [reflexivity|]. split; [reflexivity|].
  apply (clients_sorted_by_id Example.db Example.store PyNone
           (PyTuple ["eval"; "dev"]) PyNone PyNone 0%nat 3%nat _ eq_refl).
  left. reflexivity.
Defined.

Lemma key_injective {A} (key : A -> Z) (l : list A) (a b : A) :
  NoDup (map key l) -> In a l -> In b l -> key a = key b -> a = b.
Proof.
  induction l as [|x r IH]; intros Hnd Ha Hb E; [contradiction|].
  simpl in Hnd. apply NoDup_cons_iff in Hnd. destruct Hnd as [Hfresh Hnd].
  destruct Ha as [->|Ha], Hb as [->|Hb]; [reflexivity | | | now apply IH].
  - exfalso. apply Hfresh. rewrite E. now apply in_map.
  - exfalso. apply Hfresh. rewrite <- E. now apply in_map.
Qed.

Lemma in_validated_true (l : pyvalue) (x : string) :
  py_truth l = true ->
  (in_ x (validated l (PyStr "")) = true <-> In x (checked_items l)).
Proof.
  intros E. unfold validated, in_. rewrite E, py_items_as_sequence.
  apply str_in_In.
Qed.

(** The rows of the query of [clients]: the clients of the table that every
    selector in force lets through. *)
Lemma clients_query_In (st : Store) (protocol groups subworld gender : pyvalue)
  (c : Client.t) :
  Client_primary_key st ->
  (In c (clients_query st protocol groups subworld gender) <->
   In c (t_client st) /\
   (py_truth protocol = false \/ in_ (Client.gender c) protocol = true) /\
   (py_truth groups = false \/ in_ (Client.sgroup c) groups = true) /\
   (py_truth subworld = false \/
    exists s, In s (Client_subworld st c) /\
              in_ (Subworld.name s) subworld = true) /\
   (py_truth gender = false \/ in_ (Client.gender c) gender = true)).
Proof.
  intros Hpk. unfold clients_query. cbv zeta.
  set (q := if py_truth gender then _ else _).
  assert (Hq : forall x, In x q <->
     In x (t_client st) /\
     (py_truth protocol = false \/ in_ (Client.gender x) protocol = true) /\
     (py_truth groups = false \/ in_ (Client.sgroup x) groups = true) /\
     (py_truth subworld = false \/
      exists s, In s (Client_subworld st x) /\
                in_ (Subworld.name s) subworld = true) /\
     (py_truth gender = false \/ in_ (Client.gender x) gender = true)).
  { intros x. subst q.
    destruct (py_truth protocol), (py_truth groups), (py_truth subworld),
      (py_truth gender);
      rewrite ?filter_In, ?join_where_In_iff, ?filter_In;
      intuition discriminate. }
  split.
  - intros H. apply (unique_list_In Z.eqb Client.id Z.eqb_eq) in H.
    apply order_by_In in H. now apply Hq.
  - intros H. apply (unique_list_complete Z.eqb Client.id Z.eqb_eq).
    + intros a b Ha Hb. apply order_by_In in Ha, Hb.
      apply Hq in Ha, Hb. apply (key_injective Client.id (t_client st));
        tauto.
    + apply order_by_In. now apply Hq.
Qed.

(** X2.  On a store whose clients have distinct ids, [clients] returns
    exactly the clients of the table that pass every selector given:
    gender among the protocols, group among the groups, a subworld of the
    client among the subworlds, gender among the genders; an absent
    selector filters nothing. *)
Theorem clients_selects_conjunctively (self : Database) (st : Store)
  (protocol groups subworld gender : pyvalue) (n n' : nat) (l : list Client.t) :
  session self = Some st ->
  Client_primary_key st ->
  clients self protocol groups subworld gender n = (inr l, n') ->
  forall c,
    In c l <->
    In c (t_client st) /\
    lets_through protocol (Client.gender c) /\
    lets_through groups (Client.sgroup c) /\
    (py_truth subworld = false \/
     exists s, In s (Client_subworld st c) /\
               In (Subworld.name s) (checked_items subworld)) /\
    lets_through gender (Client.gender c).
Proof.
  intros Hs Hpk H c.
  apply (clients_returns _ st) in H; [|assumption]. destruct H as [-> _].
  rewrite (clients_query_In st _ _ _ _ c Hpk).
  rewrite !in_validated.
  rewrite (py_truth_validated subworld).
  destruct (py_truth subworld) eqn:E.
  - assert (Hsw : (exists s, In s (Client_subworld st c) /\
                     in_ (Subworld.name s) (validated subworld (PyStr "")) = true)
                  <-> (exists s, In s (Client_subworld st c) /\
                         In (Subworld.name s) (checked_items subworld))).
    { split; intros [s [H1 H2]]; exists s; split; try assumption;
        now apply (in_validated_true subworld _ E). }
    rewrite Hsw. tauto.
  - tauto.
Qed.

Lemma clients_selects_conjunctively_witness :
  session Example.db = Some Example.store /\
  Client_primary_key Example.store /\
  clients Example.db (PyStr "male") PyNone (PyStr "twothirds") PyNone 0%nat
    = (inr [Example.c1], 3%nat) /\
  (In Example.c1 [Example.c1] <->
   In Example.c1 (t_client Example.store) /\
   lets_through (PyStr "male") "male" /\
   lets_through PyNone "world" /\
   (py_truth (PyStr "twothirds") = false \/
    exists s, In s (Client_subworld Example.store Example.c1) /\
              In (Subworld.name s) ["twothirds"]) /\
   lets_through PyNone "male").
Proof.
  assert (Hpk : Client_primary_key Example.store).
  { unfold Client_primary_key. simpl.
    repeat (constructor; [simpl; intuition discriminate|]). constructor. }
  split; [reflexivity|]. split; [exact Hpk|]. split; [reflexivity|].
  apply (clients_selects_conjunctively Example.db Example.store (PyStr "male")
           PyNone (PyStr "twothirds") PyNone 0%nat 3%nat [Example.c1]
           eq_refl Hpk eq_refl Example.c1).
Defined.

(* ===================================================================== *)
(** ** Validation comes before selection *)
(* ===================================================================== *)

Lemma check_validity_raises (l : pyvalue) (obj : string)
  (valid default : pyvalue) (e : exn) :
  check_validity l obj valid default = inl e ->
  exists k, py_in k valid = false /\ e = RuntimeError (invalid_msg obj k valid).
Proof.
  rewrite check_validity_spec. destruct (py_truth l); [|discriminate].
  destruct (check_each (checked_items l) obj valid) as [e'|] eqn:E;
    [|discriminate].
  intros H. injection H as <-.
  destruct (check_each_Some _ _ _ _ E) as [pre [k [post [_ [_ [Hk ->]]]]]].
  now exists k.
Qed.

Lemma check_validity_inr_valid (l : pyvalue) (obj : string)
  (valid default v : pyvalue) :
  check_validity l obj valid default = inr v -> py_valid l valid = true.
Proof.
  intros H. destruct (py_valid l valid) eqn:E; [reflexivity|].
  destruct (check_validity_invalid l obj valid default E) as [e He].
  congruence.
Qed.

Lemma tobjects_connected (self : Database) (st : Store)
  (protocol model_ids groups subworld gender : pyvalue) (n : nat) :
  session self = Some st ->
  tobjects self protocol model_ids groups subworld gender n =
  (protocol <- lift (check_validity protocol "protocol" (protocol_names_of st)
                                    (protocol_names_of st)) ;;
   groups <- lift (check_validity groups "group" (PyTuple ["dev"; "eval"])
                                  (PyStr "")) ;;
   subworld <- lift (check_validity subworld "subworld" (subworld_names_of st)
                                    (PyStr "")) ;;
   gender <- lift (check_validity gender "gender" gender_choices (PyStr "")) ;;
   let model_ids :=
     match model_ids with
     | PyNone => PyTuple []
     | PyStr s => PyTuple [s]
     | _ => model_ids
     end in
   let q := t_file st in
   let q := if py_truth subworld
            then join_where q (File_subworld st)
                            (fun s => in_ (Subworld.name s) subworld)
            else q in
   let q := join q (File_tmodels st) in
   let q := if py_truth model_ids
            then filter (fun r => in_ (TModel.id (snd r)) model_ids) q else q in
   let q := if py_truth gender
            then join_where q (fun r => TModel_client st (snd r))
                            (fun c => in_ (Client.gender c) gender)
            else q in
   let q := order_by (fun a b => File_leb (fst a) (fst b)) q in
   fetch (unique_list Z.eqb File.id (map fst q))) (S (S n)).
Proof.
  intros Hs. unfold tobjects.
  rewrite (bind_value _ _ _ _ _ (assert_validity_connected self st Hs n)).
  rewrite (bind_value _ _ _ _ _ (protocol_names_connected self st Hs n)).
  rewrite (bind_value _ _ _ _ _ (subworld_names_connected self st Hs (S n))).
  unfold bind, lift, the_session, ret.
  rewrite Hs.
  destruct (check_validity protocol _ _ _); [reflexivity|].
  destruct (check_validity groups _ _ _); [reflexivity|].
  destruct (check_validity subworld _ _ _); [reflexivity|].
  destruct (check_validity gender _ _ _); reflexivity.
Qed.

(** The loop of [__check_validity__] stops on the first value that is not
    allowed. *)
Lemma check_each_find (ks : list string) (obj : string) (valid : pyvalue) :
  check_each ks obj valid =
  match find (fun k => negb (py_in k valid)) ks with
  | Some k => Some (RuntimeError (invalid_msg obj k valid))
  | None => None
  end.
Proof.
  induction ks as [|k r IH]; simpl; [reflexivity|].
  destruct (negb (py_in k valid)); [reflexivity | exact IH].
Qed.

(** [__check_validity__], by the first bad value of the selector. *)
Lemma check_validity_first_bad (l : pyvalue) (obj : string)
  (valid default : pyvalue) :
  check_validity l obj valid default =
  match first_bad_value l valid with
  | Some k => inl (RuntimeError (invalid_msg obj k valid))
  | None => inr (validated l default)
  end.
Proof.
  rewrite check_validity_spec. unfold first_bad_value, validated.
  destruct (py_truth l); [|reflexivity].
  rewrite check_each_find.
  destruct (find (fun k => negb (py_in k valid)) (checked_items l));
    reflexivity.
Qed.

(** The first bad value is bad, and the values before it are allowed. *)
Lemma first_bad_value_spec (l valid : pyvalue) (k : string) :
  first_bad_value l valid = Some k ->
  py_truth l = true /\
  exists pre post,
    checked_items l = (pre ++ k :: post)%list /\
    (forall x, In x pre -> py_in x valid = true) /\
    py_in k valid = false.
Proof.
  unfold first_bad_value. destruct (py_truth l); [|discriminate].
  intros H. split; [reflexivity|].
  induction (checked_items l) as [|x r IH]; simpl in H; [discriminate|].
  destruct (py_in x valid) eqn:E; simpl in H.
  - destruct (IH H) as [pre [post [-> [Hpre Hk]]]].
    exists (x :: pre), post. split; [reflexivity|]. split; [|assumption].
    intros y [<-|Hy]; [assumption | now apply Hpre].
  - injection H as <-. exists [], r. split; [reflexivity|].
    split; [intros y [] | assumption].
Qed.

Lemma first_bad_value_None (l valid : pyvalue) :
  first_bad_value l valid = None <-> py_valid l valid = true.
Proof.
  unfold first_bad_value, py_valid. destruct (py_truth l); simpl; [|tauto].
  induction (checked_items l) as [|x r IH]; simpl; [tauto|].
  destruct (py_in x valid); simpl; [exact IH|]. split; discriminate.
Qed.

Lemma first_rejection_None (selectors : list selector) :
  first_rejection selectors = None <-> all_valid selectors = true.
Proof.
  induction selectors as [|[[l obj] valid] rest IH]; simpl; [tauto|].
  destruct (first_bad_value l valid) as [k|] eqn:E.
  - assert (Hv : py_valid l valid = false).
    { destruct (py_valid l valid) eqn:V; [|reflexivity].
      apply first_bad_value_None in V. congruence. }
    rewrite Hv. simpl. split; discriminate.
  - apply first_bad_value_None in E. rewrite E. simpl. exact IH.
Qed.

(** X3.  Selectors that do not all pass validation stop [clients],
    [tmodels], [tobjects] and [objects] on one [RuntimeError]: the one for
    the first selector, in the order of validation, that has a value not
    allowed, and for the first such value of it.  The two queries for the
    registered protocol and subworld names have been sent by then, and
    the query that selects never is. *)
Theorem invalid_selector_stops_before_selection (self : Database) (st : Store)
  (protocol purposes groups classes subworld gender tmodel_ids : pyvalue)
  (model_ids : model_ids_value) (n : nat) :
  session self = Some st ->
  (forall e,
     first_rejection (clients_selectors st protocol groups subworld gender)
       = Some e ->
     clients self protocol groups subworld gender n = (inl e, S (S n))) /\
  (forall e,
     first_rejection (tnorm_selectors st protocol groups subworld gender)
       = Some e ->
     tmodels self protocol groups subworld gender n = (inl e, S (S n)) /\
     tobjects self protocol tmodel_ids groups subworld gender n
       = (inl e, S (S n))) /\
  (forall e,
     first_rejection
       (objects_selectors st protocol purposes groups classes subworld gender)
       = Some e ->
     objects self protocol purposes model_ids groups classes subworld gender n
       = (inl e, S (S n))) /\
  (forall selectors,
     all_valid selectors = false ->
     exists before l obj valid after k,
       selectors = (before ++ (l, obj, valid) :: after)%list /\
       all_valid before = true /\
       first_bad_value l valid = Some k /\
       py_in k valid = false /\
       first_rejection selectors
         = Some (RuntimeError (invalid_msg obj k valid))).
Proof.
  intros Hs. split; [|split; [|split]].
  - intros e. rewrite (clients_connected _ st) by assumption.
    unfold bind, lift, clients_selectors. simpl first_rejection.
    rewrite !check_validity_first_bad.
    destruct (first_bad_value protocol _);
      [intros H; injection H as <-; reflexivity|].
    destruct (first_bad_value groups _);
      [intros H; injection H as <-; reflexivity|].
    destruct (first_bad_value subworld _);
      [intros H; injection H as <-; reflexivity|].
    destruct (first_bad_value gender _);
      [intros H; injection H as <-; reflexivity | discriminate].
  - intros e. rewrite (tmodels_connected _ st) by assumption.
    rewrite (tobjects_connected _ st) by assumption.
    unfold bind, lift, tnorm_selectors. simpl first_rejection.
    rewrite !check_validity_first_bad.
    destruct (first_bad_value protocol _);
      [intros H; injection H as <-; split; reflexivity|].
    destruct (first_bad_value groups _);
      [intros H; injection H as <-; split; reflexivity|].
    destruct (first_bad_value subworld _);
      [intros H; injection H as <-; split; reflexivity|].
    destruct (first_bad_value gender _);
      [intros H; injection H as <-; split; reflexivity | discriminate].
  - intros e. rewrite (objects_connected _ st) by assumption.
    unfold bind, lift, objects_selectors. simpl first_rejection.
    rewrite !check_validity_first_bad.
    destruct (first_bad_value protocol _);
      [intros H; injection H as <-; reflexivity|].
    destruct (first_bad_value purposes _);
      [intros H; injection H as <-; reflexivity|].
    destruct (first_bad_value groups _);
      [intros H; injection H as <-; reflexivity|].
    destruct (first_bad_value classes _);
      [intros H; injection H as <-; reflexivity|].
    destruct (first_bad_value subworld _);
      [intros H; injection H as <-; reflexivity|].
    destruct (first_bad_value gender _);
      [intros H; injection H as <-; reflexivity | discriminate].
  - intros selectors.
    induction selectors as [|[[l obj] valid] rest IH]; simpl;
      [discriminate|].
    destruct (first_bad_value l valid) as [k|] eqn:E.
    + intros _. exists [], l, obj, valid, rest, k.
      split; [reflexivity|]. split; [reflexivity|]. split; [assumption|].
      split; [|reflexivity].
      apply first_bad_value_spec in E.
      destruct E as [_ [pre [post [_ [_ Hk]]]]]. exact Hk.
    + apply first_bad_value_None in E. rewrite E. simpl. intros H.
      destruct (IH H)
        as [before [l' [obj' [valid' [after [k [-> [Hb [Hf [Hk Hr]]]]]]]]]].
      exists ((l, obj, valid) :: before), l', obj', valid', after, k.
      split; [reflexivity|]. split; [simpl; now rewrite E|]. tauto.
Qed.

(** With the groups [("dev", "test", "all")] and the gender [both] it is the
    group [test] that the message of [objects] is about. *)
Lemma invalid_selector_stops_before_selection_witness :
  session Example.db = Some Example.store /\
  first_rejection
    (objects_selectors Example.store PyNone PyNone
       (PyTuple ["dev"; "test"; "all"]) PyNone PyNone (PyStr "both"))
    = Some (RuntimeError
              (invalid_msg "group" "test" (PyTuple ["dev"; "eval"; "world"]))) /\
  objects Example.db PyNone PyNone NoModelIds (PyTuple ["dev"; "test"; "all"])
          PyNone PyNone (PyStr "both") 0%nat
    = (inl (RuntimeError
              (invalid_msg "group" "test" (PyTuple ["dev"; "eval"; "world"]))),
       2%nat) /\
  clients Example.db PyNone PyNone PyNone (PyStr "both") 0%nat
    = (inl (RuntimeError (invalid_msg "gender" "both" gender_choices)), 2%nat).
Proof.
  destruct (invalid_selector_stops_before_selection Example.db Example.store
              PyNone PyNone (PyTuple ["dev"; "test"; "all"]) PyNone PyNone
              (PyStr "both") PyNone NoModelIds 0%nat eq_refl) as [_ [_ [Ho _]]].
  destruct (invalid_selector_stops_before_selection Example.db Example.store
              PyNone PyNone PyNone PyNone PyNone (PyStr "both") PyNone
              NoModelIds 0%nat eq_refl) as [Hc _].
  split; [reflexivity|]. split; [reflexivity|]. split.
  - apply Ho. reflexivity.
  - apply Hc. reflexivity.
Defined.

(* ===================================================================== *)
(** ** T-norm and Z-norm clients *)
(* ===================================================================== *)

Lemma norm_clients_run (self : Database) (st : Store)
  (protocol groups subworld gender : pyvalue) (n : nat) :
  session self = Some st ->
  py_valid protocol (protocol_names_of st) = true ->
  py_valid groups (PyTuple ["dev"; "eval"]) = true ->
  py_valid subworld (subworld_names_of st) = true ->
  py_valid gender gender_choices = true ->
  let l := clients_query st (validated protocol (PyStr "")) (PyTuple ["world"])
             (validated subworld (PyStr "")) (validated gender (PyStr "")) in
  tclients self protocol groups subworld gender n = (inr l, (n + 5)%nat) /\
  zclients self protocol groups subworld gender n = (inr l, (n + 3)%nat).
Proof.
  intros Hs H1 H2 H3 H4 l.
  pose proof (check_validity_valid _ "protocol" _ (PyStr "") H1) as E1.
  pose proof (check_validity_valid _ "group" _ (PyStr "") H2) as E2.
  pose proof (check_validity_valid _ "subworld" _ (PyStr "") H3) as E3.
  pose proof (check_validity_valid _ "gender" _ (PyStr "") H4) as E4.
  split.
  - rewrite (tclients_connected _ st) by assumption. unfold bind, lift.
    rewrite E1, E2, E3, E4.
    rewrite (clients_connected _ st) by assumption. unfold bind, lift.
    rewrite (check_validity_idem _ _ "protocol" _ _ E1),
      (check_validity_idem _ _ "subworld" _ _ E3),
      (check_validity_idem _ _ "gender" _ _ E4).
    rewrite (check_validity_spec (PyStr "world")). simpl.
    unfold fetch. replace (n + 5)%nat with (S (S (S (S (S n))))) by lia.
    reflexivity.
  - rewrite (zclients_connected _ st) by assumption. unfold bind, lift.
    rewrite E2.
    rewrite (clients_connected _ st) by assumption. unfold bind, lift.
    rewrite E1, E3, E4.
    rewrite (check_validity_spec (PyStr "world")). simpl.
    unfold fetch. replace (n + 3)%nat with (S (S (S n))) by lia.
    reflexivity.
Qed.

Lemma norm_clients_inr_valid (self : Database) (st : Store)
  (protocol groups subworld gender : pyvalue) (n n' : nat) (l : list Client.t) :
  session self = Some st ->
  tclients self protocol groups subworld gender n = (inr l, n') \/
  zclients self protocol groups subworld gender n = (inr l, n') ->
  py_valid protocol (protocol_names_of st) = true /\
  py_valid groups (PyTuple ["dev"; "eval"]) = true /\
  py_valid subworld (subworld_names_of st) = true /\
  py_valid gender gender_choices = true.
Proof.
  intros Hs [H|H]; revert H.
  - rewrite (tclients_connected _ st) by assumption. unfold bind, lift.
    destruct (check_validity protocol _ _ _) eqn:E1; [discriminate|].
    destruct (check_validity groups _ _ _) eqn:E2; [discriminate|].
    destruct (check_validity subworld _ _ _) eqn:E3; [discriminate|].
    destruct (check_validity gender _ _ _) eqn:E4; [discriminate|].
    intros _. apply check_validity_inr_valid in E1, E2, E3, E4. tauto.
  - rewrite (zclients_connected _ st) by assumption. unfold bind, lift.
    destruct (check_validity groups _ _ _) eqn:E2; [discriminate|].
    rewrite (clients_connected _ st) by assumption. unfold bind, lift.
    destruct (check_validity protocol _ _ _) eqn:E1; [discriminate|].
    destruct (check_validity (PyStr "world") _ _ _); [discriminate|].
    destruct (check_validity subworld _ _ _) eqn:E3; [discriminate|].
    destruct (check_validity gender _ _ _) eqn:E4; [discriminate|].
    intros _. apply check_validity_inr_valid in E1, E2, E3, E4. tauto.
Qed.

(** X4.  [tclients] and [zclients] return the same list of clients: one
    returns a list exactly when the other returns it.  A call of [tclients]
    that returns has sent five queries, one of [zclients] three. *)
Theorem tnorm_and_znorm_clients_agree (self : Database) (st : Store)
  (protocol groups subworld gender : pyvalue) (n : nat) (l : list Client.t) :
  session self = Some st ->
  ((exists n', tclients self protocol groups subworld gender n = (inr l, n'))
   <->
   (exists n', zclients self protocol groups subworld gender n = (inr l, n'))) /\
  (forall n', tclients self protocol groups subworld gender n = (inr l, n') ->
              n' = (n + 5)%nat) /\
  (forall n', zclients self protocol groups subworld gender n = (inr l, n') ->
              n' = (n + 3)%nat).
Proof.
  intros Hs.
  assert (Ht : forall n',
            tclients self protocol groups subworld gender n = (inr l, n') ->
            n' = (n + 5)%nat /\
            zclients self protocol groups subworld gender n
              = (inr l, (n + 3)%nat)).
  { intros n' H.
    destruct (norm_clients_inr_valid self st protocol groups subworld gender
                n n' l Hs (or_introl H)) as [H1 [H2 [H3 H4]]].
    destruct (norm_clients_run self st protocol groups subworld gender n
                Hs H1 H2 H3 H4) as [Et Ez].
    rewrite Et in H. injection H as <- <-. now split. }
  assert (Hz : forall n',
            zclients self protocol groups subworld gender n = (inr l, n') ->
            n' = (n + 3)%nat /\
            tclients self protocol groups subworld gender n
              = (inr l, (n + 5)%nat)).
  { intros n' H.
    destruct (norm_clients_inr_valid self st protocol groups subworld gender
                n n' l Hs (or_intror H)) as [H1 [H2 [H3 H4]]].
    destruct (norm_clients_run self st protocol groups subworld gender n
                Hs H1 H2 H3 H4) as [Et Ez].
    rewrite Ez in H. injection H as <- <-. now split. }
  split; [split|split].
  - intros [n' H]. exists (n + 3)%nat. now apply (Ht n').
  - intros [n' H]. exists (n + 5)%nat. now apply (Hz n').
  - intros n' H. now apply Ht.
  - intros n' H. now apply Hz.
Qed.

Lemma tnorm_and_znorm_clients_agree_witness :
  session Example.db = Some Example.store /\
  tclients Example.db (PyStr "male") (PyStr "dev") (PyStr "twothirds") PyNone
           0%nat = (inr [Example.c1], 5%nat) /\
  (exists n', zclients Example.db (PyStr "male") (PyStr "dev")
                (PyStr "twothirds") PyNone 0%nat = (inr [Example.c1], n')).
Proof.
  destruct (tnorm_and_znorm_clients_agree Example.db Example.store
              (PyStr "male") (PyStr "dev") (PyStr "twothirds") PyNone 0%nat
              [Example.c1] eq_refl) as [[Htz _] _].
  split; [reflexivity|]. split; [reflexivity|].
  apply Htz. exists 5%nat. reflexivity.
Defined.

(* ===================================================================== *)
(** ** What the branches of [objects] select *)
(* ===================================================================== *)

Lemma File_client_In (st : Store) (f : File.t) (c : Client.t) :
  In f (t_file st) -> In c (File_client st f) -> File_client_row st f c.
Proof.
  unfold File_client, File_client_row. intros Hf Hc.
  apply filter_In in Hc. destruct Hc as [Hc E]. apply Z.eqb_eq in E. tauto.
Qed.

(** The rows of the join File, Client, ProtocolPurpose, Protocol. *)
Lemma trial_query_In (st : Store) (protocol groups : pyvalue)
  (purpose : string) (r : trial_row) :
  In r (trial_query st protocol groups purpose) ->
  File_client_row st (row_File r) (row_Client r) /\
  File_in_purpose st (row_File r) protocol groups purpose.
Proof.
  unfold trial_query. cbv zeta. intros H. apply filter_In in H.
  destruct H as [H Hf]. destruct r as [[[f c] pp] p].
  apply join_In in H. destruct H as [H Hp].
  apply join_In in H. destruct H as [H Hpp].
  apply join_In in H. destruct H as [H Hc].
  unfold row_File, row_Client, row_ProtocolPurpose, row_Protocol in *.
  simpl in *.
  apply andb_true_iff in Hf. destruct Hf as [Hf Hpu].
  apply andb_true_iff in Hf. destruct Hf as [Hn Hg].
  apply String.eqb_eq in Hpu.
  split; [now apply File_client_In|].
  exists pp, p. tauto.
Qed.

(** A clause of a query that is added under a condition. *)
Lemma In_if_filter {A} (b : bool) (p : A -> bool) (l : list A) (x : A) :
  In x (if b then filter p l else l) ->
  In x l /\ (b = true -> p x = true).
Proof.
  destruct b; intros H.
  - apply filter_In in H. tauto.
  - split; [assumption | discriminate].
Qed.

Lemma In_if_join_where {A B} (b : bool) (related : A -> list B)
  (p : B -> bool) (l : list A) (x : A) :
  In x (if b then join_where l related p else l) ->
  In x l /\ (b = true -> exists y, In y (related x) /\ p y = true).
Proof.
  destruct b; intros H.
  - apply join_where_In_iff in H. tauto.
  - split; [assumption | discriminate].
Qed.

Lemma nonempty_length {A} (l : list A) :
  l <> [] -> negb (Nat.eqb (List.length l) 0) = true.
Proof. destruct l; [congruence | reflexivity]. Qed.

Lemma objects_world_In (st : Store) (subworld gender : pyvalue)
  (model_ids : list Z) (f : File.t) :
  In f (objects_world st subworld gender model_ids) ->
  exists c,
    File_client_row st f c /\
    Client.sgroup c = "world" /\
    (py_truth subworld = true ->
     exists s, In s (File_subworld st f) /\
               in_ (Subworld.name s) subworld = true) /\
    (py_truth gender = true -> in_ (Client.gender c) gender = true) /\
    (model_ids <> [] -> In (File.client_id f) model_ids).
Proof.
  unfold objects_world. cbv zeta. intros H.
  apply (unique_list_In Z.eqb File.id Z.eqb_eq) in H.
  apply in_map_iff in H. destruct H as [[f' c] [E H]]. simpl in E. subst f'.
  apply order_by_In in H. exists c.
  apply In_if_filter in H. destruct H as [H Hids].
  apply In_if_filter in H. destruct H as [H Hge].
  apply In_if_join_where in H. destruct H as [H Hsw].
  apply filter_In in H. destruct H as [H Hw]. simpl in Hw, Hids, Hge, Hsw.
  apply String.eqb_eq in Hw. apply join_In in H. destruct H as [Hf Hc].
  split; [now apply File_client_In|].
  repeat split; try assumption.
  intros Hne. apply in_ids_In. apply Hids. now apply nonempty_length.
Qed.

(** The rows the enrol branch and the client branch of probe keep. *)
Lemma trial_filtered_In (st : Store) (protocol groups gender : pyvalue)
  (purpose : string) (model_ids : list Z) (f : File.t) :
  In f (map row_File
          (order_by (fun a b => File_leb (row_File a) (row_File b))
             (let q := trial_query st protocol groups purpose in
              let q := if py_truth gender
                       then filter (fun r => in_ (Client.gender (row_Client r))
                                                 gender) q
                       else q in
              if negb (Nat.eqb (List.length model_ids) 0)
              then filter (fun r => in_ids (Client.id (row_Client r)) model_ids) q
              else q))) ->
  exists c,
    File_client_row st f c /\
    File_in_purpose st f protocol groups purpose /\
    (py_truth gender = true -> in_ (Client.gender c) gender = true) /\
    (model_ids <> [] -> In (File.client_id f) model_ids).
Proof.
  cbv zeta. intros H.
  apply in_map_iff in H. destruct H as [r [<- H]].
  apply order_by_In in H. exists (row_Client r).
  apply In_if_filter in H. destruct H as [H Hids].
  apply In_if_filter in H. destruct H as [H Hge].
  apply trial_query_In in H. destruct H as [Hrow Hpp].
  repeat split; try assumption; try apply Hrow.
  intros Hne. destruct Hrow as [_ [_ <-]].
  apply in_ids_In. apply Hids. now apply nonempty_length.
Qed.

Lemma objects_enrol_In (st : Store) (protocol groups gender : pyvalue)
  (model_ids : list Z) (f : File.t) :
  In f (objects_enrol st protocol groups gender model_ids) ->
  exists c,
    File_client_row st f c /\
    File_in_purpose st f protocol groups "enrol" /\
    (py_truth gender = true -> in_ (Client.gender c) gender = true) /\
    (model_ids <> [] -> In (File.client_id f) model_ids).
Proof.
  unfold objects_enrol. cbv zeta. intros H.
  apply (unique_list_In Z.eqb File.id Z.eqb_eq) in H.
  now apply trial_filtered_In.
Qed.

Lemma objects_probe_client_In (st : Store) (protocol groups gender : pyvalue)
  (model_ids : list Z) (f : File.t) :
  In f (objects_probe_client st protocol groups gender model_ids) ->
  exists c,
    File_client_row st f c /\
    File_in_purpose st f protocol groups "probe" /\
    (py_truth gender = true -> in_ (Client.gender c) gender = true) /\
    (model_ids <> [] -> In (File.client_id f) model_ids).
Proof.
  unfold objects_probe_client. cbv zeta. intros H.
  apply (unique_list_In Z.eqb File.id Z.eqb_eq) in H.
  now apply trial_filtered_In.
Qed.

Lemma objects_probe_impostor_In (st : Store) (protocol groups gender : pyvalue)
  (model_ids : list Z) (f : File.t) :
  In f (objects_probe_impostor st protocol groups gender model_ids) ->
  exists c,
    File_client_row st f c /\
    File_in_purpose st f protocol groups "probe" /\
    (py_truth gender = true -> in_ (Client.gender c) gender = true).
Proof.
  unfold objects_probe_impostor. cbv zeta. intros H.
  apply (unique_list_In Z.eqb File.id Z.eqb_eq) in H.
  apply in_map_iff in H. destruct H as [r [<- H]].
  apply order_by_In in H. exists (row_Client r).
  apply In_if_filter in H. destruct H as [H _].
  apply In_if_filter in H. destruct H as [H Hge].
  apply trial_query_In in H. destruct H as [Hrow Hpp].
  repeat split; try assumption; apply Hrow.
Qed.

(** Where a File of [retval] comes from. *)
Lemma objects_retval_In (st : Store) (protocol purposes : pyvalue)
  (model_ids : list Z) (groups classes subworld gender : pyvalue) (f : File.t) :
  In f (objects_retval st protocol purposes model_ids groups classes subworld
                       gender) ->
  exists c,
    File_client_row st f c /\
    (py_truth gender = true -> in_ (Client.gender c) gender = true) /\
    ((py_in "world" groups = true /\ Client.sgroup c = "world" /\
      (py_truth subworld = true ->
       exists s, In s (File_subworld st f) /\
                 in_ (Subworld.name s) subworld = true) /\
      (model_ids <> [] -> In (File.client_id f) model_ids)) \/
     (exists purpose,
        py_in purpose purposes = true /\
        File_in_purpose st f protocol groups purpose /\
        ((model_ids <> [] -> In (File.client_id f) model_ids) \/
         impostor_branch_runs purposes groups classes = true))).
Proof.
  unfold objects_retval, impostor_branch_runs. intros H.
  apply in_app_or in H. destruct H as [H|H].
  - destruct (py_in "world" groups) eqn:Ew; [|contradiction].
    apply objects_world_In in H.
    destruct H as [c [Hrow [Hw [Hsw [Hge Hids]]]]].
    exists c. split; [assumption|]. split; [assumption|]. left. tauto.
  - destruct (py_in "dev" groups || py_in "eval" groups) eqn:Ed;
      [|contradiction].
    apply in_app_or in H. destruct H as [H|H].
    + destruct (py_in "enrol" purposes) eqn:Ee; [|contradiction].
      apply objects_enrol_In in H. destruct H as [c [Hrow [Hpp [Hge Hids]]]].
      exists c. split; [assumption|]. split; [assumption|].
      right. exists "enrol". tauto.
    + destruct (py_in "probe" purposes) eqn:Ep; [|contradiction].
      apply in_app_or in H. destruct H as [H|H].
      * destruct (py_in "client" classes); [|contradiction].
        apply objects_probe_client_In in H.
        destruct H as [c [Hrow [Hpp [Hge Hids]]]].
        exists c. split; [assumption|]. split; [assumption|].
        right. exists "probe". tauto.
      * destruct (py_in "impostor" classes) eqn:Ei; [|contradiction].
        apply objects_probe_impostor_In in H.
        destruct H as [c [Hrow [Hpp Hge]]].
        exists c. split; [assumption|]. split; [assumption|].
        right. exists "probe". simpl. tauto.
Qed.

(** What [objects] returns, on the validated selectors. *)
Lemma objects_result (self : Database) (st : Store)
  (protocol purposes : pyvalue) (model_ids : model_ids_value)
  (groups classes subworld gender : pyvalue) (n n' : nat) (l : list File.t) :
  session self = Some st ->
  objects self protocol purposes model_ids groups classes subworld gender n
    = (inr l, n') ->
  l = list_set
        (objects_retval st
           (validated protocol (protocol_names_of st))
           (validated purposes ProtocolPurpose.purpose_choices)
           (model_ids_list model_ids)
           (validated groups ProtocolPurpose.group_choices)
           (validated classes (PyTuple ["client"; "impostor"]))
           (validated subworld (PyStr "")) (validated gender (PyStr ""))) /\
  n' = (n + 2 + objects_queries
                  (validated purposes ProtocolPurpose.purpose_choices)
                  (validated groups ProtocolPurpose.group_choices)
                  (validated classes (PyTuple ["client"; "impostor"])))%nat.
Proof.
  intros Hs. rewrite (objects_connected _ st) by assumption.
  unfold bind, lift.
  destruct (check_validity protocol _ _ _) as [|p'] eqn:E1; [discriminate|].
  destruct (check_validity purposes _ _ _) as [|pu'] eqn:E2; [discriminate|].
  destruct (check_validity groups _ _ _) as [|g'] eqn:E3; [discriminate|].
  destruct (check_validity classes _ _ _) as [|c'] eqn:E4; [discriminate|].
  destruct (check_validity subworld _ _ _) as [|s'] eqn:E5; [discriminate|].
  destruct (check_validity gender _ _ _) as [|ge'] eqn:E6; [discriminate|].
  apply check_validity_validated in E1, E2, E3, E4, E5, E6. subst.
  rewrite objects_query_run. intros H. injection H as <- <-.
  split; [reflexivity | lia].
Qed.

(** X5.  Every File that [objects] returns is a File of the store whose
    client row exists; when a gender is given, the gender of that client
    is among the ones given, whichever branch found the File. *)
Theorem objects_files_have_selected_clients (self : Database) (st : Store)
  (protocol purposes : pyvalue) (model_ids : model_ids_value)
  (groups classes subworld gender : pyvalue) (n n' : nat) (l : list File.t) :
  session self = Some st ->
  objects self protocol purposes model_ids groups classes subworld gender n
    = (inr l, n') ->
  forall f, In f l ->
    exists c,
      File_client_row st f c /\
      (py_truth gender = true -> In (Client.gender c) (checked_items gender)).
Proof.
  intros Hs H f Hf.
  apply (objects_result _ st) in H; [|assumption]. destruct H as [-> _].
  apply (unique_list_In Z.eqb File.id Z.eqb_eq) in Hf.
  apply objects_retval_In in Hf. destruct Hf as [c [Hrow [Hge _]]].
  exists c. split; [assumption|]. intros Ht.
  apply (in_validated_true gender _ Ht). apply Hge.
  now rewrite py_truth_validated.
Qed.

Lemma objects_files_have_selected_clients_witness :
  session Example.db = Some Example.store /\
  objects Example.db PyNone PyNone NoModelIds PyNone PyNone PyNone
          (PyStr "female") 0%nat = (inr [Example.f2; Example.f6], 6%nat) /\
  (exists c, File_client_row Example.store Example.f6 c /\
             (py_truth (PyStr "female") = true ->
              In (Client.gender c) ["female"])).
Proof.
  split; [reflexivity|]. split; [reflexivity|].
  apply (objects_files_have_selected_clients Example.db Example.store PyNone
           PyNone NoModelIds PyNone PyNone PyNone (PyStr "female") 0%nat 6%nat
           [Example.f2; Example.f6] eq_refl eq_refl Example.f6).
  right. now left.
Defined.

(** X6.  A File that [objects] returns is a File of a world client, when
    world is among the groups, or is attached to a protocol purpose whose
    protocol, group and purpose are among the ones selected. *)
Theorem objects_files_match_selection (self : Database) (st : Store)
  (protocol purposes : pyvalue) (model_ids : model_ids_value)
  (groups classes subworld gender : pyvalue) (n n' : nat) (l : list File.t) :
  session self = Some st ->
  objects self protocol purposes model_ids groups classes subworld gender n
    = (inr l, n') ->
  forall f, In f l ->
    (py_in "world" (validated groups ProtocolPurpose.group_choices) = true /\
     exists c, File_client_row st f c /\ Client.sgroup c = "world") \/
    (exists purpose,
       py_in purpose (validated purposes ProtocolPurpose.purpose_choices)
         = true /\
       File_in_purpose st f (validated protocol (protocol_names_of st))
         (validated groups ProtocolPurpose.group_choices) purpose).
Proof.
  intros Hs H f Hf.
  apply (objects_result _ st) in H; [|assumption]. destruct H as [-> _].
  apply (unique_list_In Z.eqb File.id Z.eqb_eq) in Hf.
  apply objects_retval_In in Hf.
  destruct Hf as [c [Hrow [_ [[Hw [Hg _]]|[purpose [Hpu [Hpp _]]]]]]].
  - left. split; [assumption|]. now exists c.
  - right. now exists purpose.
Qed.

Lemma objects_files_match_selection_witness :
  session Example.db = Some Example.store /\
  objects Example.db (PyStr "male") (PyStr "probe") NoModelIds (PyStr "dev")
          PyNone PyNone PyNone 0%nat
    = (inr [Example.f4; Example.f5], 4%nat) /\
  (exists purpose,
     py_in purpose (PyTuple ["probe"]) = true /\
     File_in_purpose Example.store Example.f4 (PyTuple ["male"])
       (PyTuple ["dev"]) purpose).
Proof.
  split; [reflexivity|]. split; [reflexivity|].
  destruct (objects_files_match_selection Example.db Example.store
              (PyStr "male") (PyStr "probe") NoModelIds (PyStr "dev") PyNone
              PyNone PyNone 0%nat 4%nat [Example.f4; Example.f5] eq_refl
              eq_refl Example.f4 (or_introl eq_refl)) as [[Hw _]|H].
  - discriminate Hw.
  - exact H.
Defined.

(** X7.  Unless the impostor branch is taken, model ids that are given
    restrict the result of [objects] to Files of those clients: the world,
    enrol and client branches all filter on them. *)
Theorem objects_model_ids_restrict (self : Database) (st : Store)
  (protocol purposes : pyvalue) (model_ids : model_ids_value)
  (groups classes subworld gender : pyvalue) (n n' : nat) (l : list File.t) :
  session self = Some st ->
  model_ids_list model_ids <> [] ->
  impostor_branch_runs
    (validated purposes ProtocolPurpose.purpose_choices)
    (validated groups ProtocolPurpose.group_choices)
    (validated classes (PyTuple ["client"; "impostor"])) = false ->
  objects self protocol purposes model_ids groups classes subworld gender n
    = (inr l, n') ->
  forall f, In f l -> In (File.client_id f) (model_ids_list model_ids).
Proof.
  intros Hs Hne Himp H f Hf.
  apply (objects_result _ st) in H; [|assumption]. destruct H as [-> _].
  apply (unique_list_In Z.eqb File.id Z.eqb_eq) in Hf.
  apply objects_retval_In in Hf.
  destruct Hf as [c [_ [_ [[_ [_ [_ Hids]]]|[purpose [_ [_ [Hids|Hr]]]]]]]].
  - now apply Hids.
  - now apply Hids.
  - congruence.
Qed.

Lemma objects_model_ids_restrict_witness :
  session Example.db = Some Example.store /\
  model_ids_list (ModelIds [1; 3]) <> [] /\
  objects Example.db PyNone PyNone (ModelIds [1; 3]) PyNone (PyStr "client")
          PyNone PyNone 0%nat
    = (inr [Example.f1; Example.f3; Example.f4], 5%nat) /\
  In (File.client_id Example.f4) [1; 3].
Proof.
  split; [reflexivity|]. split; [discriminate|]. split; [reflexivity|].
  apply (objects_model_ids_restrict Example.db Example.store PyNone PyNone
           (ModelIds [1; 3]) PyNone (PyStr "client") PyNone PyNone 0%nat 5%nat
           [Example.f1; Example.f3; Example.f4] eq_refl).
  - discriminate.
  - reflexivity.
  - reflexivity.
  - right. right. now left.
Defined.

(* ===================================================================== *)
(** ** World files: [zobjects] and the world branch *)
(* ===================================================================== *)

Lemma zobjects_connected (self : Database) (st : Store) (protocol : pyvalue)
  (model_ids : model_ids_value) (groups subworld gender : pyvalue) (n : nat) :
  session self = Some st ->
  zobjects self protocol model_ids groups subworld gender n =
  (groups <- lift (check_validity groups "group" (PyTuple ["dev"; "eval"])
                                  (PyStr "")) ;;
   objects self protocol PyNone model_ids (PyStr "world") PyNone subworld
           gender) n.
Proof.
  intros Hs. unfold zobjects.
  rewrite (bind_value _ _ _ _ _ (assert_validity_connected self st Hs n)).
  reflexivity.
Qed.

(** The result of [objects] for the group world alone. *)
Lemma objects_world_only_result (self : Database) (st : Store)
  (protocol purposes : pyvalue) (model_ids : model_ids_value)
  (groups classes subworld gender : pyvalue) (n n' : nat) (l : list File.t) :
  session self = Some st ->
  checked_items groups = ["world"] ->
  objects self protocol purposes model_ids groups classes subworld gender n
    = (inr l, n') ->
  l = list_set (objects_world st (validated subworld (PyStr ""))
                  (validated gender (PyStr "")) (model_ids_list model_ids)) /\
  n' = (n + 3)%nat.
Proof.
  intros Hs Hw H.
  apply (objects_result _ st) in H; [|assumption]. destruct H as [-> ->].
  destruct (world_only_py_in groups Hw) as [Ht [Hin [Hd [He _]]]].
  assert (Hg : validated groups ProtocolPurpose.group_choices
               = as_sequence groups) by (unfold validated; now rewrite Ht).
  rewrite Hg. unfold objects_retval, objects_queries.
  rewrite Hin, Hd, He. simpl orb. cbv iota. rewrite app_nil_r.
  split; [reflexivity | lia].
Qed.

(** X8.  [zobjects] returns Files of clients of the group world only, of
    the clients named by the model ids when some are given, and sends
    three queries.  Its groups argument is checked against dev and eval:
    a value outside raises before any query, and a value that passes
    leaves the call the one of [objects] for the group world. *)
Theorem zobjects_are_world_files (self : Database) (st : Store)
  (protocol : pyvalue) (model_ids : model_ids_value)
  (groups subworld gender : pyvalue) (n : nat) :
  session self = Some st ->
  (forall l n',
     zobjects self protocol model_ids groups subworld gender n = (inr l, n') ->
     n' = (n + 3)%nat /\
     forall f, In f l ->
       exists c, File_client_row st f c /\ Client.sgroup c = "world" /\
                 (model_ids_list model_ids <> [] ->
                  In (File.client_id f) (model_ids_list model_ids))) /\
  (py_valid groups (PyTuple ["dev"; "eval"]) = false ->
   exists e, zobjects self protocol model_ids groups subworld gender n
             = (inl e, n)) /\
  (py_valid groups (PyTuple ["dev"; "eval"]) = true ->
   zobjects self protocol model_ids groups subworld gender n =
   objects self protocol PyNone model_ids (PyStr "world") PyNone subworld
           gender n).
Proof.
  intros Hs. rewrite (zobjects_connected _ st) by assumption.
  unfold bind, lift. split; [|split].
  - intros l n'.
    destruct (check_validity groups _ _ _); [discriminate|]. intros H.
    apply (objects_world_only_result _ st) in H; [|assumption|reflexivity].
    destruct H as [-> ->]. split; [reflexivity|]. intros f Hf.
    apply (unique_list_In Z.eqb File.id Z.eqb_eq) in Hf.
    apply objects_world_In in Hf.
    destruct Hf as [c [Hrow [Hw [_ [_ Hids]]]]]. exists c. tauto.
  - intros H.
    destruct (check_validity_invalid groups "group" _ (PyStr "") H) as [e ->].
    now exists e.
  - intros H. now rewrite (check_validity_valid _ "group" _ (PyStr "") H).
Qed.

Lemma zobjects_are_world_files_witness :
  session Example.db = Some Example.store /\
  zobjects Example.db PyNone (ModelId 2) (PyStr "dev") (PyStr "twothirds")
           PyNone 0%nat = (inr [Example.f2], 3%nat) /\
  (exists c, File_client_row Example.store Example.f2 c /\
             Client.sgroup c = "world" /\
             (model_ids_list (ModelId 2) <> [] ->
              In (File.client_id Example.f2) (model_ids_list (ModelId 2)))) /\
  (exists e, zobjects Example.db PyNone (ModelId 2) (PyStr "world")
               (PyStr "twothirds") PyNone 0%nat = (inl e, 0%nat)).
Proof.
  destruct (zobjects_are_world_files Example.db Example.store PyNone (ModelId 2)
              (PyStr "dev") (PyStr "twothirds") PyNone 0%nat eq_refl)
    as [Hok _].
  destruct (zobjects_are_world_files Example.db Example.store PyNone (ModelId 2)
              (PyStr "world") (PyStr "twothirds") PyNone 0%nat eq_refl)
    as [_ [Hbad _]].
  split; [reflexivity|]. split; [reflexivity|]. split.
  - destruct (Hok [Example.f2] 3%nat eq_refl) as [_ Hf].
    apply Hf. now left.
  - apply Hbad. reflexivity.
Defined.

(** X9.  For the group world alone the selectors protocol, purposes and
    classes, once they pass validation, play no part in [objects]: any two
    allowed values of each give the same outcome. *)
Theorem objects_world_ignores_trial_selectors (self : Database) (st : Store)
  (protocol protocol' purposes purposes' classes classes' : pyvalue)
  (model_ids : model_ids_value) (groups subworld gender : pyvalue) (n : nat) :
  session self = Some st ->
  checked_items groups = ["world"] ->
  py_valid protocol (protocol_names_of st) = true ->
  py_valid protocol' (protocol_names_of st) = true ->
  py_valid purposes ProtocolPurpose.purpose_choices = true ->
  py_valid purposes' ProtocolPurpose.purpose_choices = true ->
  py_valid classes (PyTuple ["client"; "impostor"]) = true ->
  py_valid classes' (PyTuple ["client"; "impostor"]) = true ->
  objects self protocol purposes model_ids groups classes subworld gender n =
  objects self protocol' purposes' model_ids groups classes' subworld gender n.
Proof.
  intros Hs Hw H1 H1' H2 H2' H4 H4'.
  destruct (world_only_py_in groups Hw) as [Ht [Hin [Hd [He Hv]]]].
  rewrite !(objects_connected _ st) by assumption. unfold bind, lift.
  rewrite (check_validity_valid _ "protocol" _ _ H1),
    (check_validity_valid _ "protocol" _ _ H1'),
    (check_validity_valid _ "purpose" _ _ H2),
    (check_validity_valid _ "purpose" _ _ H2'),
    (check_validity_valid _ "group" _ _ Hv),
    (check_validity_valid _ "class" _ _ H4),
    (check_validity_valid _ "class" _ _ H4').
  rewrite Ht.
  destruct (check_validity subworld _ _ _); [reflexivity|].
  destruct (check_validity gender _ _ _); [reflexivity|].
  rewrite !objects_query_run.
  unfold objects_retval, objects_queries. rewrite Hin, Hd, He. reflexivity.
Qed.

Lemma objects_world_ignores_trial_selectors_witness :
  session Example.db = Some Example.store /\
  objects Example.db (PyStr "male") (PyStr "enrol") NoModelIds (PyStr "world")
          (PyStr "client") PyNone PyNone 0%nat
  = objects Example.db (PyStr "female") PyNone NoModelIds (PyStr "world")
            (PyStr "impostor") PyNone PyNone 0%nat /\
  objects Example.db (PyStr "male") (PyStr "enrol") NoModelIds (PyStr "world")
          (PyStr "client") PyNone PyNone 0%nat
  = (inr [Example.f1; Example.f2], 3%nat).
Proof.
  split; [reflexivity|]. split; [|reflexivity].
  apply (objects_world_ignores_trial_selectors Example.db Example.store
           (PyStr "male") (PyStr "female") (PyStr "enrol") PyNone
           (PyStr "client") (PyStr "impostor") NoModelIds (PyStr "world")
           PyNone PyNone 0%nat); reflexivity.
Defined.

(* ===================================================================== *)
(** ** An omitted selector of [objects] *)
(* ===================================================================== *)

Lemma str_in_self (l : list string) :
  forallb (fun k => str_in k l) l = true.
Proof.
  apply forallb_forall. intros k Hk. now apply str_in_In.
Qed.

(** The allowed values, given as the selector, validate to themselves, as
    does [None]. *)
Lemma check_validity_every_value (obj : string) (valid : pyvalue) :
  is_tuple_or_list valid = true ->
  check_validity valid obj valid valid = inr valid /\
  check_validity PyNone obj valid valid = inr valid.
Proof.
  intros Hseq. rewrite !check_validity_spec. split; [|reflexivity].
  destruct (py_truth valid) eqn:Et; [|reflexivity].
  assert (E : check_each (checked_items valid) obj valid = None).
  { apply check_each_None.
    destruct valid; try discriminate; simpl; apply str_in_self. }
  rewrite E. destruct valid; try discriminate; reflexivity.
Qed.

(** X10.  In [objects] an omitted protocol, purposes, groups or classes
    selector stands for every allowed value: the call is the one made with
    the whole list of registered protocols, of purposes, of groups or of
    classes given in its place. *)
Theorem objects_none_is_every_value (self : Database) (st : Store)
  (protocol purposes : pyvalue) (model_ids : model_ids_value)
  (groups classes subworld gender : pyvalue) (n : nat) :
  session self = Some st ->
  objects self PyNone purposes model_ids groups classes subworld gender n =
  objects self (protocol_names_of st) purposes model_ids groups classes
          subworld gender n /\
  objects self protocol PyNone model_ids groups classes subworld gender n =
  objects self protocol ProtocolPurpose.purpose_choices model_ids groups
          classes subworld gender n /\
  objects self protocol purposes model_ids PyNone classes subworld gender n =
  objects self protocol purposes model_ids ProtocolPurpose.group_choices
          classes subworld gender n /\
  objects self protocol purposes model_ids groups PyNone subworld gender n =
  objects self protocol purposes model_ids groups
          (PyTuple ["client"; "impostor"]) subworld gender n.
Proof.
  intros Hs. rewrite !(objects_connected _ st) by assumption.
  unfold bind, lift.
  destruct (check_validity_every_value "protocol" (protocol_names_of st)
              eq_refl) as [Ep Ep'].
  destruct (check_validity_every_value "purpose"
              ProtocolPurpose.purpose_choices eq_refl) as [Eu Eu'].
  destruct (check_validity_every_value "group" ProtocolPurpose.group_choices
              eq_refl) as [Eg Eg'].
  destruct (check_validity_every_value "class" (PyTuple ["client"; "impostor"])
              eq_refl) as [Ec Ec'].
  rewrite Ep, Ep', Eu, Eu', Eg, Eg', Ec, Ec'.
  repeat split; reflexivity.
Qed.

Lemma objects_none_is_every_value_witness :
  session Example.db = Some Example.store /\
  objects Example.db PyNone PyNone NoModelIds PyNone PyNone PyNone PyNone 0%nat
  = objects Example.db (PyList ["male"; "female"]) PyNone NoModelIds PyNone
            PyNone PyNone PyNone 0%nat /\
  objects Example.db PyNone PyNone NoModelIds PyNone PyNone PyNone PyNone 0%nat
  = objects Example.db PyNone PyNone NoModelIds
            (PyTuple ["dev"; "eval"; "world"]) PyNone PyNone PyNone 0%nat.
Proof.
  destruct (objects_none_is_every_value Example.db Example.store PyNone PyNone
              NoModelIds PyNone PyNone PyNone PyNone 0%nat eq_refl)
    as [Hp [_ [Hg _]]].
  split; [reflexivity|]. split; [exact Hp | exact Hg].
Defined.

(* ===================================================================== *)
(** ** Files of T-norm models: [tobjects] *)
(* ===================================================================== *)

Lemma tobjects_result (self : Database) (st : Store)
  (protocol model_ids groups subworld gender : pyvalue) (n n' : nat)
  (l : list File.t) :
  session self = Some st ->
  tobjects self protocol model_ids groups subworld gender n = (inr l, n') ->
  l = tobjects_rows st (tobjects_model_ids model_ids)
        (validated subworld (PyStr "")) (validated gender (PyStr "")) /\
  n' = (n + 3)%nat.
Proof.
  intros Hs. rewrite (tobjects_connected _ st) by assumption.
  unfold bind, lift.
  destruct (check_validity protocol _ _ _) as [|p'] eqn:E1; [discriminate|].
  destruct (check_validity groups _ _ _) as [|g'] eqn:E2; [discriminate|].
  destruct (check_validity subworld _ _ _) as [|s'] eqn:E3; [discriminate|].
  destruct (check_validity gender _ _ _) as [|ge'] eqn:E4; [discriminate|].
  apply check_validity_validated in E3, E4. subst.
  unfold fetch. intros H. injection H as <- <-.
  split; [reflexivity | lia].
Qed.

(** X11.  Every File that [tobjects] returns is attached to a T-norm model
    of the store that meets the selection: its id is among the model ids
    when some are given, and when a gender is given the client of the
    model, which need not be the client of the File, exists and is of one
    of the genders given.  The File belongs to one of the given subworlds
    when some are given.  A call that returns has sent three queries. *)
Theorem tobjects_files_of_tmodels (self : Database) (st : Store)
  (protocol model_ids groups subworld gender : pyvalue) (n n' : nat)
  (l : list File.t) :
  session self = Some st ->
  tobjects self protocol model_ids groups subworld gender n = (inr l, n') ->
  n' = (n + 3)%nat /\
  forall f, In f l ->
    exists m,
      File_of_tmodel st f m /\
      (py_truth (tobjects_model_ids model_ids) = true ->
       In (TModel.id m) (py_items (tobjects_model_ids model_ids))) /\
      (py_truth subworld = true ->
       exists s, In s (File_subworld st f) /\
                 In (Subworld.name s) (checked_items subworld)) /\
      (py_truth gender = true ->
       exists c, In c (t_client st) /\
                 Client.id c = TModel.client_id m /\
                 In (Client.gender c) (checked_items gender)).
Proof.
  intros Hs H. apply (tobjects_result _ st) in H; [|assumption].
  destruct H as [-> ->]. split; [reflexivity|]. intros f Hf.
  unfold tobjects_rows in Hf. cbv zeta in Hf.
  apply (unique_list_In Z.eqb File.id Z.eqb_eq) in Hf.
  apply in_map_iff in Hf. destruct Hf as [[f' m] [E H]]. simpl in E. subst f'.
  apply order_by_In in H.
  apply In_if_join_where in H. destruct H as [H Hge].
  apply In_if_filter in H. destruct H as [H Hids].
  apply join_In in H. destruct H as [H Hm].
  apply In_if_join_where in H. destruct H as [Hf Hsw].
  simpl in Hge, Hids.
  exists m. split; [now split|]. split; [|split].
  - intros Ht. apply str_in_In. now apply Hids.
  - intros Ht. rewrite py_truth_validated in Hsw.
    destruct (Hsw Ht) as [s [Hs1 Hs2]]. exists s. split; [assumption|].
    now apply (in_validated_true subworld _ Ht).
  - intros Ht. rewrite py_truth_validated in Hge.
    destruct (Hge Ht) as [c [Hc1 Hc2]]. exists c.
    unfold TModel_client in Hc1. apply filter_In in Hc1.
    destruct Hc1 as [Hc1 Hid]. apply Z.eqb_eq in Hid.
    split; [assumption|]. split; [assumption|].
    now apply (in_validated_true gender _ Ht).
Qed.

(** File 1 of the male client 1 is returned for the model [t002] of the
    female client 2 and the gender female, and not for the gender male. *)
Lemma tobjects_files_of_tmodels_witness :
  session Example.tnorm_db = Some Example.tnorm_store /\
  tobjects Example.tnorm_db PyNone (PyStr "t002") PyNone (PyStr "onethird")
           (PyStr "female") 0%nat = (inr [Example.f1], 3%nat) /\
  tobjects Example.tnorm_db PyNone (PyStr "t002") PyNone (PyStr "onethird")
           (PyStr "male") 0%nat = (inr [], 3%nat) /\
  (exists m, File_of_tmodel Example.tnorm_store Example.f1 m /\
             In (TModel.id m) ["t002"] /\
             exists c, In c (t_client Example.tnorm_store) /\
                       Client.id c = TModel.client_id m /\
                       In (Client.gender c) ["female"]).
Proof.
  split; [reflexivity|]. split; [reflexivity|]. split; [reflexivity|].
  destruct (tobjects_files_of_tmodels Example.tnorm_db Example.tnorm_store
              PyNone (PyStr "t002") PyNone (PyStr "onethird") (PyStr "female")
              0%nat 3%nat [Example.f1] eq_refl eq_refl) as [_ H].
  destruct (H Example.f1 (or_introl eq_refl)) as [m [Hm [Hid [_ Hge]]]].
  exists m. split; [assumption|]. split; [now apply Hid | now apply Hge].
Defined.

(** X12.  In [tobjects] a model id given as one string is handled as the
    tuple holding it, and the protocol and groups selectors, once they pass
    validation, play no part: any two allowed values give the same
    outcome. *)
Theorem tobjects_unused_selectors (self : Database) (st : Store)
  (protocol protocol' model_ids groups groups' subworld gender : pyvalue)
  (n : nat) :
  session self = Some st ->
  py_valid protocol (protocol_names_of st) = true ->
  py_valid protocol' (protocol_names_of st) = true ->
  py_valid groups (PyTuple ["dev"; "eval"]) = true ->
  py_valid groups' (PyTuple ["dev"; "eval"]) = true ->
  tobjects self protocol model_ids groups subworld gender n =
  tobjects self protocol' model_ids groups' subworld gender n /\
  (forall s,
     tobjects self protocol (PyStr s) groups subworld gender n =
     tobjects self protocol (PyTuple [s]) groups subworld gender n).
Proof.
  intros Hs H1 H1' H2 H2'. split.
  - rewrite !(tobjects_connected _ st) by assumption. unfold bind, lift.
    rewrite (check_validity_valid _ "protocol" _ _ H1),
      (check_validity_valid _ "protocol" _ _ H1'),
      (check_validity_valid _ "group" _ _ H2),
      (check_validity_valid _ "group" _ _ H2').
    reflexivity.
  - intros s. reflexivity.
Qed.

Lemma tobjects_unused_selectors_witness :
  session Example.db = Some Example.store /\
  tobjects Example.db (PyStr "male") (PyStr "t001") (PyStr "dev")
           (PyStr "onethird") PyNone 0%nat
  = tobjects Example.db PyNone (PyStr "t001") (PyList ["eval"; "dev"])
             (PyStr "onethird") PyNone 0%nat /\
  tobjects Example.db (PyStr "male") (PyStr "t001") (PyStr "dev")
           (PyStr "onethird") PyNone 0%nat = (inr [Example.f1], 3%nat).
Proof.
  split; [reflexivity|]. split; [|reflexivity].
  apply (tobjects_unused_selectors Example.db Example.store (PyStr "male")
           PyNone (PyStr "t001") (PyStr "dev") (PyList ["eval"; "dev"])
           (PyStr "onethird") PyNone 0%nat); reflexivity.
Defined.

(* ===================================================================== *)
(** ** Lookups by key *)
(* ===================================================================== *)

Section KeyFacts.
Context {A K : Type}.
Variable keq : K -> K -> bool.
Variable key : A -> K.
Hypothesis keq_spec : forall a b, keq a b = true <-> a = b.

(** A query by key on a table with distinct keys finds the one row of
    that key, if there is one. *)
Lemma filter_by_key (k : K) (l : list A) :
  NoDup (map key l) ->
  (filter (fun x => keq (key x) k) l = [] /\
   forall x, In x l -> key x <> k) \/
  (exists c, filter (fun x => keq (key x) k) l = [c] /\ In c l /\ key c = k).
Proof.
  induction l as [|x r IH]; intros Hnd; simpl.
  - left. split; [reflexivity | intros x []].
  - simpl in Hnd. apply NoDup_cons_iff in Hnd. destruct Hnd as [Hfresh Hnd].
    destruct (keq (key x) k) eqn:E.
    + apply keq_spec in E. right. exists x.
      split; [|split; [now left | assumption]].
      f_equal. destruct (IH Hnd) as [[Hnil _]|[c [_ [Hc Hk]]]];
        [assumption|].
      exfalso. apply Hfresh. rewrite E, <- Hk. now apply in_map.
    + destruct (IH Hnd) as [[Hnil Hno]|[c [Hc [Hin Hk]]]].
      * left. split; [assumption|]. intros y [<-|Hy]; [|now apply Hno].
        intros Ek. apply keq_spec in Ek. congruence.
      * right. exists c. split; [assumption|]. split; [now right | assumption].
Qed.

(** Counting the rows of a key tells whether the key is in the table. *)
Lemma count_by_key (k : K) (l : list A) :
  negb (Nat.eqb (List.length (filter (fun x => keq (key x) k) l)) 0)
  = existsb (keq k) (map key l).
Proof.
  induction l as [|x r IH]; simpl; [reflexivity|].
  destruct (keq (key x) k) eqn:E.
  - apply keq_spec in E. subst k.
    assert (keq (key x) (key x) = true) as -> by now apply keq_spec.
    reflexivity.
  - destruct (keq k (key x)) eqn:E'; [|exact IH].
    apply keq_spec in E'. subst k.
    assert (keq (key x) (key x) = true) by now apply keq_spec. congruence.
Qed.

End KeyFacts.

(** X13.  On a store whose clients have distinct ids, [has_client_id] and
    [client] agree: either a client of the id is in the table,
    [has_client_id] answers [True] and [client] returns that client, or
    none is, [has_client_id] answers [False] and [client] raises
    [NoResultFound].  Each sends one query. *)
Theorem client_lookup (self : Database) (st : Store) (id : Z) (n : nat) :
  session self = Some st ->
  Client_primary_key st ->
  (exists c, In c (t_client st) /\ Client.id c = id /\
             has_client_id self id n = (inr true, S n) /\
             client self id n = (inr c, S n)) \/
  ((forall c, In c (t_client st) -> Client.id c <> id) /\
   has_client_id self id n = (inr false, S n) /\
   client self id n = (inl NoResultFound, S n)).
Proof.
  intros Hs Hpk. unfold has_client_id, client, one.
  rewrite !(bind_value _ _ _ _ _ (assert_validity_connected self st Hs n)).
  rewrite !(bind_value _ _ _ _ _ (the_session_connected self st Hs n)).
  unfold bind, fetch, ret, raise.
  destruct (filter_by_key Z.eqb Client.id Z.eqb_eq id (t_client st) Hpk)
    as [[-> Hno]|[c [-> [Hc Hid]]]].
  - right. split; [assumption|]. split; reflexivity.
  - left. exists c. repeat split; assumption.
Qed.

Lemma client_lookup_witness :
  session Example.db = Some Example.store /\
  Client_primary_key Example.store /\
  client Example.db 4 0%nat = (inr Example.c4, 1%nat) /\
  has_client_id Example.db 9 0%nat = (inr false, 1%nat) /\
  client Example.db 9 0%nat = (inl NoResultFound, 1%nat).
Proof.
  assert (Hpk : Client_primary_key Example.store).
  { unfold Client_primary_key. simpl.
    repeat (constructor; [simpl; intuition discriminate|]). constructor. }
  split; [reflexivity|]. split; [exact Hpk|]. split; [reflexivity|].
  destruct (client_lookup Example.db Example.store 9 0%nat eq_refl Hpk)
    as [[c [_ [_ [H _]]]]|[_ [H1 H2]]].
  - discriminate H.
  - split; assumption.
Defined.

(** X14.  On a store whose protocols have distinct names, a name that is
    among [protocol_names], that is, one that passes validation as a
    protocol, makes [has_protocol] answer [True] and [protocol] return the
    protocol of that name; any other name makes [has_protocol] answer
    [False] and [protocol] raise [NoResultFound]. *)
Theorem protocol_lookup (self : Database) (st : Store) (name : string)
  (n : nat) :
  session self = Some st ->
  Protocol_name_unique st ->
  (py_in name (protocol_names_of st) = true /\
   exists p, In p (t_protocol st) /\ Protocol.name p = name /\
             has_protocol self name n = (inr true, S n) /\
             protocol self name n = (inr p, S n)) \/
  (py_in name (protocol_names_of st) = false /\
   has_protocol self name n = (inr false, S n) /\
   protocol self name n = (inl NoResultFound, S n)).
Proof.
  intros Hs Hu. unfold has_protocol, protocol, one.
  rewrite !(bind_value _ _ _ _ _ (assert_validity_connected self st Hs n)).
  rewrite !(bind_value _ _ _ _ _ (the_session_connected self st Hs n)).
  unfold bind, fetch, ret, raise.
  assert (Hin : py_in name (protocol_names_of st)
                = negb (Nat.eqb (List.length
                          (filter (fun p => String.eqb (Protocol.name p) name)
                                  (t_protocol st))) 0)).
  { now rewrite (count_by_key String.eqb Protocol.name String.eqb_eq). }
  rewrite Hin.
  destruct (filter_by_key String.eqb Protocol.name String.eqb_eq name
              (t_protocol st) Hu) as [[-> Hno]|[p [-> [Hp Hname]]]].
  - right. repeat split; reflexivity.
  - left. split; [reflexivity|]. exists p. repeat split; assumption.
Qed.

Lemma protocol_lookup_witness :
  session Example.db = Some Example.store /\
  Protocol_name_unique Example.store /\
  protocol Example.db "female" 0%nat = (inr (Protocol.mk 2 "female"), 1%nat) /\
  py_in "both" (protocol_names_of Example.store) = false /\
  protocol Example.db "both" 0%nat = (inl NoResultFound, 1%nat).
Proof.
  assert (Hu : Protocol_name_unique Example.store).
  { unfold Protocol_name_unique. simpl.
    repeat (constructor; [simpl; intuition discriminate|]). constructor. }
  split; [reflexivity|]. split; [exact Hu|]. split; [reflexivity|].
  destruct (protocol_lookup Example.db Example.store "both" 0%nat eq_refl Hu)
    as [[H _]|[H1 [_ H3]]].
  - discriminate H.
  - split; assumption.
Defined.

(** X15.  [has_subworld] answers whether the name is among
    [subworld_names]: a subworld selector made of one name passes
    validation exactly when [has_subworld] answers [True] for it. *)
Theorem has_subworld_is_validation (self : Database) (st : Store)
  (name : string) (n : nat) :
  session self = Some st ->
  name <> "" ->
  has_subworld self name n = (inr (py_in name (subworld_names_of st)), S n) /\
  subworld_names self n = (inr (subworld_names_of st), S n) /\
  py_valid (PyStr name) (subworld_names_of st)
  = py_in name (subworld_names_of st).
Proof.
  intros Hs Hne. split; [|split].
  - unfold has_subworld.
    rewrite (bind_value _ _ _ _ _ (assert_validity_connected self st Hs n)).
    rewrite (bind_value _ _ _ _ _ (the_session_connected self st Hs n)).
    unfold bind, fetch, ret.
    now rewrite (count_by_key String.eqb Subworld.name String.eqb_eq).
  - now apply subworld_names_connected.
  - unfold py_valid. simpl.
    destruct (String.eqb_spec name ""); [contradiction|]. simpl.
    now rewrite andb_true_r.
Qed.

Lemma has_subworld_is_validation_witness :
  session Example.db = Some Example.store /\
  has_subworld Example.db "twothirds" 0%nat = (inr true, 1%nat) /\
  py_valid (PyStr "twothirds") (subworld_names_of Example.store) = true /\
  has_subworld Example.db "half" 0%nat = (inr false, 1%nat).
Proof.
  destruct (has_subworld_is_validation Example.db Example.store "twothirds"
              0%nat eq_refl) as [H1 [_ H3]]; [discriminate|].
  destruct (has_subworld_is_validation Example.db Example.store "half"
              0%nat eq_refl) as [H4 _]; [discriminate|].
  split; [reflexivity|]. split; [exact H1|]. split; [|exact H4].
  rewrite H3. reflexivity.
Defined.

(* ===================================================================== *)
(** ** The Files [objects] returns, exactly *)
(* ===================================================================== *)

Lemma In_if_filter_iff {A} (b : bool) (p : A -> bool) (l : list A) (x : A) :
  In x (if b then filter p l else l) <->
  In x l /\ (b = true -> p x = true).
Proof.
  destruct b; [rewrite filter_In|]; intuition discriminate.
Qed.

Lemma In_if_join_where_iff {A B} (b : bool) (related : A -> list B)
  (p : B -> bool) (l : list A) (x : A) :
  In x (if b then join_where l related p else l) <->
  In x l /\ (b = true -> exists y, In y (related x) /\ p y = true).
Proof.
  destruct b; [rewrite join_where_In_iff|]; intuition discriminate.
Qed.

Lemma length_nonempty {A} (l : list A) :
  negb (Nat.eqb (List.length l) 0) = true <-> l <> [].
Proof. destruct l; simpl; intuition congruence. Qed.

Lemma File_client_In_iff (st : Store) (f : File.t) (c : Client.t) :
  In f (t_file st) /\ In c (File_client st f) <-> File_client_row st f c.
Proof.
  unfold File_client, File_client_row. rewrite filter_In, Z.eqb_eq. tauto.
Qed.

(** The File objects of a query whose rows all carry Files of the table:
    with distinct File ids, each File of a row is returned. *)
Lemma unique_files_In {R} (st : Store) (file : R -> File.t)
  (leb : R -> R -> bool) (rows : list R) (f : File.t) :
  File_primary_key st ->
  (forall r, In r rows -> In (file r) (t_file st)) ->
  (In f (unique_list Z.eqb File.id (map file (order_by leb rows))) <->
   exists r, In r rows /\ file r = f).
Proof.
  intros Hpk Hrows. split.
  - intros H. apply (unique_list_In Z.eqb File.id Z.eqb_eq) in H.
    apply in_map_iff in H. destruct H as [r [E H]].
    apply order_by_In in H. now exists r.
  - intros [r [Hr E]].
    apply (unique_list_complete Z.eqb File.id Z.eqb_eq).
    + intros a b Ha Hb. apply in_map_iff in Ha, Hb.
      destruct Ha as [ra [<- Ha]]. destruct Hb as [rb [<- Hb]].
      apply order_by_In in Ha, Hb.
      apply (key_injective File.id (t_file st)); auto.
    + apply in_map_iff. exists r. split; [assumption | now apply order_by_In].
Qed.

Lemma trial_query_In_iff (st : Store) (protocol groups : pyvalue)
  (purpose : string) (f : File.t) (c : Client.t) (pp : ProtocolPurpose.t)
  (p : Protocol.t) :
  In (f, c, pp, p) (trial_query st protocol groups purpose) <->
  File_client_row st f c /\
  In pp (File_protocol_purposes st f) /\
  In p (ProtocolPurpose_protocol st pp) /\
  in_ (Protocol.name p) protocol = true /\
  in_ (ProtocolPurpose.sgroup pp) groups = true /\
  ProtocolPurpose.purpose pp = purpose.
Proof.
  unfold trial_query. cbv zeta.
  rewrite filter_In, !join_In. simpl.
  unfold row_Protocol, row_ProtocolPurpose. simpl.
  rewrite !andb_true_iff, String.eqb_eq, <- File_client_In_iff. tauto.
Qed.

Lemma objects_world_In_iff (st : Store) (subworld gender : pyvalue)
  (model_ids : list Z) (f : File.t) :
  File_primary_key st ->
  (In f (objects_world st subworld gender model_ids) <->
   world_file st subworld gender model_ids f).
Proof.
  intros Hpk. unfold objects_world, world_file. cbv zeta.
  rewrite (unique_files_In st fst _ _ f Hpk).
  - split.
    + intros [[f' c] [H E]]. simpl in E. subst f'. exists c.
      apply In_if_filter_iff in H. destruct H as [H Hids].
      apply In_if_filter_iff in H. destruct H as [H Hge].
      apply In_if_join_where_iff in H. destruct H as [H Hsw].
      apply filter_In in H. destruct H as [H Hw].
      apply join_In in H. apply File_client_In_iff in H.
      simpl in Hw, Hsw, Hge, Hids. apply String.eqb_eq in Hw.
      split; [assumption|]. split; [assumption|]. split; [assumption|].
      split; [assumption|].
      intros Hne. apply in_ids_In. apply Hids. now apply length_nonempty.
    + intros [c [Hrow [Hw [Hsw [Hge Hids]]]]]. exists (f, c).
      split; [|reflexivity].
      apply In_if_filter_iff. split.
      * apply In_if_filter_iff. split; [|exact Hge].
        apply In_if_join_where_iff. split; [|exact Hsw].
        apply filter_In. split.
        -- apply join_In. now apply File_client_In_iff.
        -- simpl. now apply String.eqb_eq.
      * simpl. intros Hne. apply in_ids_In. apply Hids.
        now apply length_nonempty.
  - intros [f' c] H.
    apply In_if_filter_iff in H. destruct H as [H _].
    apply In_if_filter_iff in H. destruct H as [H _].
    apply In_if_join_where_iff in H. destruct H as [H _].
    apply filter_In in H. destruct H as [H _].
    apply join_In in H. tauto.
Qed.

Lemma trial_rows_in_table (st : Store) (protocol groups : pyvalue)
  (purpose : string) (r : trial_row) :
  In r (trial_query st protocol groups purpose) ->
  In (row_File r) (t_file st).
Proof.
  intros H. apply trial_query_In in H. destruct H as [[H _] _]. exact H.
Qed.

Lemma claimed_rows_In_iff (st : Store) (protocol groups gender : pyvalue)
  (purpose : string) (model_ids : list Z) (f : File.t) :
  File_primary_key st ->
  (In f (unique_list Z.eqb File.id
           (map row_File
              (order_by (fun a b => File_leb (row_File a) (row_File b))
                 (if negb (Nat.eqb (List.length model_ids) 0)
                  then filter (fun r => in_ids (Client.id (row_Client r))
                                               model_ids)
                         (if py_truth gender
                          then filter (fun r => in_ (Client.gender (row_Client r))
                                                    gender)
                                 (trial_query st protocol groups purpose)
                          else trial_query st protocol groups purpose)
                  else
                    (if py_truth gender
                     then filter (fun r => in_ (Client.gender (row_Client r))
                                               gender)
                            (trial_query st protocol groups purpose)
                     else trial_query st protocol groups purpose))))) <->
   claimed_file st protocol groups gender purpose model_ids f).
Proof.
  intros Hpk. unfold claimed_file.
  rewrite (unique_files_In st row_File _ _ f Hpk).
  - split.
    + intros [[[[f' c] pp] p] [H E]]. unfold row_File in E. simpl in E.
      subst f'. exists c.
      apply In_if_filter_iff in H. destruct H as [H Hids].
      apply In_if_filter_iff in H. destruct H as [H Hge].
      apply trial_query_In_iff in H.
      destruct H as [Hrow [Hpp [Hp [Hn [Hg Hpu]]]]].
      unfold row_Client in *. simpl in *.
      split; [assumption|]. split; [now exists pp, p|].
      split; [assumption|].
      intros Hne. destruct Hrow as [_ [_ <-]].
      apply in_ids_In. apply Hids. now apply length_nonempty.
    + intros [c [Hrow [[pp [p [Hpp [Hp [Hn [Hg Hpu]]]]]] [Hge Hids]]]].
      exists (f, c, pp, p). split; [|reflexivity].
      apply In_if_filter_iff. split.
      * apply In_if_filter_iff. split; [|exact Hge].
        apply trial_query_In_iff. tauto.
      * unfold row_Client. simpl. intros Hne. apply in_ids_In.
        destruct Hrow as [_ [_ ->]]. apply Hids. now apply length_nonempty.
  - intros r H.
    apply In_if_filter_iff in H. destruct H as [H _].
    apply In_if_filter_iff in H. destruct H as [H _].
    now apply trial_rows_in_table in H.
Qed.

Lemma objects_probe_impostor_In_iff (st : Store)
  (protocol groups gender : pyvalue) (model_ids : list Z) (f : File.t) :
  File_primary_key st ->
  (In f (objects_probe_impostor st protocol groups gender model_ids) <->
   impostor_file st protocol groups gender model_ids f).
Proof.
  intros Hpk. unfold objects_probe_impostor, impostor_file. cbv zeta.
  rewrite (unique_files_In st row_File _ _ f Hpk).
  - split.
    + intros [[[[f' c] pp] p] [H E]]. unfold row_File in E. simpl in E.
      subst f'. exists c.
      apply In_if_filter_iff in H. destruct H as [H Hids].
      apply In_if_filter_iff in H. destruct H as [H Hge].
      apply trial_query_In_iff in H.
      destruct H as [Hrow [Hpp [Hp [Hn [Hg Hpu]]]]].
      unfold row_Client, row_File in *. simpl in *.
      split; [assumption|]. split; [now exists pp, p|].
      split; [assumption|].
      intros Hlen Hin. apply Nat.eqb_eq in Hlen. specialize (Hids Hlen).
      apply negb_true_iff in Hids. apply in_ids_In in Hin. congruence.
    + intros [c [Hrow [[pp [p [Hpp [Hp [Hn [Hg Hpu]]]]]] [Hge Hids]]]].
      exists (f, c, pp, p). split; [|reflexivity].
      apply In_if_filter_iff. split.
      * apply In_if_filter_iff. split; [|exact Hge].
        apply trial_query_In_iff. tauto.
      * unfold row_File. simpl. intros Hlen. apply Nat.eqb_eq in Hlen.
        apply negb_true_iff.
        destruct (in_ids (File.client_id f) model_ids) eqn:E; [|reflexivity].
        apply in_ids_In in E. now apply Hids in E.
  - intros r H.
    apply In_if_filter_iff in H. destruct H as [H _].
    apply In_if_filter_iff in H. destruct H as [H _].
    now apply trial_rows_in_table in H.
Qed.

Lemma objects_retval_In_iff (st : Store) (protocol purposes : pyvalue)
  (model_ids : list Z) (groups classes subworld gender : pyvalue) (f : File.t) :
  File_primary_key st ->
  (In f (objects_retval st protocol purposes model_ids groups classes subworld
                        gender) <->
   selected_by_objects st protocol purposes model_ids groups classes subworld
                       gender f).
Proof.
  intros Hpk. unfold objects_retval, selected_by_objects.
  assert (He : In f (objects_enrol st protocol groups gender model_ids) <->
               claimed_file st protocol groups gender "enrol" model_ids f).
  { unfold objects_enrol. cbv zeta. now apply claimed_rows_In_iff. }
  assert (Hc : In f (objects_probe_client st protocol groups gender model_ids)
               <-> claimed_file st protocol groups gender "probe" model_ids f).
  { unfold objects_probe_client. cbv zeta. now apply claimed_rows_In_iff. }
  pose proof (objects_world_In_iff st subworld gender model_ids f Hpk) as Hw.
  pose proof (objects_probe_impostor_In_iff st protocol groups gender model_ids
                f Hpk) as Hi.
  rewrite in_app_iff.
  destruct (py_in "world" groups), (py_in "dev" groups || py_in "eval" groups),
    (py_in "enrol" purposes), (py_in "probe" purposes),
    (py_in "client" classes), (py_in "impostor" classes);
    rewrite ?in_app_iff; simpl In; intuition discriminate.
Qed.

Lemma selected_in_table (st : Store) (protocol purposes : pyvalue)
  (model_ids : list Z) (groups classes subworld gender : pyvalue) (f : File.t) :
  selected_by_objects st protocol purposes model_ids groups classes subworld
                      gender f ->
  In f (t_file st).
Proof.
  unfold selected_by_objects, world_file, claimed_file, impostor_file,
    File_client_row.
  intros [[_ [c [[H _] _]]]
         |[_ [[_ [c [[H _] _]]]|[[_ [_ [c [[H _] _]]]]|[_ [_ [c [[H _] _]]]]]]]];
    exact H.
Qed.

(** X16.  On a store whose Files have distinct ids, [objects] returns
    exactly the Files that a branch it takes looks for: the Files of world
    clients when world is among the groups; and, when dev or eval is,
    the enrol Files of the claimed clients, the probe Files of the claimed
    clients for the class client, and for the class impostor the probe
    Files, less those of the model id when exactly one is given. *)
Theorem objects_selects_exactly (self : Database) (st : Store)
  (protocol purposes : pyvalue) (model_ids : model_ids_value)
  (groups classes subworld gender : pyvalue) (n n' : nat) (l : list File.t) :
  session self = Some st ->
  File_primary_key st ->
  objects self protocol purposes model_ids groups classes subworld gender n
    = (inr l, n') ->
  forall f,
    In f l <->
    selected_by_objects st
      (validated protocol (protocol_names_of st))
      (validated purposes ProtocolPurpose.purpose_choices)
      (model_ids_list model_ids)
      (validated groups ProtocolPurpose.group_choices)
      (validated classes (PyTuple ["client"; "impostor"]))
      (validated subworld (PyStr "")) (validated gender (PyStr "")) f.
Proof.
  intros Hs Hpk H f.
  apply (objects_result _ st) in H; [|assumption]. destruct H as [-> _].
  rewrite <- (objects_retval_In_iff st _ _ _ _ _ _ _ f Hpk).
  unfold list_set. split.
  - apply (unique_list_In Z.eqb File.id Z.eqb_eq).
  - apply (unique_list_complete Z.eqb File.id Z.eqb_eq).
    intros a b Ha Hb.
    apply (objects_retval_In_iff st _ _ _ _ _ _ _ a Hpk) in Ha.
    apply (objects_retval_In_iff st _ _ _ _ _ _ _ b Hpk) in Hb.
    apply selected_in_table in Ha, Hb.
    now apply (key_injective File.id (t_file st)).
Qed.

Lemma objects_selects_exactly_witness :
  session Example.db = Some Example.store /\
  File_primary_key Example.store /\
  objects Example.db (PyStr "male") (PyStr "probe") (ModelId 3) (PyStr "dev")
          (PyStr "impostor") PyNone PyNone 0%nat
    = (inr [Example.f5], 3%nat) /\
  (In Example.f4 [Example.f5] <->
   selected_by_objects Example.store (PyTuple ["male"]) (PyTuple ["probe"])
     [3] (PyTuple ["dev"]) (PyTuple ["impostor"]) (PyStr "") (PyStr "")
     Example.f4).
Proof.
  assert (Hpk : File_primary_key Example.store).
  { unfold File_primary_key. simpl.
    repeat (constructor; [simpl; intuition discriminate|]). constructor. }
  split; [reflexivity|]. split; [exact Hpk|]. split; [reflexivity|].
  apply (objects_selects_exactly Example.db Example.store (PyStr "male")
           (PyStr "probe") (ModelId 3) (PyStr "dev") (PyStr "impostor") PyNone
           PyNone 0%nat 3%nat [Example.f5] eq_refl Hpk eq_refl Example.f4).
Defined.

(* ===================================================================== *)
(** ** T-norm models and their clients *)
(* ===================================================================== *)

Lemma tmodels_returns (self : Database) (st : Store)
  (protocol groups subworld gender : pyvalue) (n n' : nat) (l : list TModel.t) :
  session self = Some st ->
  tmodels self protocol groups subworld gender n = (inr l, n') ->
  l = tmodels_query st (validated subworld (PyStr ""))
        (validated gender (PyStr "")) /\
  n' = (n + 3)%nat.
Proof.
  intros Hs. rewrite (tmodels_connected _ st) by assumption.
  unfold bind, lift.
  destruct (check_validity protocol _ _ _) as [|p'] eqn:E1; [discriminate|].
  destruct (check_validity groups _ _ _) as [|g'] eqn:E2; [discriminate|].
  destruct (check_validity subworld _ _ _) as [|s'] eqn:E3; [discriminate|].
  destruct (check_validity gender _ _ _) as [|ge'] eqn:E4; [discriminate|].
  apply check_validity_validated in E3, E4. subst.
  unfold fetch. intros H. injection H as <- <-. split; [reflexivity | lia].
Qed.

(** X17.  Every T-norm model that [tmodels] returns is a model of the
    store whose client row exists; that client is in one of the given
    subworlds and of one of the given genders, when those are given. *)
Theorem tmodels_have_selected_clients (self : Database) (st : Store)
  (protocol groups subworld gender : pyvalue) (n n' : nat) (l : list TModel.t) :
  session self = Some st ->
  tmodels self protocol groups subworld gender n = (inr l, n') ->
  forall m, In m l ->
    In m (t_tmodel st) /\
    exists c,
      In c (t_client st) /\ Client.id c = TModel.client_id m /\
      (py_truth subworld = true ->
       exists s, In s (Client_subworld st c) /\
                 In (Subworld.name s) (checked_items subworld)) /\
      (py_truth gender = true -> In (Client.gender c) (checked_items gender)).
Proof.
  intros Hs H m Hm. apply (tmodels_returns _ st) in H; [|assumption].
  destruct H as [-> _]. unfold tmodels_query in Hm. cbv zeta in Hm.
  apply (unique_list_In String.eqb TModel.id String.eqb_eq) in Hm.
  apply in_map_iff in Hm. destruct Hm as [[m' c] [E H]]. simpl in E. subst m'.
  apply order_by_In in H.
  apply In_if_filter in H. destruct H as [H Hge].
  apply In_if_join_where in H. destruct H as [H Hsw].
  apply join_In in H. destruct H as [Hm Hc].
  unfold TModel_client in Hc. apply filter_In in Hc. destruct Hc as [Hc Hid].
  apply Z.eqb_eq in Hid. simpl in Hge, Hsw.
  split; [assumption|]. exists c.
  split; [assumption|]. split; [assumption|]. split.
  - intros Ht. rewrite py_truth_validated in Hsw.
    destruct (Hsw Ht) as [s [Hs1 Hs2]]. exists s. split; [assumption|].
    now apply (in_validated_true subworld _ Ht).
  - intros Ht. rewrite py_truth_validated in Hge.
    now apply (in_validated_true gender _ Ht), Hge.
Qed.

Lemma tmodels_have_selected_clients_witness :
  session Example.db = Some Example.store /\
  tmodels Example.db PyNone PyNone (PyStr "onethird") (PyStr "male") 0%nat
    = (inr [TModel.mk "t001" 1], 3%nat) /\
  (exists c, In c (t_client Example.store) /\ Client.id c = 1 /\
             In (Client.gender c) ["male"]) /\
  tmodels Example.db PyNone PyNone (PyStr "onethird") (PyStr "female") 0%nat
    = (inr [], 3%nat).
Proof.
  split; [reflexivity|]. split; [reflexivity|]. split; [|reflexivity].
  destruct (tmodels_have_selected_clients Example.db Example.store PyNone
              PyNone (PyStr "onethird") (PyStr "male") 0%nat 3%nat
              [TModel.mk "t001" 1] eq_refl eq_refl (TModel.mk "t001" 1)
              (or_introl eq_refl)) as [_ [c [Hc [Hid [_ Hge]]]]].
  exists c. split; [assumption|]. split; [assumption|]. now apply Hge.
Defined.

(* ===================================================================== *)
(** ** Validating twice, and the queries sent *)
(* ===================================================================== *)

(** X18.  Validation is idempotent for both defaults the methods use, the
    empty string and the allowed values themselves: a selector that a
    method has validated can be handed to another method, which validates
    it again against the same values and gets it back unchanged. *)
Theorem validation_is_idempotent (l : pyvalue) (obj obj' : string)
  (valid v : pyvalue) :
  (check_validity l obj valid (PyStr "") = inr v ->
   check_validity v obj' valid (PyStr "") = inr v) /\
  (is_tuple_or_list valid = true ->
   check_validity l obj valid valid = inr v ->
   check_validity v obj' valid valid = inr v).
Proof.
  split; [apply check_validity_idem|].
  intros Hseq H. apply check_validity_returns in H.
  destruct H as [[_ ->] | [Ht [-> Hall]]].
  - now apply check_validity_every_value.
  - rewrite check_validity_valid.
    + now rewrite (py_truth_as_sequence _ Ht), as_sequence_idem.
    + unfold py_valid. rewrite checked_items_as_sequence, Hall.
      apply orb_true_r.
Qed.

Lemma validation_is_idempotent_witness :
  check_validity (PyStr "male") "gender" gender_choices (PyStr "")
    = inr (PyTuple ["male"]) /\
  check_validity (PyTuple ["male"]) "protocol" gender_choices (PyStr "")
    = inr (PyTuple ["male"]) /\
  check_validity gender_choices "protocol" gender_choices gender_choices
    = inr gender_choices.
Proof.
  destruct (validation_is_idempotent (PyStr "male") "gender" "protocol"
              gender_choices (PyTuple ["male"])) as [H1 _].
  destruct (validation_is_idempotent PyNone "gender" "protocol"
              gender_choices gender_choices) as [_ H2].
  split; [reflexivity|]. split; [apply H1; reflexivity|].
  apply H2; reflexivity.
Defined.

Lemma objects_queries_bound (purposes groups classes : pyvalue) :
  (objects_queries purposes groups classes <= 4)%nat.
Proof.
  unfold objects_queries.
  destruct (py_in "world" groups), (py_in "dev" groups || py_in "eval" groups),
    (py_in "enrol" purposes), (py_in "probe" purposes),
    (py_in "client" classes), (py_in "impostor" classes); simpl; lia.
Qed.

(** X19.  A call that returns has sent a fixed number of queries: three
    for [clients] and for [tmodels] (the registered protocol names, the
    registered subworld names, the selection), and for [objects] the two
    for the names and one for each branch taken, six at most. *)
Theorem queries_sent_by_a_call (self : Database) (st : Store)
  (protocol purposes groups classes subworld gender : pyvalue)
  (model_ids : model_ids_value) (n n' : nat) :
  session self = Some st ->
  (forall l, clients self protocol groups subworld gender n = (inr l, n') ->
             n' = (n + 3)%nat) /\
  (forall l, tmodels self protocol groups subworld gender n = (inr l, n') ->
             n' = (n + 3)%nat) /\
  (forall l,
     objects self protocol purposes model_ids groups classes subworld gender n
       = (inr l, n') ->
     n' = (n + 2 + objects_queries
                     (validated purposes ProtocolPurpose.purpose_choices)
                     (validated groups ProtocolPurpose.group_choices)
                     (validated classes (PyTuple ["client"; "impostor"])))%nat
     /\ (n + 2 <= n' <= n + 6)%nat).
Proof.
  intros Hs. split; [|split].
  - intros l H. now apply (clients_returns _ st) in H.
  - intros l H. now apply (tmodels_returns _ st) in H.
  - intros l H. apply (objects_result _ st) in H; [|assumption].
    destruct H as [_ ->]. split; [reflexivity|].
    pose proof (objects_queries_bound
                  (validated purposes ProtocolPurpose.purpose_choices)
                  (validated groups ProtocolPurpose.group_choices)
                  (validated classes (PyTuple ["client"; "impostor"]))).
    lia.
Qed.

Lemma queries_sent_by_a_call_witness :
  session Example.db = Some Example.store /\
  objects Example.db PyNone PyNone NoModelIds PyNone PyNone PyNone PyNone 0%nat
    = (inr [Example.f1; Example.f2; Example.f3; Example.f4; Example.f5;
            Example.f6], 6%nat) /\
  (0 + 2 <= 6 <= 0 + 6)%nat.
Proof.
  split; [reflexivity|]. split; [reflexivity|].
  destruct (queries_sent_by_a_call Example.db Example.store PyNone PyNone
              PyNone PyNone PyNone PyNone NoModelIds 0%nat 6%nat eq_refl)
    as [_ [_ H]].
  destruct (H _ eq_refl) as [_ Hb]. exact Hb.
Defined.
